(** * Blockchain_Python: proof-of-work chain, Merkle root, majority vote

    A shallow embedding of [src/exam.py] and [src/merkle9chain.py].

    Python [str] values are modelled by their UTF-8 byte strings (Rocq
    [string]): concatenation, [startswith] on an ASCII prefix and
    [.encode()] commute with that encoding, so [content.encode()] is the
    identity here.  Python [int] is [Z].  [time.time()] is a read of the
    environment: a [Clock] gives the successive readings, each as the
    text that the f-string of [calculate_hash] renders the float to.  The
    digest function is a parameter of the development ([Hasher]); the
    concrete runs instantiate it with SHA-256.  A [while True] loop runs
    for a budget of rounds ([fuel]) and is [Running] when the budget is
    spent. *)

From Stdlib Require Import ZArith String Ascii List Bool Lia DecimalString.
From stdpp Require Import base list strings.
Import ListNotations.
Local Open Scope string_scope.
Local Open Scope list_scope.
Local Open Scope Z_scope.

(** ** Python built-ins used by the two files *)
Module Py.

(** [str(n)] for an [int], as an f-string renders it. *)
Definition str (n : Z) : string := NilZero.string_of_int (Z.to_int n).

(** [s.startswith(prefix)]. *)
Definition startswith (s prefix : string) : bool := String.prefix prefix s.

(** [s * n]: [n] copies of [s], the empty string when [n <= 0]. *)
Definition mul (s : string) (n : Z) : string :=
  String.concat "" (repeat s (Z.to_nat n)).

(** Exceptions the modelled code raises. *)
Inductive exn := IndexError | AssertionError.

(** Outcome of a call: a value, a raised exception, or a [while True]
    loop still running when the iteration budget is spent. *)
Inductive result (A : Type) :=
| Ok (a : A)
| Raise (e : exn)
| Running.
Arguments Ok {A} a.
Arguments Raise {A} e.
Arguments Running {A}.

(** [l[i]] for a list: negative positions count from the end, anything
    outside [-len(l) <= i < len(l)] raises [IndexError].  The value is
    the position read. *)
Definition index {A} (l : list A) (i : Z) : result nat :=
  let n := Z.of_nat (length l) in
  if (0 <=? i) && (i <? n) then Ok (Z.to_nat i)
  else if (- n <=? i) && (i <? 0) then Ok (Z.to_nat (n + i))
  else Raise IndexError.

(** A computation that reads the clock: the state is the number of
    [time.time()] calls made so far. *)
Record io (A : Type) : Type := IO { run : nat -> result (A * nat) }.
Arguments IO {A} run.
Arguments run {A} i k.

Definition ret {A} (a : A) : io A := IO (fun k => Ok (a, k)).

Definition bind {A B} (m : io A) (f : A -> io B) : io B :=
  IO (fun k => match run m k with
               | Ok (a, k') => run (f a) k'
               | Raise e => Raise e
               | Running => Running
               end).

Definition raise {A} (e : exn) : io A := IO (fun _ => Raise e).

(** A computation that leaves the clock alone. *)
Definition lift {A} (r : result A) : io A :=
  IO (fun k => match r with
               | Ok a => Ok (a, k)
               | Raise e => Raise e
               | Running => Running
               end).

(** [for x in xs: body(x)] over a state [S] that the body updates. *)
Fixpoint for_ {X S} (xs : list X) (body : X -> S -> io S) (s : S) : io S :=
  match xs with
  | [] => ret s
  | x :: xs' => bind (body x s) (for_ xs' body)
  end.

(** [range(a, b)]. *)
Definition range (a b : Z) : list Z :=
  map (fun i => a + Z.of_nat i) (seq 0 (Z.to_nat (b - a))).

End Py.

(** ** [hashlib.sha256(...).hexdigest()] (FIPS 180-4) *)
Module SHA256.

Definition w32 (x : Z) : Z := Z.land x 0xffffffff.
Definition add32 (x y : Z) : Z := w32 (x + y).
Definition rotr (n x : Z) : Z :=
  Z.lor (Z.shiftr x n) (w32 (Z.shiftl x (32 - n))).
Definition shr (n x : Z) : Z := Z.shiftr x n.
Definition not32 (x : Z) : Z := Z.lxor x 0xffffffff.

Definition Ch (x y z : Z) : Z := Z.lxor (Z.land x y) (Z.land (not32 x) z).
Definition Maj (x y z : Z) : Z :=
  Z.lxor (Z.lxor (Z.land x y) (Z.land x z)) (Z.land y z).
Definition Sigma0 (x : Z) : Z := Z.lxor (Z.lxor (rotr 2 x) (rotr 13 x)) (rotr 22 x).
Definition Sigma1 (x : Z) : Z := Z.lxor (Z.lxor (rotr 6 x) (rotr 11 x)) (rotr 25 x).
Definition sigma0 (x : Z) : Z := Z.lxor (Z.lxor (rotr 7 x) (rotr 18 x)) (shr 3 x).
Definition sigma1 (x : Z) : Z := Z.lxor (Z.lxor (rotr 17 x) (rotr 19 x)) (shr 10 x).

(** The constants of the standard are roots of the first primes: the
    first 32 bits of the fractional parts of the cube roots of the first
    64 primes, and of the square roots of the first 8. *)
Definition is_prime (n : nat) : bool :=
  forallb (fun d => negb (n mod d =? 0)%nat) (seq 2 (n - 2)).

Definition primes : list Z := map Z.of_nat (filter is_prime (seq 2 310)).

(** The largest [r] below [2 ^ bits] with [r ^ 3 <= n], bit by bit. *)
Fixpoint cube_root (bits : nat) (n r : Z) : Z :=
  match bits with
  | O => r
  | S bits' =>
      let r' := r + 2 ^ Z.of_nat bits' in
      cube_root bits' n (if r' * r' * r' <=? n then r' else r)
  end.

Definition K : list Z :=
  Eval vm_compute in map (fun p => w32 (cube_root 36 (p * 2 ^ 96) 0)) primes.

Definition H0 : list Z :=
  Eval vm_compute in map (fun p => w32 (Z.sqrt (p * 2 ^ 64))) (firstn 8 primes).

Definition bytes_of (s : string) : list Z :=
  map (fun c => Z.of_N (N_of_ascii c)) (list_ascii_of_string s).

(** Big-endian bytes of [x], [n] of them. *)
Fixpoint be_bytes (n : nat) (x : Z) : list Z :=
  match n with
  | O => []
  | S n' => Z.land (Z.shiftr x (8 * Z.of_nat n')) 0xff :: be_bytes n' x
  end.

(** The message, a 1 bit, zeros up to 56 modulo 64, the bit length. *)
Definition pad (msg : list Z) : list Z :=
  let len := Z.of_nat (length msg) in
  let zeros := Z.to_nat ((55 - len) mod 64) in
  msg ++ 0x80 :: repeat 0 zeros ++ be_bytes 8 (8 * len).

Fixpoint words (fuel : nat) (bs : list Z) : list Z :=
  match fuel, bs with
  | S fuel', b0 :: b1 :: b2 :: b3 :: rest =>
      (((b0 * 256 + b1) * 256 + b2) * 256 + b3) :: words fuel' rest
  | _, _ => []
  end.

Fixpoint chunks (fuel : nat) (ws : list Z) : list (list Z) :=
  match fuel, ws with
  | S fuel', _ :: _ => firstn 16 ws :: chunks fuel' (skipn 16 ws)
  | _, _ => []
  end.

Definition at_ (l : list Z) (i : nat) : Z := nth i l 0.

(** One of the 64 rounds: [w] is the sliding window W[t .. t+15]. *)
Definition round (st : list Z * list Z) (k : Z) : list Z * list Z :=
  let '(v, w) := st in
  let a := at_ v 0 in let b := at_ v 1 in let c := at_ v 2 in
  let d := at_ v 3 in let e := at_ v 4 in let f := at_ v 5 in
  let g := at_ v 6 in let h := at_ v 7 in
  let t1 := add32 (add32 (add32 (add32 h (Sigma1 e)) (Ch e f g)) k) (at_ w 0) in
  let t2 := add32 (Sigma0 a) (Maj a b c) in
  let w16 := add32 (add32 (add32 (sigma1 (at_ w 14)) (at_ w 9))
                          (sigma0 (at_ w 1))) (at_ w 0) in
  ([add32 t1 t2; a; b; c; add32 d t1; e; f; g], tl w ++ [w16]).

Definition compress (h : list Z) (block : list Z) : list Z :=
  let '(v, _) := fold_left round K (h, block) in
  map (fun p => add32 (fst p) (snd p)) (combine h v).

Definition digest (msg : list Z) : list Z :=
  let ws := words (length msg + 72)%nat (pad msg) in
  fold_left compress (chunks (length ws) ws) H0.

Definition hex_digit (d : Z) : ascii :=
  nth (Z.to_nat d) (list_ascii_of_string "0123456789abcdef") "0"%char.

Fixpoint hex (n : nat) (x : Z) : string :=
  match n with
  | O => ""
  | S n' => String (hex_digit (Z.land (Z.shiftr x (4 * Z.of_nat n')) 0xf)) (hex n' x)
  end.

Definition hexdigest (s : string) : string :=
  String.concat "" (map (hex 8) (digest (bytes_of s))).

End SHA256.


#[global] Instance io_ret : MRet Py.io := @Py.ret.
#[global] Instance io_bind : MBind Py.io := fun A B f m => Py.bind m f.

(** The two readings of the environment: the digest function and the
    successive values of [time.time()], as text. *)
Class Hasher := sha256 : string -> string.
Class Clock := reading : nat -> string.

Definition time_time `{Clock} : Py.io string :=
  Py.IO (fun k => Py.Ok (reading k, S k)).

(** The three per-block checks of [is_chain_valid], in source order. *)
Inductive problem := HashMismatch | LinkMismatch | DifficultyUnmet.

(** ** [src/exam.py] *)
Module Exam.

(** *** [class Block] *)
Module Block.

(** The attributes [__init__] assigns before it mines (lines 8-13). *)
Record attrs := mk_attrs {
  index : Z;
  timestamp : string;
  data : string;
  previous_hash : string;
  nonce : Z;
  difficulty : Z }.

(** A constructed block: those attributes and [hash] (line 14).  An
    attribute of a block is read through [self]. *)
Record t := mk { self : attrs; hash : string }.
#[global] Coercion self : t >-> attrs.

Definition set_nonce (n : Z) (b : attrs) : attrs :=
  mk_attrs (index b) (timestamp b) (data b) (previous_hash b) n (difficulty b).

Definition set_data (d : string) (b : t) : t :=
  mk (mk_attrs (index b) (timestamp b) d (previous_hash b) (nonce b) (difficulty b))
     (hash b).

Definition set_hash (h : string) (b : t) : t := mk (self b) h.

Section Code.
Context `{Hasher, Clock}.

Definition calculate_hash (b : attrs) : string :=
  let content :=
    Py.str (index b) +:+ timestamp b +:+ data b +:+ previous_hash b
           +:+ Py.str (nonce b) in
  sha256 content.

(** The [while True] loop of [mine_block], at most [fuel] rounds:
    the value returned and the object as the loop leaves it. *)
Fixpoint mine_loop (fuel : nat) (prefix : string) (b : attrs)
  : Py.result (string * attrs) :=
  match fuel with
  | O => Py.Running
  | S fuel' =>
      let hash_val := calculate_hash b in
      if Py.startswith hash_val prefix then Py.Ok (hash_val, b)
      else mine_loop fuel' prefix (set_nonce (nonce b + 1) b)
  end.

Definition mine_block (fuel : nat) (b : attrs) : Py.result (string * attrs) :=
  let prefix := Py.mul "0" (difficulty b) in
  mine_loop fuel prefix b.

Definition __init__ (fuel : nat) (index : Z) (data previous_hash : string)
    (difficulty : Z) : Py.io t :=
  now ← time_time;
  let b := mk_attrs index now data previous_hash 0 difficulty in
  mined ← Py.lift (mine_block fuel b);
  Py.ret (mk (snd mined) (fst mined)).
End Code.
End Block.
#[global] Coercion Block.self : Block.t >-> Block.attrs.

(** *** [class MerkleTree] *)
Module MerkleTree.
Section Code.
Context `{Hasher}.

(** Lines 35-36: an odd level gets its last element once more. *)
Definition pad (current_level : list string) : list string :=
  if negb (Z.of_nat (length current_level) mod 2 =? 0)
  then match last current_level with
       | Some x => current_level ++ [x]
       | None => current_level
       end
  else current_level.

(** Lines 37-40: the parents of the adjacent pairs. *)
Fixpoint next_level (current_level : list string) : list string :=
  match current_level with
  | a :: b :: rest => sha256 (a +:+ b) :: next_level rest
  | _ => []
  end.

(** The [while len(current_level) > 1] loop, at most [fuel] rounds. *)
Fixpoint reduce (fuel : nat) (current_level : list string)
  : option (list string) :=
  if Z.of_nat (length current_level) >? 1
  then match fuel with
       | O => None
       | S fuel' => reduce fuel' (next_level (pad current_level))
       end
  else Some current_level.

(** [hashes[:]] is a fresh list: the argument is only read.  A level
    shrinks at every round, so [length hashes] rounds are enough and the
    loop always ends on one element (lemma [exam_reduce_total]). *)
Definition calculate_merkle_root (hashes : list string) : option string :=
  match hashes with
  | [] => None
  | _ :: _ =>
      let current_level := hashes in
      match reduce (length hashes) current_level with
      | Some (root :: _) => Some root
      | _ => None
      end
  end.
End Code.
End MerkleTree.

(** *** [class Blockchain] *)
Module Blockchain.

Record t := mk {
  difficulty : Z;
  chain : list Block.t;
  merkle_root : option string }.

Section Code.
Context `{Hasher, Clock}.

Definition create_genesis_block (fuel : nat) (difficulty : Z) : Py.io Block.t :=
  Block.__init__ fuel 0 "Genesis Block" "0" difficulty.

Definition __init__ (fuel : nat) (difficulty : Z) : Py.io t :=
  genesis ← create_genesis_block fuel difficulty;
  Py.ret (mk difficulty [genesis] None).

Definition add_block (fuel : nat) (data : string) (self : t) : Py.io t :=
  match last (chain self) with
  | None => Py.raise Py.IndexError
  | Some latest =>
      let prev_hash := Block.hash latest in
      new_block ← Block.__init__ fuel (Z.of_nat (length (chain self)))
                     data prev_hash (difficulty self);
      Py.ret (mk (difficulty self) (chain self ++ [new_block]) (merkle_root self))
  end.

(** The value returned and the chain with its cache refreshed. *)
Definition compute_merkle_root (self : t) : option string * t :=
  let hashes := map Block.hash (chain self) in
  let root := MerkleTree.calculate_merkle_root hashes in
  (root, mk (difficulty self) (chain self) root).

Definition line (b : Block.t) (p : problem) : string :=
  match p with
  | HashMismatch => "Bloc #" +:+ Py.str (Block.index b) +:+ " hash invalide !"
  | LinkMismatch =>
      "Bloc #" +:+ Py.str (Block.index b) +:+ " lien au bloc précédent invalide !"
  | DifficultyUnmet =>
      "Bloc #" +:+ Py.str (Block.index b) +:+ " difficulté PoW non respectée !"
  end.

(** The body of the [for] loop at positions [i :: rest]: the line of
    the first check that fails, at which the function returns.  The
    positions come from [range(1, len(self.chain))], so both lookups
    succeed. *)
Fixpoint first_failure (chain : list Block.t) (prefix : string)
    (positions : list nat) : option string :=
  match positions with
  | [] => None
  | i :: rest =>
      match chain !! i, chain !! (i - 1)%nat with
      | Some current, Some prev =>
          if bool_decide (Block.hash current ≠ Block.calculate_hash current)
          then Some (line current HashMismatch)
          else if bool_decide (Block.previous_hash current ≠ Block.hash prev)
          then Some (line current LinkMismatch)
          else if negb (Py.startswith (Block.hash current) prefix)
          then Some (line current DifficultyUnmet)
          else first_failure chain prefix rest
      | _, _ => first_failure chain prefix rest
      end
  end.

(** The value returned and the lines printed. *)
Definition is_chain_valid (self : t) : bool * list string :=
  let prefix := Py.mul "0" (difficulty self) in
  match first_failure (chain self) prefix (seq 1 (length (chain self) - 1)) with
  | Some msg => (false, [msg])
  | None =>
      let recalculated :=
        MerkleTree.calculate_merkle_root (map Block.hash (chain self)) in
      if bool_decide (recalculated ≠ merkle_root self)
      then (false, ["Racine Merkle invalide !"])
      else (true, [])
  end.
End Code.
End Blockchain.

(** *** [class Network]

    The replicas of a network are distinct objects ([__init__] builds
    each one afresh), so a write through [self.nodes[idx]] is an update
    of that position of the list and of nothing else. *)
Module Network.

Record t := mk {
  nodes : list Blockchain.t;
  difficulty : Z }.

Section Code.
Context `{Hasher, Clock}.

Definition build_node (fuel : nat) (difficulty : Z) : Py.io Blockchain.t :=
  bc ← Blockchain.__init__ fuel difficulty;
  bc ← Py.for_ (Py.range 1 9)
          (fun j bc => Blockchain.add_block fuel ("Donnée #" +:+ Py.str j) bc) bc;
  Py.ret (snd (Blockchain.compute_merkle_root bc)).

Definition __init__ (fuel : nat) (node_count : Z) (difficulty : Z) : Py.io t :=
  if negb (node_count mod 2 =? 1) then Py.raise Py.AssertionError
  else
    nodes ← Py.for_ (Py.range 0 node_count)
               (fun _ nodes => bc ← build_node fuel difficulty;
                               Py.ret (nodes ++ [bc])) [];
    Py.ret (mk nodes difficulty).

(** [validate_all] and [majority_vote] also print, each replica's
    validation lines and a verdict; only the values returned are kept. *)
Definition validate_all (self : t) : list bool :=
  map (fun bc => fst (Blockchain.is_chain_valid bc)) (nodes self).

Definition valides (self : t) : Z :=
  Z.of_nat (length (filter (fun bc => fst (Blockchain.is_chain_valid bc) = true)
                           (nodes self))).

Definition majority_vote (self : t) : bool :=
  if valides self >? Z.of_nat (length (nodes self)) / 2 then true else false.

(** Lines 135-137 on one block. *)
Definition falsify (b : Block.t) : Block.t :=
  let b := Block.set_data "FALSIFIED DATA" b in
  Block.set_hash (Block.calculate_hash b) b.

(** Lines 133-137: the inner loop on the chain of one replica. *)
Fixpoint corrupt_blocks (chain : list Block.t) (blocks_to_corrupt : list Z)
  : list Block.t :=
  match blocks_to_corrupt with
  | [] => chain
  | bidx :: rest =>
      if (0 <=? bidx) && (bidx <? Z.of_nat (length chain))
      then corrupt_blocks (alter falsify (Z.to_nat bidx) chain) rest
      else corrupt_blocks chain rest
  end.

Definition corrupt_node (blocks_to_corrupt : list Z) (bc : Blockchain.t)
  : Blockchain.t :=
  let bc := Blockchain.mk (Blockchain.difficulty bc)
              (corrupt_blocks (Blockchain.chain bc) blocks_to_corrupt)
              (Blockchain.merkle_root bc) in
  snd (Blockchain.compute_merkle_root bc).

(** The network as the call leaves it, and how the call ends. *)
Fixpoint corrupt_nodes (self : t) (indices blocks_to_corrupt : list Z)
  : t * Py.result unit :=
  match indices with
  | [] => (self, Py.Ok tt)
  | idx :: rest =>
      match Py.index (nodes self) idx with
      | Py.Ok i =>
          let self := mk (alter (corrupt_node blocks_to_corrupt) i (nodes self))
                         (difficulty self) in
          corrupt_nodes self rest blocks_to_corrupt
      | Py.Raise e => (self, Py.Raise e)
      | Py.Running => (self, Py.Running)
      end
  end.

Fixpoint run_attack_51_loop (self : t) (to_corrupt : list Z) : t * Py.result unit :=
  match to_corrupt with
  | [] => (self, Py.Ok tt)
  | idx :: rest =>
      match corrupt_nodes self [idx] (Py.range 1 9) with
      | (self, Py.Ok _) => run_attack_51_loop self rest
      | stop => stop
      end
  end.

Definition run_attack_51 (self : t) : t * Py.result unit :=
  let half := Z.of_nat (length (nodes self)) / 2 in
  let to_corrupt := Py.range 0 (half + 1) in
  run_attack_51_loop self to_corrupt.
End Code.
End Network.
End Exam.

(** ** [src/merkle9chain.py] *)
Module Merkle9chain.

(** *** [class Block] *)
Module Block.

(** The attributes [__init__] assigns before it mines (lines 6-10). *)
Record attrs := mk_attrs {
  index : Z;
  timestamp : string;
  data : string;
  previous_hash : string;
  nonce : Z }.

(** A constructed block: those attributes and [hash] (line 11). *)
Record t := mk { self : attrs; hash : string }.
#[global] Coercion self : t >-> attrs.

Definition set_nonce (n : Z) (b : attrs) : attrs :=
  mk_attrs (index b) (timestamp b) (data b) (previous_hash b) n.

Definition set_data (d : string) (b : t) : t :=
  mk (mk_attrs (index b) (timestamp b) d (previous_hash b) (nonce b)) (hash b).

Definition set_hash (h : string) (b : t) : t := mk (self b) h.

Section Code.
Context `{Hasher, Clock}.

Definition calculate_hash (b : attrs) : string :=
  let content :=
    Py.str (index b) +:+ timestamp b +:+ data b +:+ previous_hash b
           +:+ Py.str (nonce b) in
  sha256 content.

Fixpoint mine_loop (fuel : nat) (prefix : string) (b : attrs)
  : Py.result (string * attrs) :=
  match fuel with
  | O => Py.Running
  | S fuel' =>
      let hash_attempt := calculate_hash b in
      if Py.startswith hash_attempt prefix then Py.Ok (hash_attempt, b)
      else mine_loop fuel' prefix (set_nonce (nonce b + 1) b)
  end.

Definition mine_block (fuel : nat) (b : attrs) (difficulty : Z)
  : Py.result (string * attrs) :=
  let prefix := Py.mul "0" difficulty in
  mine_loop fuel prefix b.

Definition __init__ (fuel : nat) (index : Z) (data previous_hash : string)
    (difficulty : Z) : Py.io t :=
  now ← time_time;
  let b := mk_attrs index now data previous_hash 0 in
  mined ← Py.lift (mine_block fuel b difficulty);
  Py.ret (mk (snd mined) (fst mined)).
End Code.
End Block.
#[global] Coercion Block.self : Block.t >-> Block.attrs.

(** *** [class MerkleTree] *)
Module MerkleTree.

(** What the name [hashes] is bound to while the function runs: the
    caller's list object, or a list the function built itself. *)
Inductive binding := Argument | Local (new_level : list string).

(** The caller's list object and the binding of [hashes]. *)
Record frame := mk_frame { argument : list string; hashes : binding }.

Definition deref (f : frame) : list string :=
  match hashes f with
  | Argument => argument f
  | Local l => l
  end.

(** [hashes.append(x)]: the write goes to the object [hashes] names. *)
Definition append (x : string) (f : frame) : frame :=
  match hashes f with
  | Argument => mk_frame (argument f ++ [x]) Argument
  | Local l => mk_frame (argument f) (Local (l ++ [x]))
  end.

Section Code.
Context `{Hasher}.

(** Lines 31-32. *)
Definition pad (f : frame) : frame :=
  if negb (Z.of_nat (length (deref f)) mod 2 =? 0)
  then match last (deref f) with
       | Some x => append x f
       | None => f
       end
  else f.

(** Lines 33-37. *)
Fixpoint next_level (level : list string) : list string :=
  match level with
  | a :: b :: rest => sha256 (a +:+ b) :: next_level rest
  | _ => []
  end.

(** The [while len(hashes) > 1] loop, at most [fuel] rounds; line 38
    rebinds [hashes] to the new list. *)
Fixpoint reduce (fuel : nat) (f : frame) : option frame :=
  if Z.of_nat (length (deref f)) >? 1
  then match fuel with
       | O => None
       | S fuel' =>
           let f := pad f in
           let new_level := next_level (deref f) in
           reduce fuel' (mk_frame (argument f) (Local new_level))
       end
  else Some f.

(** The value returned, and the caller's list as the call leaves it.
    [length hashes] rounds are enough (lemma [m9_merkle_root_value]). *)
Definition calculate_merkle_root (hashes : list string)
  : option string * list string :=
  match hashes with
  | [] => (None, hashes)
  | _ :: _ =>
      match reduce (length hashes) (mk_frame hashes Argument) with
      | Some f => (head (deref f), argument f)
      | None => (None, hashes)
      end
  end.
End Code.
End MerkleTree.

(** *** [class Blockchain] *)
Module Blockchain.

Record t := mk {
  difficulty : Z;
  chain : list Block.t;
  merkle_root : option string }.

Section Code.
Context `{Hasher, Clock}.

Definition create_genesis_block (fuel : nat) (difficulty : Z) : Py.io Block.t :=
  Block.__init__ fuel 0 "Genesis Block" "0" difficulty.

Definition __init__ (fuel : nat) (difficulty : Z) : Py.io t :=
  genesis ← create_genesis_block fuel difficulty;
  Py.ret (mk difficulty [genesis] None).

Definition get_latest_block (self : t) : Py.result Block.t :=
  match last (chain self) with
  | Some b => Py.Ok b
  | None => Py.Raise Py.IndexError
  end.

Definition add_block (fuel : nat) (data : string) (self : t) : Py.io t :=
  latest ← Py.lift (get_latest_block self);
  let previous_hash := Block.hash latest in
  block ← Block.__init__ fuel (Z.of_nat (length (chain self)))
            data previous_hash (difficulty self);
  Py.ret (mk (difficulty self) (chain self ++ [block]) (merkle_root self)).

(** [block_hashes] is a list built here and dropped at return, so
    what [calculate_merkle_root] leaves in it is not seen. *)
Definition compute_merkle_root (self : t) : option string * t :=
  let block_hashes := map Block.hash (chain self) in
  let root := fst (MerkleTree.calculate_merkle_root block_hashes) in
  (root, mk (difficulty self) (chain self) root).

Definition reason (p : problem) : string :=
  match p with
  | HashMismatch => "Hash falsifié"
  | LinkMismatch => "previous_hash incorrect"
  | DifficultyUnmet => "Difficulté non respectée"
  end.

(** The three [if]s of lines 71-76 at position [i]. *)
Definition check_block (prefix : string) (i : nat) (current previous : Block.t)
    (invalid_blocks : list (Z * string)) : list (Z * string) :=
  let invalid_blocks :=
    if bool_decide (Block.hash current ≠ Block.calculate_hash current)
    then invalid_blocks ++ [(Z.of_nat i, reason HashMismatch)]
    else invalid_blocks in
  let invalid_blocks :=
    if bool_decide (Block.previous_hash current ≠ Block.hash previous)
    then invalid_blocks ++ [(Z.of_nat i, reason LinkMismatch)]
    else invalid_blocks in
  if negb (Py.startswith (Block.hash current) prefix)
  then invalid_blocks ++ [(Z.of_nat i, reason DifficultyUnmet)]
  else invalid_blocks.

(** The [for] loop of lines 67-76 over the given positions, which come
    from [range(1, len(self.chain))], so both lookups succeed. *)
Fixpoint check_blocks (chain : list Block.t) (prefix : string)
    (positions : list nat) (invalid_blocks : list (Z * string))
  : list (Z * string) :=
  match positions with
  | [] => invalid_blocks
  | i :: rest =>
      match chain !! i, chain !! (i - 1)%nat with
      | Some current, Some previous =>
          check_blocks chain prefix rest
            (check_block prefix i current previous invalid_blocks)
      | _, _ => check_blocks chain prefix rest invalid_blocks
      end
  end.

(** The local [invalid_blocks] when the loop is over. *)
Definition invalid_blocks (self : t) : list (Z * string) :=
  let prefix := Py.mul "0" (difficulty self) in
  check_blocks (chain self) prefix (seq 1 (length (chain self) - 1)) [].

(** The value returned and the lines printed. *)
Definition is_chain_valid (self : t) : bool * list string :=
  let invalid_blocks := invalid_blocks self in
  let recalculated_merkle :=
    fst (MerkleTree.calculate_merkle_root (map Block.hash (chain self))) in
  let out :=
    if bool_decide (recalculated_merkle ≠ merkle_root self)
    then [" Merkle Root invalide"] else [] in
  match invalid_blocks with
  | _ :: _ =>
      (false,
       out ++ (" " +:+ Py.str (Z.of_nat (length invalid_blocks))
                   +:+ " problème(s) détecté(s) dans la chaîne:")
           :: map (fun f => "  - Bloc #" +:+ Py.str (fst f) +:+ " : " +:+ snd f)
                  invalid_blocks)
  | [] => (true, out ++ [" Blockchain et Merkle Root valides."])
  end.

(** Lines 97-98 on one block. *)
Definition falsify (b : Block.t) : Block.t :=
  let b := Block.set_data "FALSIFIED DATA" b in
  Block.set_hash (Block.calculate_hash b) b.

(** [falsify_block]: the chain as the call leaves it, and how the
    call ends; [chain[idx]] is not guarded. *)
Fixpoint falsify_block (blockchain : t) (indices_to_falsify : list Z)
  : t * Py.result unit :=
  match indices_to_falsify with
  | [] => (blockchain, Py.Ok tt)
  | idx :: rest =>
      match Py.index (chain blockchain) idx with
      | Py.Ok i =>
          falsify_block
            (mk (difficulty blockchain) (alter falsify i (chain blockchain))
                (merkle_root blockchain)) rest
      | Py.Raise e => (blockchain, Py.Raise e)
      | Py.Running => (blockchain, Py.Running)
      end
  end.
End Code.
End Blockchain.
End Merkle9chain.

Coercion Exam.Block.self : Exam.Block.t >-> Exam.Block.attrs.
Coercion Merkle9chain.Block.self : Merkle9chain.Block.t >-> Merkle9chain.Block.attrs.


(** * Vocabulary of the statements *)
Module Spec.

(** From some budget on, the computation started at clock state [k]
    returns one and the same value, which satisfies [P]. *)
Definition converges {A} (m : nat -> Py.io A) (k : nat) (P : A -> Prop) : Prop :=
  exists (fuel0 : nat) (a : A) (k' : nat),
    P a /\ forall fuel, (fuel0 <= fuel)%nat -> Py.run (m fuel) k = Py.Ok (a, k').

Section Spec.
Context `{Hasher}.

(** [b] is the block that construction with these arguments yields
    when the clock reads [now]: the attributes are the arguments, the
    nonce is the first one, counting up from 0 and within the budget,
    whose digest has the prefix, and [hash] is that digest. *)
Definition exam_mined (fuel : nat) (index : Z) (now data previous_hash : string)
    (difficulty : Z) (b : Exam.Block.t) : Prop :=
  exists n : nat,
    (n < fuel)%nat /\
    Exam.Block.self b
      = Exam.Block.mk_attrs index now data previous_hash (Z.of_nat n) difficulty /\
    Exam.Block.hash b = Exam.Block.calculate_hash b /\
    Py.startswith (Exam.Block.hash b) (Py.mul "0" difficulty) = true /\
    forall m : nat, (m < n)%nat ->
      Py.startswith
        (Exam.Block.calculate_hash
           (Exam.Block.mk_attrs index now data previous_hash (Z.of_nat m) difficulty))
        (Py.mul "0" difficulty) = false.

Definition m9_mined (fuel : nat) (index : Z) (now data previous_hash : string)
    (difficulty : Z) (b : Merkle9chain.Block.t) : Prop :=
  exists n : nat,
    (n < fuel)%nat /\
    Merkle9chain.Block.self b
      = Merkle9chain.Block.mk_attrs index now data previous_hash (Z.of_nat n) /\
    Merkle9chain.Block.hash b = Merkle9chain.Block.calculate_hash b /\
    Py.startswith (Merkle9chain.Block.hash b) (Py.mul "0" difficulty) = true /\
    forall m : nat, (m < n)%nat ->
      Py.startswith
        (Merkle9chain.Block.calculate_hash
           (Merkle9chain.Block.mk_attrs index now data previous_hash (Z.of_nat m)))
        (Py.mul "0" difficulty) = false.

(** Source order of the three checks. *)
Definition rank (p : problem) : nat :=
  match p with
  | HashMismatch => 0
  | LinkMismatch => 1
  | DifficultyUnmet => 2
  end.

(** Check [p] does not hold of the block at position [i] of the chain
    (and of its predecessor, for the link). *)
Definition exam_fails_at (chain : list Exam.Block.t) (prefix : string)
    (i : nat) (p : problem) : Prop :=
  exists current prev,
    chain !! i = Some current /\ chain !! (i - 1)%nat = Some prev /\
    match p with
    | HashMismatch => Exam.Block.hash current <> Exam.Block.calculate_hash current
    | LinkMismatch => Exam.Block.previous_hash current <> Exam.Block.hash prev
    | DifficultyUnmet => Py.startswith (Exam.Block.hash current) prefix = false
    end.

(** A finding of the chain: a position [i >= 1] and a check that fails
    there, against the prefix of the chain's difficulty. *)
Definition exam_finding (self : Exam.Blockchain.t) (i : nat) (p : problem) : Prop :=
  (1 <= i)%nat /\
  exam_fails_at (Exam.Blockchain.chain self)
    (Py.mul "0" (Exam.Blockchain.difficulty self)) i p.

Definition m9_fails_at (chain : list Merkle9chain.Block.t) (prefix : string)
    (i : nat) (p : problem) : Prop :=
  exists current previous,
    chain !! i = Some current /\ chain !! (i - 1)%nat = Some previous /\
    match p with
    | HashMismatch =>
        Merkle9chain.Block.hash current <> Merkle9chain.Block.calculate_hash current
    | LinkMismatch =>
        Merkle9chain.Block.previous_hash current <> Merkle9chain.Block.hash previous
    | DifficultyUnmet => Py.startswith (Merkle9chain.Block.hash current) prefix = false
    end.

Definition m9_finding (self : Merkle9chain.Blockchain.t) (i : nat) (p : problem) : Prop :=
  (1 <= i)%nat /\
  m9_fails_at (Merkle9chain.Blockchain.chain self)
    (Py.mul "0" (Merkle9chain.Blockchain.difficulty self)) i p.

(** [exam.py] reports a finding when it prints its line. *)
Definition exam_reported (self : Exam.Blockchain.t) (i : nat) (p : problem) : Prop :=
  exists current,
    Exam.Blockchain.chain self !! i = Some current /\
    Exam.Blockchain.line current p ∈ snd (Exam.Blockchain.is_chain_valid self).

(** The cached root is the root of the current hashes. *)
Definition exam_merkle_consistent (self : Exam.Blockchain.t) : Prop :=
  Exam.MerkleTree.calculate_merkle_root
    (map Exam.Block.hash (Exam.Blockchain.chain self))
  = Exam.Blockchain.merkle_root self.

Definition m9_merkle_consistent (self : Merkle9chain.Blockchain.t) : Prop :=
  fst (Merkle9chain.MerkleTree.calculate_merkle_root
         (map Merkle9chain.Block.hash (Merkle9chain.Blockchain.chain self)))
  = Merkle9chain.Blockchain.merkle_root self.

(** Mining at this difficulty always finds a nonce, whatever the block. *)
Definition exam_mining_terminates (difficulty : Z) : Prop :=
  forall (index : Z) (now data previous_hash : string),
  exists n : nat,
    Py.startswith
      (Exam.Block.calculate_hash
         (Exam.Block.mk_attrs index now data previous_hash (Z.of_nat n) difficulty))
      (Py.mul "0" difficulty) = true.

(** [b'] is [b] tampered with: the marker as data, the digest of the new
    content as hash, everything else as it was. *)
Definition exam_falsified (b b' : Exam.Block.t) : Prop :=
  Exam.Block.data b' = "FALSIFIED DATA" /\
  Exam.Block.hash b' = Exam.Block.calculate_hash b' /\
  Exam.Block.index b' = Exam.Block.index b /\
  Exam.Block.timestamp b' = Exam.Block.timestamp b /\
  Exam.Block.nonce b' = Exam.Block.nonce b /\
  Exam.Block.previous_hash b' = Exam.Block.previous_hash b /\
  Exam.Block.difficulty b' = Exam.Block.difficulty b.

(** [bc'] is the replica [bc] after a corruption aimed at the block
    positions [blocks]. *)
Definition exam_replica_corrupted (blocks : list Z) (bc bc' : Exam.Blockchain.t)
  : Prop :=
  Exam.Blockchain.difficulty bc' = Exam.Blockchain.difficulty bc /\
  length (Exam.Blockchain.chain bc') = length (Exam.Blockchain.chain bc) /\
  exam_merkle_consistent bc' /\
  forall (j : nat) (b : Exam.Block.t),
    Exam.Blockchain.chain bc !! j = Some b ->
    (Z.of_nat j ∉ blocks -> Exam.Blockchain.chain bc' !! j = Some b) /\
    (Z.of_nat j ∈ blocks ->
     exists b', Exam.Blockchain.chain bc' !! j = Some b' /\ exam_falsified b b').

(** [self'] is the network [self] after a corruption aimed at the
    replicas [indices] and the block positions [blocks]. *)
Definition exam_network_corrupted (indices blocks : list Z)
    (self self' : Exam.Network.t) : Prop :=
  Exam.Network.difficulty self' = Exam.Network.difficulty self /\
  length (Exam.Network.nodes self') = length (Exam.Network.nodes self) /\
  forall (i : nat) (bc : Exam.Blockchain.t),
    Exam.Network.nodes self !! i = Some bc ->
    (Z.of_nat i ∉ indices -> Exam.Network.nodes self' !! i = Some bc) /\
    (Z.of_nat i ∈ indices ->
     exists bc', Exam.Network.nodes self' !! i = Some bc' /\
                 exam_replica_corrupted blocks bc bc').
End Spec.
End Spec.

(** * A concrete run: the real digest and a fixed clock *)
Module Concrete.

Definition hasher : Hasher := SHA256.hexdigest.

(** The clock starts at 1700000000.0 and every call of [time.time()]
    finds it a tenth of a second later: 1700000000.0, ..., 1700000000.9,
    1700000001.0, ..., each as Python renders that float. *)
Definition clock : Clock := fun k =>
  Py.str (1700000000 + Z.of_nat k / 10) +:+ "." +:+ Py.str (Z.of_nat k mod 10).

(** [Block(0, "Genesis Block", "0", 1)] at the first reading. *)
Definition exam_genesis : Exam.Block.t :=
  Exam.Block.mk
    (Exam.Block.mk_attrs 0 "1700000000.0" "Genesis Block" "0" 3 1)
    "0a3c9f3f3988b4d847128350c7ca93eb6068eb2e65b35e0eb165f9f295961d65".

Definition m9_genesis : Merkle9chain.Block.t :=
  Merkle9chain.Block.mk
    (Merkle9chain.Block.mk_attrs 0 "1700000000.0" "Genesis Block" "0" 3)
    "0a3c9f3f3988b4d847128350c7ca93eb6068eb2e65b35e0eb165f9f295961d65".

(** [Blockchain(1)] as constructed, before anything else is called. *)
Definition exam_fresh : Exam.Blockchain.t :=
  Exam.Blockchain.mk 1 [exam_genesis] None.

Definition m9_fresh : Merkle9chain.Blockchain.t :=
  Merkle9chain.Blockchain.mk 1 [m9_genesis] None.

(** [merkle9chain.py]: [bc = Blockchain(1); bc.compute_merkle_root();
    falsify_block(bc, [0])]. *)
Definition m9_tampered : Merkle9chain.Blockchain.t :=
  Merkle9chain.Blockchain.mk 1
    [ Merkle9chain.Block.mk
        (Merkle9chain.Block.mk_attrs 0 "1700000000.0" "FALSIFIED DATA" "0" 3)
        "83fbbdae996191e3b4d4469a2b7ef08d1836ff8770b0096e5c8cfebab7372af5" ]
    (Some "0a3c9f3f3988b4d847128350c7ca93eb6068eb2e65b35e0eb165f9f295961d65").

(** [exam.py]: [bc = Blockchain(1); bc.add_block("Donnée #1");
    bc.add_block("Donnée #2"); bc.compute_merkle_root()]. *)
Definition exam_build3 : Py.io Exam.Blockchain.t :=
  bc ← @Exam.Blockchain.__init__ hasher clock 64 1;
  bc ← @Exam.Blockchain.add_block hasher clock 64 "Donnée #1" bc;
  bc ← @Exam.Blockchain.add_block hasher clock 64 "Donnée #2" bc;
  mret (snd (@Exam.Blockchain.compute_merkle_root hasher bc)).

Definition exam_block1 : Exam.Block.t :=
  Exam.Block.mk
    (Exam.Block.mk_attrs 1 "1700000000.1" "Donnée #1"
       "0a3c9f3f3988b4d847128350c7ca93eb6068eb2e65b35e0eb165f9f295961d65" 36 1)
    "0599189a4b4edace58030ddc895ace56046e264e42db867dc0dc54b4162164b9".

Definition exam_block2 : Exam.Block.t :=
  Exam.Block.mk
    (Exam.Block.mk_attrs 2 "1700000000.2" "Donnée #2"
       "0599189a4b4edace58030ddc895ace56046e264e42db867dc0dc54b4162164b9" 11 1)
    "031b3bfcf7179d35557405f3e1f3077d44ad13650bf7910a533ef4cba5348f64".

Definition exam_chain3 : Exam.Blockchain.t :=
  Exam.Blockchain.mk 1 [exam_genesis; exam_block1; exam_block2]
    (Some "3e3fe8abe1a28b2bce2c4625d54f2e2f84306f060eb65dabca46e21559847218").

(** A network of that one replica, and the replica after
    [corrupt_nodes([0], [1])]. *)
Definition exam_net1 : Exam.Network.t := Exam.Network.mk [exam_chain3] 1.

Definition exam_block1_falsified : Exam.Block.t :=
  Exam.Block.mk
    (Exam.Block.mk_attrs 1 "1700000000.1" "FALSIFIED DATA"
       "0a3c9f3f3988b4d847128350c7ca93eb6068eb2e65b35e0eb165f9f295961d65" 36 1)
    "2ec3fa0d3c2ae58d9e99ad227f717f05362b110af0ccf32d0f9340f60a0b4f3f".

Definition exam_chain3_tampered : Exam.Blockchain.t :=
  Exam.Blockchain.mk 1 [exam_genesis; exam_block1_falsified; exam_block2]
    (Some "2cb2622203d92b156532a823e5bccd256fae129d7fdd270a0790c17ed60dbb6a").

(** Three replicas, distinct objects of equal content. *)
Definition exam_net3 : Exam.Network.t :=
  Exam.Network.mk [exam_chain3; exam_chain3; exam_chain3] 1.

End Concrete.


(** * The printing functions

    [Blockchain.display] and [Network.display_all] of [exam.py], and
    [run_verification] of [merkle9chain.py].  What a function prints is
    the list of the texts it passes to [print], one per call, called its
    lines. *)
Module Display.

(** A byte that continues a UTF-8 character. *)
Definition is_continuation (c : ascii) : bool :=
  let b := Z.of_N (N_of_ascii c) in (128 <=? b) && (b <? 192).

(** [s[:n]]: the first [n] characters of a string, each with its
    continuation bytes. *)
Fixpoint slice_to (n : nat) (s : string) : string :=
  match s with
  | EmptyString => EmptyString
  | String c rest =>
      if is_continuation c then String c (slice_to n rest)
      else match n with
           | O => EmptyString
           | S n' => String c (slice_to n' rest)
           end
  end.

(** How a printing function ends: it returns, or [None[:10]] raises
    [TypeError]; either way with the lines printed so far. *)
Inductive outcome :=
| Printed (lines : list string)
| TypeError (lines : list string).

Definition newline : string := String (ascii_of_nat 10) EmptyString.

(** [exam.py], line 90. *)
Definition block_line (b : Exam.Block.t) : string :=
  " Bloc #" +:+ Py.str (Exam.Block.index b)
  +:+ " | Hash: " +:+ slice_to 10 (Exam.Block.hash b)
  +:+ "... | PrevHash: " +:+ slice_to 10 (Exam.Block.previous_hash b)
  +:+ "... | Data: " +:+ Exam.Block.data b.

(** [exam.py], [Blockchain.display]: the header needs a slice of the
    cached root, which is evaluated before anything is printed. *)
Definition display (self : Exam.Blockchain.t) : outcome :=
  match Exam.Blockchain.merkle_root self with
  | None => TypeError []
  | Some merkle_root =>
      Printed
        (("Blockchain (longueur="
          +:+ Py.str (Z.of_nat (length (Exam.Blockchain.chain self)))
          +:+ ", racine Merkle=" +:+ slice_to 10 merkle_root +:+ "...) :")
         :: map block_line (Exam.Blockchain.chain self))
  end.

(** The loop of [display_all] from replica number [i] on. *)
Fixpoint display_from (i : nat) (nodes : list Exam.Blockchain.t) : outcome :=
  match nodes with
  | [] => Printed []
  | bc :: rest =>
      let header := newline +:+ "=== Noeud " +:+ Py.str (Z.of_nat i) +:+ " ===" in
      match display bc with
      | TypeError lines => TypeError (header :: lines)
      | Printed lines =>
          match display_from (S i) rest with
          | Printed more => Printed (header :: lines ++ more)
          | TypeError more => TypeError (header :: lines ++ more)
          end
      end
  end.

(** [exam.py], [Network.display_all]. *)
Definition display_all (self : Exam.Network.t) : outcome :=
  display_from 0 (Exam.Network.nodes self).

(** [merkle9chain.py], [run_verification]: [print] joins its two
    arguments with a space. *)
Definition run_verification `{Hasher} (name : string)
    (chain : Merkle9chain.Blockchain.t) : list string :=
  let header := newline +:+ "🔍 Vérification de la " +:+ name in
  let '(valid, lines) := Merkle9chain.Blockchain.is_chain_valid chain in
  header :: lines
    ++ ["État :" +:+ " " +:+ (if valid then " Intègre" else " Compromise")].

End Display.

(** * Vocabulary of the further properties *)
Module More.
Section More.
Context `{Hasher}.

(** No check fails at any position of the chain. *)
Definition exam_sound (self : Exam.Blockchain.t) : Prop :=
  forall i p, ~ Spec.exam_finding self i p.

Definition m9_sound (self : Merkle9chain.Blockchain.t) : Prop :=
  forall i p, ~ Spec.m9_finding self i p.

End More.
End More.

(** * Further concrete values *)
Module Concrete2.

(** [exam.py]: [bc = Blockchain(1); bc.add_block("Donnée #1")]. *)
Definition exam_chain2 : Exam.Blockchain.t :=
  Exam.Blockchain.mk 1 [Concrete.exam_genesis; Concrete.exam_block1] None.

(** [merkle9chain.py]: the same chain of three blocks as
    [Concrete.exam_chain3], root computed. *)
Definition m9_block1 : Merkle9chain.Block.t :=
  Merkle9chain.Block.mk
    (Merkle9chain.Block.mk_attrs 1 "1700000000.1" "Donnée #1"
       "0a3c9f3f3988b4d847128350c7ca93eb6068eb2e65b35e0eb165f9f295961d65" 36)
    "0599189a4b4edace58030ddc895ace56046e264e42db867dc0dc54b4162164b9".

Definition m9_block2 : Merkle9chain.Block.t :=
  Merkle9chain.Block.mk
    (Merkle9chain.Block.mk_attrs 2 "1700000000.2" "Donnée #2"
       "0599189a4b4edace58030ddc895ace56046e264e42db867dc0dc54b4162164b9" 11)
    "031b3bfcf7179d35557405f3e1f3077d44ad13650bf7910a533ef4cba5348f64".

Definition m9_chain2 : Merkle9chain.Blockchain.t :=
  Merkle9chain.Blockchain.mk 1 [Concrete.m9_genesis; m9_block1] None.

Definition m9_chain3 : Merkle9chain.Blockchain.t :=
  Merkle9chain.Blockchain.mk 1 [Concrete.m9_genesis; m9_block1; m9_block2]
    (Some "3e3fe8abe1a28b2bce2c4625d54f2e2f84306f060eb65dabca46e21559847218").

(** [exam.py]: [Network(1, 1)], the clock starting at its first reading. *)
Definition exam_network_1_1 :=
  Eval vm_compute in
    match Py.run (@Exam.Network.__init__ Concrete.hasher Concrete.clock 64 1 1) 0%nat with
    | Py.Ok (net, _) => net
    | _ => Exam.Network.mk [] 1
    end.

End Concrete2.
(** * Properties *)

(** Unfolds the plumbing of [Py.io]. *)
Ltac run_io :=
  unfold mbind, io_bind, mret, io_ret, Py.bind, Py.ret, Py.lift, Py.raise, time_time;
  cbn [Py.run].

(** ** The digest: test vectors of the standard *)
Example sha256_empty :
  SHA256.hexdigest ""
  = "e3b0c44298fc1c149afbf4c8996fb92427ae41e4649b934ca495991b7852b855".
Proof. vm_compute. reflexivity. Qed.

Example sha256_abc :
  SHA256.hexdigest "abc"
  = "ba7816bf8f01cfea414140de5dae2223b00361a396177a9cb410ff61f20015ad".
Proof. vm_compute. reflexivity. Qed.

Example sha256_two_blocks :
  SHA256.hexdigest "abcdbcdecdefdefgefghfghighijhijkijkljklmklmnlmnomnopnopq"
  = "248d6a61d20638b8e5c026930c3e6039a33ce45964ff2167f6ecedd419db06c1".
Proof. vm_compute. reflexivity. Qed.

(** ** Python built-ins *)
Section PyFacts.

Lemma startswith_empty (s : string) : Py.startswith s "" = true.
Proof. unfold Py.startswith. by destruct s. Qed.

Lemma mul_nonpos (s : string) (n : Z) : n <= 0 -> Py.mul s n = "".
Proof.
  intros Hn. unfold Py.mul.
  replace (Z.to_nat n) with 0%nat by lia. done.
Qed.

Lemma index_in_range {A} (l : list A) (i : Z) :
  0 <= i < Z.of_nat (length l) -> Py.index l i = Py.Ok (Z.to_nat i).
Proof.
  intros Hi. unfold Py.index.
  destruct (Z.leb_spec 0 i), (Z.ltb_spec i (Z.of_nat (length l))); simpl; try lia.
  done.
Qed.

Lemma index_too_large {A} (l : list A) (i : Z) :
  Z.of_nat (length l) <= i -> Py.index l i = Py.Raise Py.IndexError.
Proof.
  intros Hi. unfold Py.index.
  destruct (Z.leb_spec 0 i), (Z.ltb_spec i (Z.of_nat (length l))),
    (Z.leb_spec (- Z.of_nat (length l)) i), (Z.ltb_spec i 0); simpl; try lia; done.
Qed.

Lemma index_Ok_lt {A} (l : list A) (i : Z) (n : nat) :
  Py.index l i = Py.Ok n -> (n < length l)%nat.
Proof.
  unfold Py.index.
  destruct (Z.leb_spec 0 i), (Z.ltb_spec i (Z.of_nat (length l))),
    (Z.leb_spec (- Z.of_nat (length l)) i), (Z.ltb_spec i 0); simpl;
    intros [= <-]; lia.
Qed.

End PyFacts.

(** ** The Merkle root *)
Section MerkleFacts.
Context `{Hasher}.

Lemma exam_next_level_length (l : list string) :
  length (Exam.MerkleTree.next_level l) = (length l / 2)%nat.
Proof.
  induction l as [l IH] using (induction_ltof1 _ (@length string)).
  unfold ltof in IH.
  destruct l as [|a [|b rest]]; [done..|].
  cbn [Exam.MerkleTree.next_level length]. rewrite IH by (simpl; lia).
  change (S (S (length rest))) with (2 + length rest)%nat.
  replace (2 + length rest)%nat with (length rest + 1 * 2)%nat by lia.
  rewrite Nat.div_add by lia. lia.
Qed.

Lemma exam_pad_length (l : list string) :
  length (Exam.MerkleTree.pad l) = (length l + length l mod 2)%nat.
Proof.
  unfold Exam.MerkleTree.pad.
  pose proof (Nat.mod_upper_bound (length l) 2).
  replace (Z.of_nat (length l) mod 2) with (Z.of_nat (length l mod 2))
    by (by rewrite Nat2Z.inj_mod).
  destruct (Z.eqb_spec (Z.of_nat (length l mod 2)) 0) as [He|He]; cbn [negb].
  - lia.
  - assert (length l mod 2 = 1)%nat by lia.
    destruct (last l) eqn:Hl.
    + rewrite length_app. cbn [length]. lia.
    + apply last_None in Hl. subst l. done.
Qed.

(** One round of the loop on a level of two or more: the next level
    is shorter and not empty. *)
Lemma exam_round_shrinks (l : list string) :
  (1 < length l)%nat ->
  (0 < length (Exam.MerkleTree.next_level (Exam.MerkleTree.pad l)) < length l)%nat.
Proof.
  intros Hlen. rewrite exam_next_level_length, exam_pad_length.
  pose proof (Nat.div_mod_eq (length l + length l mod 2) 2).
  pose proof (Nat.mod_upper_bound (length l + length l mod 2) 2).
  pose proof (Nat.mod_upper_bound (length l) 2). lia.
Qed.

(** The loop of [calculate_merkle_root] needs fewer rounds than the
    level has elements, and ends on a single element. *)
Lemma exam_reduce_total (fuel : nat) (l : list string) :
  l <> [] -> (length l <= S fuel)%nat ->
  exists root, Exam.MerkleTree.reduce fuel l = Some [root].
Proof.
  revert l. induction fuel as [|fuel IH]; intros l Hne Hlen.
  - destruct l as [|root [|? ?]]; [done | by exists root | simpl in Hlen; lia].
  - cbn [Exam.MerkleTree.reduce].
    destruct (Z.gtb_spec (Z.of_nat (length l)) 1) as [Hgt|Hle].
    + pose proof (exam_round_shrinks l ltac:(lia)) as Hs.
      apply IH; [|lia].
      intros Hnil. rewrite Hnil in Hs. simpl in Hs. lia.
    + destruct l as [|root [|? ?]]; [done | by exists root | simpl in Hle; lia].
Qed.

(** A non-empty sequence always has a root. *)
Lemma exam_merkle_root_total (hashes : list string) :
  hashes <> [] -> is_Some (Exam.MerkleTree.calculate_merkle_root hashes).
Proof.
  intros Hne. unfold Exam.MerkleTree.calculate_merkle_root.
  destruct hashes as [|h hs]; [done|].
  destruct (exam_reduce_total (length (h :: hs)) (h :: hs)) as [root ->];
    [done | lia | eauto].
Qed.

Lemma exam_merkle_root_single (h : string) :
  Exam.MerkleTree.calculate_merkle_root [h] = Some h.
Proof. reflexivity. Qed.

(** While [hashes] names a list of the function's own, the caller's
    list is out of reach. *)
Lemma m9_reduce_local (fuel : nat) (arg l : list string) :
  Merkle9chain.MerkleTree.reduce fuel (Merkle9chain.MerkleTree.mk_frame arg
    (Merkle9chain.MerkleTree.Local l))
  = (fun r => Merkle9chain.MerkleTree.mk_frame arg (Merkle9chain.MerkleTree.Local r))
      <$> Exam.MerkleTree.reduce fuel l.
Proof.
  revert l. induction fuel as [|fuel IH]; intros l.
  - cbn [Merkle9chain.MerkleTree.reduce Exam.MerkleTree.reduce].
    cbn [Merkle9chain.MerkleTree.deref Merkle9chain.MerkleTree.hashes].
    by destruct (Z.of_nat (length l) >? 1).
  - cbn [Merkle9chain.MerkleTree.reduce Exam.MerkleTree.reduce].
    cbn [Merkle9chain.MerkleTree.deref Merkle9chain.MerkleTree.hashes].
    destruct (Z.of_nat (length l) >? 1); [|done].
    unfold Merkle9chain.MerkleTree.pad, Exam.MerkleTree.pad.
    cbn [Merkle9chain.MerkleTree.deref Merkle9chain.MerkleTree.hashes].
    destruct (negb _); [destruct (last l)|]; apply IH.
Qed.

Lemma m9_pad_argument (l : list string) :
  Merkle9chain.MerkleTree.pad
    (Merkle9chain.MerkleTree.mk_frame l Merkle9chain.MerkleTree.Argument)
  = Merkle9chain.MerkleTree.mk_frame (Exam.MerkleTree.pad l)
      Merkle9chain.MerkleTree.Argument.
Proof.
  unfold Merkle9chain.MerkleTree.pad, Exam.MerkleTree.pad.
  cbn [Merkle9chain.MerkleTree.deref Merkle9chain.MerkleTree.hashes
       Merkle9chain.MerkleTree.argument].
  destruct (negb _); [destruct (last l)|]; done.
Qed.

(** The first round works on the caller's list, the later ones on
    lists of the function's own. *)
Lemma m9_reduce_argument (fuel : nat) (l : list string) :
  Merkle9chain.MerkleTree.reduce (S fuel)
    (Merkle9chain.MerkleTree.mk_frame l Merkle9chain.MerkleTree.Argument)
  = if Z.of_nat (length l) >? 1
    then (fun r => Merkle9chain.MerkleTree.mk_frame (Exam.MerkleTree.pad l)
                     (Merkle9chain.MerkleTree.Local r))
           <$> Exam.MerkleTree.reduce fuel
                 (Exam.MerkleTree.next_level (Exam.MerkleTree.pad l))
    else Some (Merkle9chain.MerkleTree.mk_frame l Merkle9chain.MerkleTree.Argument).
Proof.
  cbn [Merkle9chain.MerkleTree.reduce].
  cbn [Merkle9chain.MerkleTree.deref Merkle9chain.MerkleTree.hashes
       Merkle9chain.MerkleTree.argument].
  destruct (Z.of_nat (length l) >? 1); [|done].
  rewrite m9_pad_argument.
  cbn [Merkle9chain.MerkleTree.deref Merkle9chain.MerkleTree.hashes
       Merkle9chain.MerkleTree.argument].
  apply m9_reduce_local.
Qed.

Lemma exam_reduce_unfold (fuel : nat) (l : list string) :
  Exam.MerkleTree.reduce (S fuel) l
  = if Z.of_nat (length l) >? 1
    then Exam.MerkleTree.reduce fuel (Exam.MerkleTree.next_level (Exam.MerkleTree.pad l))
    else Some l.
Proof. reflexivity. Qed.

(** The two files compute the same root ... *)
Lemma m9_merkle_root_value (hashes : list string) :
  fst (Merkle9chain.MerkleTree.calculate_merkle_root hashes)
  = Exam.MerkleTree.calculate_merkle_root hashes.
Proof.
  unfold Merkle9chain.MerkleTree.calculate_merkle_root,
    Exam.MerkleTree.calculate_merkle_root.
  destruct hashes as [|h hs]; [done|].
  set (l := h :: hs).
  destruct (exam_reduce_total (length l) l) as [root Hr]; [done | lia |].
  rewrite Hr.
  change (length l) with (S (length hs)) in *.
  rewrite m9_reduce_argument. rewrite exam_reduce_unfold in Hr.
  destruct (Z.of_nat (length l) >? 1).
  - rewrite Hr. done.
  - by injection Hr as <-.
Qed.

(** ... but the second one writes to its argument: a level of odd
    length above one is padded in place. *)
Lemma m9_merkle_root_argument (hashes : list string) :
  snd (Merkle9chain.MerkleTree.calculate_merkle_root hashes)
  = if Z.of_nat (length hashes) >? 1 then Exam.MerkleTree.pad hashes else hashes.
Proof.
  unfold Merkle9chain.MerkleTree.calculate_merkle_root.
  destruct hashes as [|h hs]; [done|].
  set (l := h :: hs).
  destruct (exam_reduce_total (length l) l) as [root Hr]; [done | lia |].
  change (length l) with (S (length hs)) in Hr |- *.
  rewrite m9_reduce_argument. rewrite exam_reduce_unfold in Hr.
  change (S (length hs)) with (length l).
  destruct (Z.of_nat (length l) >? 1); [|done].
  rewrite Hr. done.
Qed.

End MerkleFacts.

(** ** Mining *)
Section MiningFacts.
Context `{Hasher, Clock}.

Lemma exam_set_nonce_same (b : Exam.Block.attrs) :
  Exam.Block.set_nonce (Exam.Block.nonce b + 0) b = b.
Proof. destruct b. unfold Exam.Block.set_nonce. simpl. f_equal. lia. Qed.

Lemma exam_set_nonce_step (b : Exam.Block.attrs) (n : nat) :
  Exam.Block.set_nonce
    (Exam.Block.nonce (Exam.Block.set_nonce (Exam.Block.nonce b + 1) b) + Z.of_nat n)
    (Exam.Block.set_nonce (Exam.Block.nonce b + 1) b)
  = Exam.Block.set_nonce (Exam.Block.nonce b + Z.of_nat (S n)) b.
Proof. destruct b. unfold Exam.Block.set_nonce. simpl. f_equal. lia. Qed.

(** What the mining loop returns: it has only moved [nonce], by the
    number of digests that missed the prefix, and the value returned is
    the digest at that nonce. *)
Lemma exam_mine_loop_Ok (fuel : nat) (prefix : string) (b : Exam.Block.attrs)
    (h : string) (b' : Exam.Block.attrs) :
  Exam.Block.mine_loop fuel prefix b = Py.Ok (h, b') <->
  exists n : nat,
    (n < fuel)%nat /\
    b' = Exam.Block.set_nonce (Exam.Block.nonce b + Z.of_nat n) b /\
    h = Exam.Block.calculate_hash b' /\
    Py.startswith h prefix = true /\
    forall m : nat, (m < n)%nat ->
      Py.startswith
        (Exam.Block.calculate_hash
           (Exam.Block.set_nonce (Exam.Block.nonce b + Z.of_nat m) b)) prefix = false.
Proof.
  revert b. induction fuel as [|fuel IH]; intros b.
  - split; [done | intros (n & Hn & _); lia].
  - cbn [Exam.Block.mine_loop].
    destruct (Py.startswith (Exam.Block.calculate_hash b) prefix) eqn:Hhit.
    + split.
      * intros [= <- <-]. exists 0%nat.
        rewrite exam_set_nonce_same. repeat split; [lia | done | lia].
      * intros (n & Hn & -> & -> & Hok & Hmiss).
        destruct n as [|n].
        -- by rewrite exam_set_nonce_same.
        -- specialize (Hmiss 0%nat ltac:(lia)).
           rewrite exam_set_nonce_same in Hmiss. congruence.
    + rewrite IH. split.
      * intros (n & Hn & -> & -> & Hok & Hmiss). exists (S n).
        rewrite exam_set_nonce_step in *.
        repeat split; [lia | done |].
        intros [|m] Hm.
        -- by rewrite exam_set_nonce_same.
        -- rewrite <- exam_set_nonce_step. apply Hmiss. lia.
      * intros (n & Hn & -> & -> & Hok & Hmiss).
        destruct n as [|n].
        { rewrite exam_set_nonce_same in Hok. congruence. }
        exists n. rewrite exam_set_nonce_step.
        repeat split; [lia | done |].
        intros m Hm. rewrite exam_set_nonce_step. apply Hmiss. lia.
Qed.

(** A nonce within the budget whose digest has the prefix makes the
    loop return. *)
Lemma exam_mine_loop_hits (fuel : nat) (prefix : string) (b : Exam.Block.attrs)
    (n : nat) :
  Py.startswith
    (Exam.Block.calculate_hash
       (Exam.Block.set_nonce (Exam.Block.nonce b + Z.of_nat n) b)) prefix = true ->
  (n < fuel)%nat ->
  exists h b', Exam.Block.mine_loop fuel prefix b = Py.Ok (h, b').
Proof.
  revert b n. induction fuel as [|fuel IH]; intros b n Hhit Hn; [lia|].
  cbn [Exam.Block.mine_loop].
  destruct (Py.startswith (Exam.Block.calculate_hash b) prefix) eqn:Hnow; [eauto|].
  destruct n as [|n].
  - rewrite exam_set_nonce_same in Hhit. congruence.
  - apply (IH _ n); [|lia]. by rewrite exam_set_nonce_step.
Qed.

(** The loop never raises: it returns or is still running. *)
Lemma exam_mine_loop_no_raise (fuel : nat) (prefix : string)
    (b : Exam.Block.attrs) (e : Py.exn) :
  Exam.Block.mine_loop fuel prefix b <> Py.Raise e.
Proof.
  revert b. induction fuel as [|fuel IH]; intros b; cbn [Exam.Block.mine_loop].
  - done.
  - destruct (Py.startswith _ _); [done | apply IH].
Qed.

(** Construction returns exactly the mined block, after one reading of
    the clock. *)
Lemma exam_block_init_Ok (fuel : nat) (index : Z) (data previous_hash : string)
    (difficulty : Z) (k : nat) (b : Exam.Block.t) (k' : nat) :
  Py.run (Exam.Block.__init__ fuel index data previous_hash difficulty) k
    = Py.Ok (b, k') <->
  k' = S k /\
  Spec.exam_mined fuel index (reading k) data previous_hash difficulty b.
Proof.
  unfold Exam.Block.__init__, Exam.Block.mine_block, Spec.exam_mined.
  run_io. cbn [Exam.Block.difficulty Exam.Block.nonce].
  set (b0 := Exam.Block.mk_attrs index (reading k) data previous_hash 0 difficulty).
  assert (Hb0 : forall n : nat,
    Exam.Block.set_nonce (Exam.Block.nonce b0 + Z.of_nat n) b0
    = Exam.Block.mk_attrs index (reading k) data previous_hash (Z.of_nat n) difficulty)
    by done.
  destruct (Exam.Block.mine_loop fuel (Py.mul "0" difficulty) b0)
    as [[h b']| |] eqn:Hmine.
  - apply exam_mine_loop_Ok in Hmine as (n & Hn & -> & -> & Hok & Hmiss).
    rewrite Hb0 in *. cbn [fst snd]. split.
    + intros [= <- <-]. split; [done|]. exists n. cbn [Exam.Block.self Exam.Block.hash].
      repeat split; [lia | done |]. intros m Hm. rewrite <- Hb0. by apply Hmiss.
    + intros (-> & n' & Hn' & Hself & Hhash & Hok' & Hmiss').
      destruct b as [a hb]. cbn [Exam.Block.self Exam.Block.hash] in *. subst a hb.
      assert (n' = n) as ->; [|done].
      destruct (Nat.lt_trichotomy n' n) as [Hlt|[Heq|Hgt]]; [|done|].
      * apply Hmiss in Hlt. rewrite Hb0 in Hlt. congruence.
      * apply Hmiss' in Hgt. congruence.
  - by apply exam_mine_loop_no_raise in Hmine.
  - split; [done|]. intros (-> & n & Hn & Hself & Hhash & Hok & Hmiss). exfalso.
    assert (Hex : Exam.Block.mine_loop fuel (Py.mul "0" difficulty) b0
                  = Py.Ok (Exam.Block.hash b, Exam.Block.self b)).
    { apply exam_mine_loop_Ok. exists n. rewrite Hb0, <- Hself.
      repeat split; [lia | done | done |].
      intros m Hm. rewrite Hb0. by apply Hmiss. }
    congruence.
Qed.

(** Construction completes as soon as the budget reaches a nonce whose
    digest has the prefix. *)
Lemma exam_block_init_terminates (fuel : nat) (index : Z)
    (data previous_hash : string) (difficulty : Z) (k n : nat) :
  Py.startswith
    (Exam.Block.calculate_hash
       (Exam.Block.mk_attrs index (reading k) data previous_hash (Z.of_nat n) difficulty))
    (Py.mul "0" difficulty) = true ->
  (n < fuel)%nat ->
  exists b, Py.run (Exam.Block.__init__ fuel index data previous_hash difficulty) k
            = Py.Ok (b, S k).
Proof.
  intros Hhit Hn.
  destruct (exam_mine_loop_hits fuel (Py.mul "0" difficulty)
              (Exam.Block.mk_attrs index (reading k) data previous_hash 0 difficulty) n)
    as (h & b' & Hmine); [done | done |].
  unfold Exam.Block.__init__, Exam.Block.mine_block. run_io.
  cbn [Exam.Block.difficulty]. rewrite Hmine. eauto.
Qed.

(** The same facts for [merkle9chain.py], whose block has no
    [difficulty] attribute. *)

Lemma m9_set_nonce_same (b : Merkle9chain.Block.attrs) :
  Merkle9chain.Block.set_nonce (Merkle9chain.Block.nonce b + 0) b = b.
Proof. destruct b. unfold Merkle9chain.Block.set_nonce. simpl. f_equal. lia. Qed.

Lemma m9_set_nonce_step (b : Merkle9chain.Block.attrs) (n : nat) :
  Merkle9chain.Block.set_nonce
    (Merkle9chain.Block.nonce (Merkle9chain.Block.set_nonce (Merkle9chain.Block.nonce b + 1) b) + Z.of_nat n)
    (Merkle9chain.Block.set_nonce (Merkle9chain.Block.nonce b + 1) b)
  = Merkle9chain.Block.set_nonce (Merkle9chain.Block.nonce b + Z.of_nat (S n)) b.
Proof. destruct b. unfold Merkle9chain.Block.set_nonce. simpl. f_equal. lia. Qed.

(** What the mining loop returns: it has only moved [nonce], by the
    number of digests that missed the prefix, and the value returned is
    the digest at that nonce. *)
Lemma m9_mine_loop_Ok (fuel : nat) (prefix : string) (b : Merkle9chain.Block.attrs)
    (h : string) (b' : Merkle9chain.Block.attrs) :
  Merkle9chain.Block.mine_loop fuel prefix b = Py.Ok (h, b') <->
  exists n : nat,
    (n < fuel)%nat /\
    b' = Merkle9chain.Block.set_nonce (Merkle9chain.Block.nonce b + Z.of_nat n) b /\
    h = Merkle9chain.Block.calculate_hash b' /\
    Py.startswith h prefix = true /\
    forall m : nat, (m < n)%nat ->
      Py.startswith
        (Merkle9chain.Block.calculate_hash
           (Merkle9chain.Block.set_nonce (Merkle9chain.Block.nonce b + Z.of_nat m) b)) prefix = false.
Proof.
  revert b. induction fuel as [|fuel IH]; intros b.
  - split; [done | intros (n & Hn & _); lia].
  - cbn [Merkle9chain.Block.mine_loop].
    destruct (Py.startswith (Merkle9chain.Block.calculate_hash b) prefix) eqn:Hhit.
    + split.
      * intros [= <- <-]. exists 0%nat.
        rewrite m9_set_nonce_same. repeat split; [lia | done | lia].
      * intros (n & Hn & -> & -> & Hok & Hmiss).
        destruct n as [|n].
        -- by rewrite m9_set_nonce_same.
        -- specialize (Hmiss 0%nat ltac:(lia)).
           rewrite m9_set_nonce_same in Hmiss. congruence.
    + rewrite IH. split.
      * intros (n & Hn & -> & -> & Hok & Hmiss). exists (S n).
        rewrite m9_set_nonce_step in *.
        repeat split; [lia | done |].
        intros [|m] Hm.
        -- by rewrite m9_set_nonce_same.
        -- rewrite <- m9_set_nonce_step. apply Hmiss. lia.
      * intros (n & Hn & -> & -> & Hok & Hmiss).
        destruct n as [|n].
        { rewrite m9_set_nonce_same in Hok. congruence. }
        exists n. rewrite m9_set_nonce_step.
        repeat split; [lia | done |].
        intros m Hm. rewrite m9_set_nonce_step. apply Hmiss. lia.
Qed.

(** A nonce within the budget whose digest has the prefix makes the
    loop return. *)
Lemma m9_mine_loop_hits (fuel : nat) (prefix : string) (b : Merkle9chain.Block.attrs)
    (n : nat) :
  Py.startswith
    (Merkle9chain.Block.calculate_hash
       (Merkle9chain.Block.set_nonce (Merkle9chain.Block.nonce b + Z.of_nat n) b)) prefix = true ->
  (n < fuel)%nat ->
  exists h b', Merkle9chain.Block.mine_loop fuel prefix b = Py.Ok (h, b').
Proof.
  revert b n. induction fuel as [|fuel IH]; intros b n Hhit Hn; [lia|].
  cbn [Merkle9chain.Block.mine_loop].
  destruct (Py.startswith (Merkle9chain.Block.calculate_hash b) prefix) eqn:Hnow; [eauto|].
  destruct n as [|n].
  - rewrite m9_set_nonce_same in Hhit. congruence.
  - apply (IH _ n); [|lia]. by rewrite m9_set_nonce_step.
Qed.

(** The loop never raises: it returns or is still running. *)
Lemma m9_mine_loop_no_raise (fuel : nat) (prefix : string)
    (b : Merkle9chain.Block.attrs) (e : Py.exn) :
  Merkle9chain.Block.mine_loop fuel prefix b <> Py.Raise e.
Proof.
  revert b. induction fuel as [|fuel IH]; intros b; cbn [Merkle9chain.Block.mine_loop].
  - done.
  - destruct (Py.startswith _ _); [done | apply IH].
Qed.

(** Construction returns exactly the mined block, after one reading of
    the clock. *)
Lemma m9_block_init_Ok (fuel : nat) (index : Z) (data previous_hash : string)
    (difficulty : Z) (k : nat) (b : Merkle9chain.Block.t) (k' : nat) :
  Py.run (Merkle9chain.Block.__init__ fuel index data previous_hash difficulty) k
    = Py.Ok (b, k') <->
  k' = S k /\
  Spec.m9_mined fuel index (reading k) data previous_hash difficulty b.
Proof.
  unfold Merkle9chain.Block.__init__, Merkle9chain.Block.mine_block, Spec.m9_mined.
  run_io. cbn [Merkle9chain.Block.nonce].
  set (b0 := Merkle9chain.Block.mk_attrs index (reading k) data previous_hash 0).
  assert (Hb0 : forall n : nat,
    Merkle9chain.Block.set_nonce (Merkle9chain.Block.nonce b0 + Z.of_nat n) b0
    = Merkle9chain.Block.mk_attrs index (reading k) data previous_hash (Z.of_nat n))
    by done.
  destruct (Merkle9chain.Block.mine_loop fuel (Py.mul "0" difficulty) b0)
    as [[h b']| |] eqn:Hmine.
  - apply m9_mine_loop_Ok in Hmine as (n & Hn & -> & -> & Hok & Hmiss).
    rewrite Hb0 in *. cbn [fst snd]. split.
    + intros [= <- <-]. split; [done|]. exists n. cbn [Merkle9chain.Block.self Merkle9chain.Block.hash].
      repeat split; [lia | done |]. intros m Hm. rewrite <- Hb0. by apply Hmiss.
    + intros (-> & n' & Hn' & Hself & Hhash & Hok' & Hmiss').
      destruct b as [a hb]. cbn [Merkle9chain.Block.self Merkle9chain.Block.hash] in *. subst a hb.
      assert (n' = n) as ->; [|done].
      destruct (Nat.lt_trichotomy n' n) as [Hlt|[Heq|Hgt]]; [|done|].
      * apply Hmiss in Hlt. rewrite Hb0 in Hlt. congruence.
      * apply Hmiss' in Hgt. congruence.
  - by apply m9_mine_loop_no_raise in Hmine.
  - split; [done|]. intros (-> & n & Hn & Hself & Hhash & Hok & Hmiss). exfalso.
    assert (Hex : Merkle9chain.Block.mine_loop fuel (Py.mul "0" difficulty) b0
                  = Py.Ok (Merkle9chain.Block.hash b, Merkle9chain.Block.self b)).
    { apply m9_mine_loop_Ok. exists n. rewrite Hb0, <- Hself.
      repeat split; [lia | done | done |].
      intros m Hm. rewrite Hb0. by apply Hmiss. }
    congruence.
Qed.

(** Construction completes as soon as the budget reaches a nonce whose
    digest has the prefix. *)
Lemma m9_block_init_terminates (fuel : nat) (index : Z)
    (data previous_hash : string) (difficulty : Z) (k n : nat) :
  Py.startswith
    (Merkle9chain.Block.calculate_hash
       (Merkle9chain.Block.mk_attrs index (reading k) data previous_hash (Z.of_nat n)))
    (Py.mul "0" difficulty) = true ->
  (n < fuel)%nat ->
  exists b, Py.run (Merkle9chain.Block.__init__ fuel index data previous_hash difficulty) k
            = Py.Ok (b, S k).
Proof.
  intros Hhit Hn.
  destruct (m9_mine_loop_hits fuel (Py.mul "0" difficulty)
              (Merkle9chain.Block.mk_attrs index (reading k) data previous_hash 0) n)
    as (h & b' & Hmine); [done | done |].
  unfold Merkle9chain.Block.__init__, Merkle9chain.Block.mine_block. run_io.
  rewrite Hmine. eauto.
Qed.

End MiningFacts.

(** ** Validation of a chain *)
Section ValidationFacts.
Context `{Hasher}.

Lemma rank_inj (p q : problem) : Spec.rank p = Spec.rank q -> p = q.
Proof. by destruct p, q. Qed.

(** [exam.py]: the loop runs to its end exactly when no check fails at
    the positions it visits. *)
Lemma exam_first_failure_None (chain : list Exam.Block.t) (prefix : string)
    (positions : list nat) :
  Exam.Blockchain.first_failure chain prefix positions = None <->
  forall i p, i ∈ positions -> ~ Spec.exam_fails_at chain prefix i p.
Proof.
  induction positions as [|i rest IH]; cbn [Exam.Blockchain.first_failure].
  - split; [|done]. intros _ i p Hi. by apply elem_of_nil in Hi.
  - destruct (chain !! i) as [current|] eqn:Hc;
      [destruct (chain !! (i - 1)%nat) as [prev|] eqn:Hp|].
    + repeat case_bool_decide.
      * split; [done|]. intros Hno. exfalso.
        apply (Hno i HashMismatch); [left|]. by exists current, prev.
      * split; [done|]. intros Hno. exfalso.
        apply (Hno i LinkMismatch); [left|]. by exists current, prev.
      * destruct (Py.startswith (Exam.Block.hash current) prefix) eqn:Hs; cbn [negb].
        -- rewrite IH. split.
           ++ intros Hno j p [->|Hj]%elem_of_cons; [|by apply Hno].
              intros (c & q & Hc' & Hq' & Hbad).
              assert (c = current) as -> by congruence.
              assert (q = prev) as -> by congruence.
              destruct p; [done | done | congruence].
           ++ intros Hno j p Hj. apply Hno. by right.
        -- split; [done|]. intros Hno. exfalso.
           apply (Hno i DifficultyUnmet); [left|]. by exists current, prev.
    + rewrite IH. split.
      * intros Hno j p [->|Hj]%elem_of_cons; [|by apply Hno].
        intros (c & q & Hc' & Hq' & _). congruence.
      * intros Hno j p Hj. apply Hno. by right.
    + rewrite IH. split.
      * intros Hno j p [->|Hj]%elem_of_cons; [|by apply Hno].
        intros (c & q & Hc' & _). congruence.
      * intros Hno j p Hj. apply Hno. by right.
Qed.

(** [exam.py]: when the loop stops, it is at the first check that fails,
    in the order of positions and, at one position, of the checks; the
    line names the [index] attribute of that block. *)
Lemma exam_first_failure_Some (chain : list Exam.Block.t) (prefix : string)
    (a n : nat) (msg : string) :
  Exam.Blockchain.first_failure chain prefix (seq a n) = Some msg ->
  exists i p current,
    (a <= i < a + n)%nat /\
    Spec.exam_fails_at chain prefix i p /\
    chain !! i = Some current /\
    msg = Exam.Blockchain.line current p /\
    forall i' p', (a <= i' < a + n)%nat -> Spec.exam_fails_at chain prefix i' p' ->
      (i < i')%nat \/ (i = i' /\ (Spec.rank p <= Spec.rank p')%nat).
Proof.
  revert a. induction n as [|n IH]; intros a; cbn [seq Exam.Blockchain.first_failure].
  - done.
  - assert (Hrest : Exam.Blockchain.first_failure chain prefix (seq (S a) n) = Some msg ->
      (forall p', ~ Spec.exam_fails_at chain prefix a p') ->
      exists i p current,
        (a <= i < a + S n)%nat /\ Spec.exam_fails_at chain prefix i p /\
        chain !! i = Some current /\ msg = Exam.Blockchain.line current p /\
        forall i' p', (a <= i' < a + S n)%nat -> Spec.exam_fails_at chain prefix i' p' ->
          (i < i')%nat \/ (i = i' /\ (Spec.rank p <= Spec.rank p')%nat)).
    { intros Hmsg Hnone.
      destruct (IH _ Hmsg) as (i & p & current & Hi & Hbad & Hc & Hline & Hmin).
      exists i, p, current. repeat split; [lia | lia | done..|].
      intros i' p' Hi' Hbad'.
      destruct (decide (i' = a)) as [->|Hne]; [by apply Hnone in Hbad'|].
      apply Hmin; [lia | done]. }
    destruct (chain !! a) as [current|] eqn:Hc;
      [destruct (chain !! (a - 1)%nat) as [prev|] eqn:Hp|].
    + assert (Hhere : forall p, Spec.exam_fails_at chain prefix a p <->
        match p with
        | HashMismatch => Exam.Block.hash current <> Exam.Block.calculate_hash current
        | LinkMismatch => Exam.Block.previous_hash current <> Exam.Block.hash prev
        | DifficultyUnmet => Py.startswith (Exam.Block.hash current) prefix = false
        end).
      { intros p. split.
        - intros (c & q & Hc' & Hq' & Hbad).
          assert (c = current) as -> by congruence.
          by assert (q = prev) as -> by congruence.
        - intros Hbad. by exists current, prev. }
      assert (Hstop : forall p,
        Spec.exam_fails_at chain prefix a p ->
        (forall p', Spec.exam_fails_at chain prefix a p' ->
           (Spec.rank p <= Spec.rank p')%nat) ->
        exists i p0 current0,
          (a <= i < a + S n)%nat /\ Spec.exam_fails_at chain prefix i p0 /\
          chain !! i = Some current0 /\
          Exam.Blockchain.line current p = Exam.Blockchain.line current0 p0 /\
          forall i' p', (a <= i' < a + S n)%nat -> Spec.exam_fails_at chain prefix i' p' ->
            (i < i')%nat \/ (i = i' /\ (Spec.rank p0 <= Spec.rank p')%nat)).
      { intros p Hbad Hleast. exists a, p, current.
        repeat split; [lia | lia | done..|].
        intros i' p' Hi' Hbad'.
        destruct (decide (i' = a)) as [->|Hne]; [right|left; lia].
        split; [done|]. by apply Hleast. }
      repeat case_bool_decide.
      * intros [= <-]. apply (Hstop HashMismatch); [by apply Hhere|].
        intros p' _. simpl. lia.
      * intros [= <-]. apply (Hstop LinkMismatch); [by apply Hhere|].
        intros [] Hbad%Hhere; simpl; [done | lia | lia].
      * destruct (Py.startswith (Exam.Block.hash current) prefix) eqn:Hs; cbn [negb].
        -- intros Hmsg. apply Hrest; [done|].
           intros p' Hbad%Hhere. destruct p'; [done | done | congruence].
        -- intros [= <-]. apply (Hstop DifficultyUnmet); [by apply Hhere|].
           intros [] Hbad%Hhere; simpl; [done | done | lia].
    + intros Hmsg. apply Hrest; [done|]. intros p' (c & q & _ & Hq & _). congruence.
    + intros Hmsg. apply Hrest; [done|]. intros p' (c & q & Hc' & _). congruence.
Qed.

(** [exam.py]: the value returned. *)
Lemma exam_is_chain_valid_true (self : Exam.Blockchain.t) :
  fst (Exam.Blockchain.is_chain_valid self) = true <->
  (forall i p, ~ Spec.exam_finding self i p) /\ Spec.exam_merkle_consistent self.
Proof.
  unfold Exam.Blockchain.is_chain_valid, Spec.exam_finding, Spec.exam_merkle_consistent.
  set (prefix := Py.mul "0" (Exam.Blockchain.difficulty self)).
  set (chain := Exam.Blockchain.chain self).
  assert (Hpos : forall i, (1 <= i)%nat ->
            (exists c, chain !! i = Some c) -> i ∈ seq 1 (length chain - 1)).
  { intros i Hi (c & Hc). apply lookup_lt_Some in Hc. apply elem_of_seq. lia. }
  destruct (Exam.Blockchain.first_failure chain prefix (seq 1 (length chain - 1)))
    as [msg|] eqn:Hff.
  - split; [done|]. intros [Hno _]. exfalso.
    assert (Hnone : Exam.Blockchain.first_failure chain prefix
                      (seq 1 (length chain - 1)) = None); [|congruence].
    apply exam_first_failure_None. intros i p Hi%elem_of_seq Hbad.
    apply (Hno i p). split; [lia | done].
  - pose proof (proj1 (exam_first_failure_None _ _ _) Hff) as Hno.
    case_bool_decide as Hm; cbn [fst].
    + split; [done | intros [_ ?]; done].
    + split; [|done]. intros _. split.
      * intros i p [Hi Hbad]. apply (Hno i p); [|done].
        destruct Hbad as (c & q & Hc & _). apply Hpos; eauto.
      * by destruct (decide (Exam.MerkleTree.calculate_merkle_root
                               (map Exam.Block.hash chain)
                             = Exam.Blockchain.merkle_root self)).
Qed.

Lemma m9_reason_inj (p q : problem) :
  Merkle9chain.Blockchain.reason p = Merkle9chain.Blockchain.reason q -> p = q.
Proof. by destruct p, q. Qed.

Lemma m9_entry_eq (i j : nat) (p q : problem) :
  (Z.of_nat j, Merkle9chain.Blockchain.reason p)
    = (Z.of_nat i, Merkle9chain.Blockchain.reason q) <-> j = i /\ p = q.
Proof.
  split; [|by intros [-> ->]].
  intros [= Hj%Nat2Z.inj Hp%m9_reason_inj]. done.
Qed.

Lemma elem_of_append_if {A} (c : bool) (acc : list A) (y x : A) :
  x ∈ (if c then acc ++ [y] else acc) <-> x ∈ acc \/ (c = true /\ x = y).
Proof.
  destruct c; rewrite ?elem_of_app, ?list_elem_of_singleton; intuition congruence.
Qed.

(** [merkle9chain.py]: one pass of the loop body adds the findings of
    its position after what was recorded before. *)
Lemma m9_check_block_elem (prefix : string) (i : nat)
    (current previous : Merkle9chain.Block.t) (acc : list (Z * string))
    (j : nat) (p : problem) :
  (Z.of_nat j, Merkle9chain.Blockchain.reason p)
    ∈ Merkle9chain.Blockchain.check_block prefix i current previous acc <->
  (Z.of_nat j, Merkle9chain.Blockchain.reason p) ∈ acc \/
  (j = i /\
   match p with
   | HashMismatch =>
       Merkle9chain.Block.hash current <> Merkle9chain.Block.calculate_hash current
   | LinkMismatch =>
       Merkle9chain.Block.previous_hash current <> Merkle9chain.Block.hash previous
   | DifficultyUnmet => Py.startswith (Merkle9chain.Block.hash current) prefix = false
   end).
Proof.
  unfold Merkle9chain.Blockchain.check_block.
  rewrite !elem_of_append_if, !m9_entry_eq, !bool_decide_eq_true, negb_true_iff.
  destruct p; intuition (try discriminate; auto).
Qed.

Lemma m9_check_blocks_elem (chain : list Merkle9chain.Block.t) (prefix : string)
    (positions : list nat) (acc : list (Z * string)) (j : nat) (p : problem) :
  (Z.of_nat j, Merkle9chain.Blockchain.reason p)
    ∈ Merkle9chain.Blockchain.check_blocks chain prefix positions acc <->
  (Z.of_nat j, Merkle9chain.Blockchain.reason p) ∈ acc \/
  (j ∈ positions /\ Spec.m9_fails_at chain prefix j p).
Proof.
  revert acc. induction positions as [|i rest IH]; intros acc;
    cbn [Merkle9chain.Blockchain.check_blocks].
  - split; [auto|]. intros [?|[[]%elem_of_nil _]]. done.
  - destruct (chain !! i) as [current|] eqn:Hc;
      [destruct (chain !! (i - 1)%nat) as [previous|] eqn:Hp|];
      rewrite IH, ?m9_check_block_elem, elem_of_cons.
    + split.
      * intros [[?|[-> Hbad]]|[Hj Hbad]]; [auto| |auto].
        right. split; [auto|]. by exists current, previous.
      * intros [?|[[->|Hj] Hbad]]; [auto| |auto].
        left. right. split; [done|].
        destruct Hbad as (c & q & Hc' & Hq' & Hbad).
        assert (c = current) as -> by congruence.
        by assert (q = previous) as -> by congruence.
    + split.
      * intros [?|[Hj Hbad]]; auto.
      * intros [?|[[->|Hj] Hbad]]; [auto| |auto].
        destruct Hbad as (c & q & _ & Hq' & _). congruence.
    + split.
      * intros [?|[Hj Hbad]]; auto.
      * intros [?|[[->|Hj] Hbad]]; [auto| |auto].
        destruct Hbad as (c & q & Hc' & _). congruence.
Qed.

(** [merkle9chain.py]: the list holds exactly the findings of the chain. *)
Lemma m9_invalid_blocks_elem (self : Merkle9chain.Blockchain.t) (i : nat) (p : problem) :
  (Z.of_nat i, Merkle9chain.Blockchain.reason p)
    ∈ Merkle9chain.Blockchain.invalid_blocks self <->
  Spec.m9_finding self i p.
Proof.
  unfold Merkle9chain.Blockchain.invalid_blocks, Spec.m9_finding.
  rewrite m9_check_blocks_elem, elem_of_nil, elem_of_seq. split.
  - intros [[]|[Hi Hbad]]. split; [lia | done].
  - intros [Hi Hbad]. right. split; [|done].
    destruct Hbad as (c & q & Hc%lookup_lt_Some & _). lia.
Qed.

(** Every entry of the list is a finding: a position and a reason. *)
Lemma m9_check_blocks_shape (chain : list Merkle9chain.Block.t) (prefix : string)
    (positions : list nat) (acc : list (Z * string)) (x : Z * string) :
  x ∈ Merkle9chain.Blockchain.check_blocks chain prefix positions acc ->
  x ∈ acc \/ exists i p, i ∈ positions /\ x = (Z.of_nat i, Merkle9chain.Blockchain.reason p).
Proof.
  revert acc. induction positions as [|i rest IH]; intros acc;
    cbn [Merkle9chain.Blockchain.check_blocks]; [auto|].
  assert (Hstep : forall current previous,
    x ∈ Merkle9chain.Blockchain.check_block prefix i current previous acc ->
    x ∈ acc \/ exists p, x = (Z.of_nat i, Merkle9chain.Blockchain.reason p)).
  { intros current previous. unfold Merkle9chain.Blockchain.check_block.
    rewrite !elem_of_append_if. intros [[[?|[_ ->]]|[_ ->]]|[_ ->]]; eauto. }
  destruct (chain !! i) as [current|]; [destruct (chain !! (i - 1)%nat) as [previous|]|];
    intros [Hx|(j & p & Hj & ->)]%IH;
    try (apply Hstep in Hx as [Hx|[p ->]]);
    first [ by left
          | right; eexists _, _; split; [|done]; first [by left | by right] ].
Qed.

(** [merkle9chain.py]: the list holds nothing but findings. *)
Lemma m9_invalid_blocks_entry (self : Merkle9chain.Blockchain.t) (entry : Z * string) :
  entry ∈ Merkle9chain.Blockchain.invalid_blocks self ->
  exists i p,
    entry = (Z.of_nat i, Merkle9chain.Blockchain.reason p) /\
    Spec.m9_finding self i p.
Proof.
  intros Hin. pose proof Hin as Hshape.
  unfold Merkle9chain.Blockchain.invalid_blocks in Hshape.
  apply m9_check_blocks_shape in Hshape as [[]%elem_of_nil|(i & p & _ & ->)].
  exists i, p. split; [done|]. by apply m9_invalid_blocks_elem.
Qed.

Lemma NoDup_append_if {A} (c : bool) (acc : list A) (y : A) :
  NoDup acc -> y ∉ acc -> NoDup (if c then acc ++ [y] else acc).
Proof.
  intros Hnd Hy. destruct c; [|done].
  apply NoDup_app. split; [done|]. split; [|apply NoDup_singleton].
  intros x Hx ->%list_elem_of_singleton. done.
Qed.

(** [merkle9chain.py]: a finding is recorded once. *)
Lemma m9_check_blocks_NoDup (chain : list Merkle9chain.Block.t) (prefix : string)
    (a n : nat) (acc : list (Z * string)) :
  NoDup acc -> (forall x, x ∈ acc -> fst x < Z.of_nat a) ->
  NoDup (Merkle9chain.Blockchain.check_blocks chain prefix (seq a n) acc).
Proof.
  revert a acc. induction n as [|n IH]; intros a acc Hnd Hlt;
    cbn [seq Merkle9chain.Blockchain.check_blocks]; [done|].
  assert (Hnext : forall x, x ∈ acc -> fst x < Z.of_nat (S a)).
  { intros x Hx%Hlt. lia. }
  destruct (chain !! a) as [current|]; [destruct (chain !! (a - 1)%nat) as [previous|]|];
    [|by apply IH..].
  apply IH; unfold Merkle9chain.Blockchain.check_block.
  - assert (Hfresh : forall r, (Z.of_nat a, r) ∉ acc).
    { intros r Hin%Hlt. simpl in Hin. lia. }
    apply NoDup_append_if; [apply NoDup_append_if; [apply NoDup_append_if|]|].
    + done.
    + apply Hfresh.
    + rewrite elem_of_append_if. intros [Hin|[_ [=]]]. by apply Hfresh in Hin.
    + rewrite !elem_of_append_if. intros [[Hin|[_ [=]]]|[_ [=]]].
      by apply Hfresh in Hin.
  - intros x. rewrite !elem_of_append_if.
    intros [[[Hx|[_ ->]]|[_ ->]]|[_ ->]]; [by apply Hnext | simpl; lia..].
Qed.

Lemma m9_invalid_blocks_NoDup (self : Merkle9chain.Blockchain.t) :
  NoDup (Merkle9chain.Blockchain.invalid_blocks self).
Proof.
  apply m9_check_blocks_NoDup; [apply NoDup_nil_2|].
  intros x Hx. by apply elem_of_nil in Hx.
Qed.

(** The value [merkle9chain.py] returns depends on the list alone: the
    comparison of the Merkle roots only prints. *)
Lemma m9_is_chain_valid_true (self : Merkle9chain.Blockchain.t) :
  fst (Merkle9chain.Blockchain.is_chain_valid self) = true <->
  forall i p, ~ Spec.m9_finding self i p.
Proof.
  unfold Merkle9chain.Blockchain.is_chain_valid.
  destruct (Merkle9chain.Blockchain.invalid_blocks self) as [|x l] eqn:Hl; cbn [fst].
  - split; [|done]. intros _ i p Hf%m9_invalid_blocks_elem.
    rewrite Hl in Hf. by apply elem_of_nil in Hf.
  - split; [done|]. intros Hno. exfalso.
    assert (Hx : x ∈ Merkle9chain.Blockchain.invalid_blocks self)
      by (rewrite Hl; left).
    pose proof Hx as Hx'. unfold Merkle9chain.Blockchain.invalid_blocks in Hx'.
    apply m9_check_blocks_shape in Hx' as [[]%elem_of_nil|(i & p & _ & ->)].
    apply m9_invalid_blocks_elem in Hx. by apply (Hno i p).
Qed.

End ValidationFacts.

(** ** Construction of a chain *)
Section ChainFacts.
Context `{Hasher, Clock}.

Lemma exam_chain_init_Ok (fuel : nat) (difficulty : Z) (k : nat)
    (bc : Exam.Blockchain.t) (k' : nat) :
  Py.run (Exam.Blockchain.__init__ fuel difficulty) k = Py.Ok (bc, k') <->
  k' = S k /\
  exists genesis,
    bc = Exam.Blockchain.mk difficulty [genesis] None /\
    Spec.exam_mined fuel 0 (reading k) "Genesis Block" "0" difficulty genesis.
Proof.
  unfold Exam.Blockchain.__init__, Exam.Blockchain.create_genesis_block.
  unfold mbind at 1, io_bind at 1, Py.bind at 1. cbn [Py.run].
  destruct (Py.run (Exam.Block.__init__ fuel 0 "Genesis Block" "0" difficulty) k)
    as [[g k1]| |] eqn:Hg.
  - apply exam_block_init_Ok in Hg as [-> Hg]. unfold Py.ret. cbn [Py.run]. split.
    + intros [= <- <-]. eauto.
    + intros (-> & genesis & -> & Hgen). repeat f_equal.
      assert (Hrun : Py.run (Exam.Block.__init__ fuel 0 "Genesis Block" "0" difficulty) k
                     = Py.Ok (genesis, S k)) by (by apply exam_block_init_Ok).
      assert (Hrun' : Py.run (Exam.Block.__init__ fuel 0 "Genesis Block" "0" difficulty) k
                      = Py.Ok (g, S k)) by (by apply exam_block_init_Ok).
      congruence.
  - split; [done|]. intros (-> & genesis & -> & Hgen).
    assert (Hrun : Py.run (Exam.Block.__init__ fuel 0 "Genesis Block" "0" difficulty) k
                   = Py.Ok (genesis, S k)) by (by apply exam_block_init_Ok).
    congruence.
  - split; [done|]. intros (-> & genesis & -> & Hgen).
    assert (Hrun : Py.run (Exam.Block.__init__ fuel 0 "Genesis Block" "0" difficulty) k
                   = Py.Ok (genesis, S k)) by (by apply exam_block_init_Ok).
    congruence.
Qed.

Lemma m9_chain_init_Ok (fuel : nat) (difficulty : Z) (k : nat)
    (bc : Merkle9chain.Blockchain.t) (k' : nat) :
  Py.run (Merkle9chain.Blockchain.__init__ fuel difficulty) k = Py.Ok (bc, k') <->
  k' = S k /\
  exists genesis,
    bc = Merkle9chain.Blockchain.mk difficulty [genesis] None /\
    Spec.m9_mined fuel 0 (reading k) "Genesis Block" "0" difficulty genesis.
Proof.
  unfold Merkle9chain.Blockchain.__init__, Merkle9chain.Blockchain.create_genesis_block.
  unfold mbind at 1, io_bind at 1, Py.bind at 1. cbn [Py.run].
  destruct (Py.run (Merkle9chain.Block.__init__ fuel 0 "Genesis Block" "0" difficulty) k)
    as [[g k1]| |] eqn:Hg.
  - apply m9_block_init_Ok in Hg as [-> Hg]. unfold Py.ret. cbn [Py.run]. split.
    + intros [= <- <-]. eauto.
    + intros (-> & genesis & -> & Hgen). repeat f_equal.
      assert (Hrun : Py.run (Merkle9chain.Block.__init__ fuel 0 "Genesis Block" "0"
                               difficulty) k
                     = Py.Ok (genesis, S k)) by (by apply m9_block_init_Ok).
      assert (Hrun' : Py.run (Merkle9chain.Block.__init__ fuel 0 "Genesis Block" "0"
                                difficulty) k
                      = Py.Ok (g, S k)) by (by apply m9_block_init_Ok).
      congruence.
  - split; [done|]. intros (-> & genesis & -> & Hgen).
    assert (Hrun : Py.run (Merkle9chain.Block.__init__ fuel 0 "Genesis Block" "0"
                             difficulty) k
                   = Py.Ok (genesis, S k)) by (by apply m9_block_init_Ok).
    congruence.
  - split; [done|]. intros (-> & genesis & -> & Hgen).
    assert (Hrun : Py.run (Merkle9chain.Block.__init__ fuel 0 "Genesis Block" "0"
                             difficulty) k
                   = Py.Ok (genesis, S k)) by (by apply m9_block_init_Ok).
    congruence.
Qed.

End ChainFacts.

(** ** Corruption of replicas *)
Section CorruptionFacts.
Context `{Hasher}.

Lemma exam_falsify_spec (b : Exam.Block.t) :
  Spec.exam_falsified b (Exam.Network.falsify b).
Proof. by destruct b as [[]]. Qed.

(** Tampering twice is tampering once: the digest does not read [hash],
    and the data is the same marker. *)
Lemma exam_falsify_idem (b : Exam.Block.t) :
  Exam.Network.falsify (Exam.Network.falsify b) = Exam.Network.falsify b.
Proof. by destruct b as [[]]. Qed.

Lemma exam_corrupt_blocks_length (chain : list Exam.Block.t) (blocks : list Z) :
  length (Exam.Network.corrupt_blocks chain blocks) = length chain.
Proof.
  revert chain. induction blocks as [|bidx rest IH]; intros chain;
    cbn [Exam.Network.corrupt_blocks]; [done|].
  destruct (_ && _); rewrite IH; [apply length_alter | done].
Qed.

(** Position by position: the targeted blocks are tampered with, the
    others are as they were; positions outside the chain are skipped. *)
Lemma exam_corrupt_blocks_lookup (chain : list Exam.Block.t) (blocks : list Z)
    (j : nat) :
  Exam.Network.corrupt_blocks chain blocks !! j
  = (if decide (Z.of_nat j ∈ blocks) then Exam.Network.falsify else id) <$> chain !! j.
Proof.
  revert chain. induction blocks as [|bidx rest IH]; intros chain;
    cbn [Exam.Network.corrupt_blocks].
  - rewrite decide_False by apply not_elem_of_nil. by destruct (chain !! j).
  - destruct (Z.leb_spec 0 bidx) as [Hlo|Hlo];
      [destruct (Z.ltb_spec bidx (Z.of_nat (length chain))) as [Hhi|Hhi]|]; cbn [andb].
    + rewrite IH. destruct (decide (j = Z.to_nat bidx)) as [->|Hne].
      * rewrite list_lookup_alter_eq, Z2Nat.id by done.
        rewrite (decide_True (P := bidx ∈ bidx :: rest)) by left.
        destruct (chain !! Z.to_nat bidx) as [b|]; cbn [fmap option_fmap option_map];
          destruct (decide (bidx ∈ rest)); rewrite ?exam_falsify_idem; done.
      * rewrite list_lookup_alter_ne by done.
        destruct (decide (Z.of_nat j ∈ rest)) as [Hin|Hout].
        -- rewrite decide_True; [done | by right].
        -- rewrite decide_False; [done|].
           intros [Heq|Hin]%elem_of_cons; [lia | done].
    + rewrite IH. destruct (chain !! j) as [b|] eqn:Hj; [|by repeat destruct (decide _)].
      apply lookup_lt_Some in Hj.
      destruct (decide (Z.of_nat j ∈ rest)) as [Hin|Hout].
      * rewrite decide_True; [done | by right].
      * rewrite decide_False; [done|].
        intros [Heq|Hin]%elem_of_cons; [lia | done].
    + rewrite IH.
      destruct (decide (Z.of_nat j ∈ rest)) as [Hin|Hout].
      * rewrite decide_True; [done | by right].
      * rewrite decide_False; [done|].
        intros [Heq|Hin]%elem_of_cons; [lia | done].
Qed.

Lemma exam_corrupt_blocks_idem (chain : list Exam.Block.t) (blocks : list Z) :
  Exam.Network.corrupt_blocks (Exam.Network.corrupt_blocks chain blocks) blocks
  = Exam.Network.corrupt_blocks chain blocks.
Proof.
  apply list_eq. intros j. rewrite !exam_corrupt_blocks_lookup.
  destruct (chain !! j) as [b|]; [|done]. cbn [fmap option_fmap option_map].
  destruct (decide _); [by rewrite exam_falsify_idem | done].
Qed.

Lemma exam_corrupt_node_idem (blocks : list Z) (bc : Exam.Blockchain.t) :
  Exam.Network.corrupt_node blocks (Exam.Network.corrupt_node blocks bc)
  = Exam.Network.corrupt_node blocks bc.
Proof.
  unfold Exam.Network.corrupt_node, Exam.Blockchain.compute_merkle_root.
  cbn [snd Exam.Blockchain.chain Exam.Blockchain.difficulty Exam.Blockchain.merkle_root].
  by rewrite exam_corrupt_blocks_idem.
Qed.

(** One replica after the inner loop and the refresh of its cache. *)
Lemma exam_corrupt_node_spec (blocks : list Z) (bc : Exam.Blockchain.t) :
  Spec.exam_replica_corrupted blocks bc (Exam.Network.corrupt_node blocks bc).
Proof.
  unfold Spec.exam_replica_corrupted, Spec.exam_merkle_consistent,
    Exam.Network.corrupt_node, Exam.Blockchain.compute_merkle_root.
  cbn [snd Exam.Blockchain.chain Exam.Blockchain.difficulty Exam.Blockchain.merkle_root].
  split; [done|]. split; [apply exam_corrupt_blocks_length|]. split; [done|].
  intros j b Hj. rewrite exam_corrupt_blocks_lookup, Hj. split.
  - intros Hout. by rewrite decide_False.
  - intros Hin. rewrite decide_True by done.
    eexists. split; [reflexivity|]. apply exam_falsify_spec.
Qed.

(** The outer loop keeps the number of replicas and the difficulty. *)
Lemma exam_corrupt_nodes_frame (self : Exam.Network.t) (indices blocks : list Z) :
  length (Exam.Network.nodes (fst (Exam.Network.corrupt_nodes self indices blocks)))
    = length (Exam.Network.nodes self) /\
  Exam.Network.difficulty (fst (Exam.Network.corrupt_nodes self indices blocks))
    = Exam.Network.difficulty self.
Proof.
  revert self. induction indices as [|idx rest IH]; intros self;
    cbn [Exam.Network.corrupt_nodes]; [done|].
  destruct (Py.index (Exam.Network.nodes self) idx) as [i| |]; [|done..].
  destruct (IH (Exam.Network.mk
                  (alter (Exam.Network.corrupt_node blocks) i (Exam.Network.nodes self))
                  (Exam.Network.difficulty self))) as [Hlen Hdiff].
  rewrite Hlen, Hdiff. cbn [Exam.Network.nodes Exam.Network.difficulty].
  by rewrite length_alter.
Qed.

(** With every replica index in range the call returns, and position by
    position the targeted replicas are corrupted, the others untouched. *)
Lemma exam_corrupt_nodes_in_range (self : Exam.Network.t) (indices blocks : list Z) :
  (forall idx, idx ∈ indices -> 0 <= idx < Z.of_nat (length (Exam.Network.nodes self))) ->
  snd (Exam.Network.corrupt_nodes self indices blocks) = Py.Ok tt /\
  forall i : nat,
    Exam.Network.nodes (fst (Exam.Network.corrupt_nodes self indices blocks)) !! i
    = (if decide (Z.of_nat i ∈ indices) then Exam.Network.corrupt_node blocks else id)
        <$> Exam.Network.nodes self !! i.
Proof.
  revert self. induction indices as [|idx rest IH]; intros self Hrange;
    cbn [Exam.Network.corrupt_nodes].
  - split; [done|]. intros i. rewrite decide_False by apply not_elem_of_nil.
    by destruct (_ !! i).
  - rewrite index_in_range by (apply Hrange; left).
    set (self1 := Exam.Network.mk _ _).
    destruct (IH self1) as [Hok Hnodes].
    { intros idx' Hin. unfold self1. cbn [Exam.Network.nodes].
      rewrite length_alter. apply Hrange. by right. }
    split; [done|]. intros i. rewrite Hnodes. unfold self1. cbn [Exam.Network.nodes].
    assert (0 <= idx) by (apply Hrange; left).
    destruct (decide (i = Z.to_nat idx)) as [->|Hne].
    + rewrite list_lookup_alter_eq, Z2Nat.id by done.
      rewrite (decide_True (P := idx ∈ idx :: rest)) by left.
      destruct (Exam.Network.nodes self !! Z.to_nat idx) as [bc|];
        cbn [fmap option_fmap option_map];
        destruct (decide (idx ∈ rest)); rewrite ?exam_corrupt_node_idem; done.
    + rewrite list_lookup_alter_ne by done.
      destruct (decide (Z.of_nat i ∈ rest)) as [Hin|Hout].
      * rewrite decide_True; [done | by right].
      * rewrite decide_False; [done|].
        intros [Heq|Hin]%elem_of_cons; [lia | done].
Qed.

(** A batch is processed in order: what follows a prefix runs on the
    network the prefix leaves, unless the prefix has raised. *)
Lemma exam_corrupt_nodes_app (self : Exam.Network.t) (pre rest blocks : list Z) :
  Exam.Network.corrupt_nodes self (pre ++ rest) blocks
  = match Exam.Network.corrupt_nodes self pre blocks with
    | (self', Py.Ok _) => Exam.Network.corrupt_nodes self' rest blocks
    | stop => stop
    end.
Proof.
  revert self. induction pre as [|idx pre IH]; intros self;
    cbn [app Exam.Network.corrupt_nodes]; [done|].
  destruct (Py.index (Exam.Network.nodes self) idx); [apply IH | done..].
Qed.

(** Block positions outside the chain change nothing. *)
Lemma exam_corrupt_blocks_skip (chain : list Exam.Block.t) (blocks : list Z) :
  Exam.Network.corrupt_blocks chain blocks
  = Exam.Network.corrupt_blocks chain
      (filter (fun bidx => 0 <= bidx < Z.of_nat (length chain)) blocks).
Proof.
  revert chain. induction blocks as [|bidx rest IH]; intros chain; [done|].
  cbn [Exam.Network.corrupt_blocks]. rewrite filter_cons.
  destruct (Z.leb_spec 0 bidx) as [Hlo|Hlo];
    [destruct (Z.ltb_spec bidx (Z.of_nat (length chain))) as [Hhi|Hhi]|]; cbn [andb].
  - rewrite decide_True by lia. cbn [Exam.Network.corrupt_blocks].
    destruct (Z.leb_spec 0 bidx), (Z.ltb_spec bidx (Z.of_nat (length chain)));
      try lia. cbn [andb].
    rewrite IH, length_alter. done.
  - rewrite decide_False by lia. apply IH.
  - rewrite decide_False by lia. apply IH.
Qed.

(** [merkle9chain.py]'s [falsify_block] tampers with a block in the same
    way, and stops there: it does not touch the cached root. *)
Lemma m9_falsify_spec (b : Merkle9chain.Block.t) :
  let b' := Merkle9chain.Blockchain.falsify b in
  Merkle9chain.Block.data b' = "FALSIFIED DATA" /\
  Merkle9chain.Block.hash b' = Merkle9chain.Block.calculate_hash b' /\
  Merkle9chain.Block.index b' = Merkle9chain.Block.index b /\
  Merkle9chain.Block.timestamp b' = Merkle9chain.Block.timestamp b /\
  Merkle9chain.Block.nonce b' = Merkle9chain.Block.nonce b /\
  Merkle9chain.Block.previous_hash b' = Merkle9chain.Block.previous_hash b.
Proof. by destruct b as [[]]. Qed.

Lemma m9_falsify_idem (b : Merkle9chain.Block.t) :
  Merkle9chain.Blockchain.falsify (Merkle9chain.Blockchain.falsify b)
  = Merkle9chain.Blockchain.falsify b.
Proof. by destruct b as [[]]. Qed.

Lemma m9_falsify_block_in_range (bc : Merkle9chain.Blockchain.t) (indices : list Z) :
  (forall idx, idx ∈ indices ->
     0 <= idx < Z.of_nat (length (Merkle9chain.Blockchain.chain bc))) ->
  let bc' := fst (Merkle9chain.Blockchain.falsify_block bc indices) in
  snd (Merkle9chain.Blockchain.falsify_block bc indices) = Py.Ok tt /\
  Merkle9chain.Blockchain.merkle_root bc' = Merkle9chain.Blockchain.merkle_root bc /\
  Merkle9chain.Blockchain.difficulty bc' = Merkle9chain.Blockchain.difficulty bc /\
  forall j : nat,
    Merkle9chain.Blockchain.chain bc' !! j
    = (if decide (Z.of_nat j ∈ indices) then Merkle9chain.Blockchain.falsify else id)
        <$> Merkle9chain.Blockchain.chain bc !! j.
Proof.
  revert bc. induction indices as [|idx rest IH]; intros bc Hrange;
    cbn [Merkle9chain.Blockchain.falsify_block fst snd].
  - repeat split. intros j. rewrite decide_False by apply not_elem_of_nil.
    by destruct (_ !! j).
  - rewrite index_in_range by (apply Hrange; left).
    set (bc1 := Merkle9chain.Blockchain.mk _ _ _).
    destruct (IH bc1) as (Hok & Hroot & Hdiff & Hchain).
    { intros idx' Hin. unfold bc1. cbn [Merkle9chain.Blockchain.chain].
      rewrite length_alter. apply Hrange. by right. }
    split; [done|]. split; [done|]. split; [done|].
    intros j. rewrite Hchain. unfold bc1. cbn [Merkle9chain.Blockchain.chain].
    assert (0 <= idx) by (apply Hrange; left).
    destruct (decide (j = Z.to_nat idx)) as [->|Hne].
    + rewrite list_lookup_alter_eq, Z2Nat.id by done.
      rewrite (decide_True (P := idx ∈ idx :: rest)) by left.
      destruct (Merkle9chain.Blockchain.chain bc !! Z.to_nat idx) as [b|];
        cbn [fmap option_fmap option_map];
        destruct (decide (idx ∈ rest)); rewrite ?m9_falsify_idem; done.
    + rewrite list_lookup_alter_ne by done.
      destruct (decide (Z.of_nat j ∈ rest)) as [Hin|Hout].
      * rewrite decide_True; [done | by right].
      * rewrite decide_False; [done|].
        intros [Heq|Hin]%elem_of_cons; [lia | done].
Qed.

End CorruptionFacts.

(** ** Construction of a network *)
Section ConvergenceFacts.

Lemma converges_ret {A} (a : A) (k : nat) (P : A -> Prop) :
  P a -> Spec.converges (fun _ => Py.ret a) k P.
Proof. intros HP. exists 0%nat, a, k. done. Qed.

Lemma converges_bind {A B} (m : nat -> Py.io A) (f : nat -> A -> Py.io B)
    (k : nat) (Q : A -> Prop) (P : B -> Prop) :
  Spec.converges m k Q ->
  (forall a k1, Q a -> Spec.converges (fun fuel => f fuel a) k1 P) ->
  Spec.converges (fun fuel => Py.bind (m fuel) (f fuel)) k P.
Proof.
  intros (fuel0 & a & k1 & HQ & Hm) Hf.
  destruct (Hf a k1 HQ) as (fuel1 & b & k2 & HP & Hfa).
  exists (max fuel0 fuel1), b, k2. split; [done|].
  intros fuel Hfuel. unfold Py.bind. cbn [Py.run].
  rewrite Hm by lia. apply Hfa. lia.
Qed.

(** A [for] loop converges when its body does and keeps an invariant
    that may mention what is left to iterate over. *)
Lemma converges_for {X S} (body : nat -> X -> S -> Py.io S)
    (Inv : list X -> S -> Prop) (xs : list X) (s : S) (k : nat) :
  (forall x xs' s k, Inv (x :: xs') s ->
     Spec.converges (fun fuel => body fuel x s) k (Inv xs')) ->
  Inv xs s ->
  Spec.converges (fun fuel => Py.for_ xs (body fuel) s) k (Inv []).
Proof.
  intros Hbody. revert s k. induction xs as [|x xs IH]; intros s k Hinv;
    cbn [Py.for_].
  - by apply converges_ret.
  - apply (converges_bind (fun fuel => body fuel x s)
             (fun fuel s' => Py.for_ xs (body fuel) s') k (Inv xs) (Inv [])).
    + by apply Hbody.
    + intros s' k1 Hs'. by apply IH.
Qed.

Lemma converges_weaken {A} (m : nat -> Py.io A) (k : nat) (P Q : A -> Prop) :
  (forall a, P a -> Q a) -> Spec.converges m k P -> Spec.converges m k Q.
Proof. intros HPQ (fuel0 & a & k' & HP & Hm). exists fuel0, a, k'. auto. Qed.

End ConvergenceFacts.

Section NetworkInitFacts.
Context `{Hasher, Clock}.

Lemma exam_mined_mono (fuel fuel' : nat) (index : Z) (now data previous_hash : string)
    (difficulty : Z) (b : Exam.Block.t) :
  (fuel <= fuel')%nat ->
  Spec.exam_mined fuel index now data previous_hash difficulty b ->
  Spec.exam_mined fuel' index now data previous_hash difficulty b.
Proof. intros Hle (n & Hn & Hrest). exists n. split; [lia | done]. Qed.

Lemma exam_block_init_converges (index : Z) (data previous_hash : string)
    (difficulty : Z) (k : nat) :
  Spec.exam_mining_terminates difficulty ->
  Spec.converges
    (fun fuel => Exam.Block.__init__ fuel index data previous_hash difficulty) k
    (fun _ => True).
Proof.
  intros Hterm. destruct (Hterm index (reading k) data previous_hash) as [n Hn].
  destruct (exam_block_init_terminates (S n) index data previous_hash difficulty k n)
    as [b Hb]; [done | lia |].
  exists (S n), b, (S k). split; [done|]. intros fuel Hfuel.
  apply exam_block_init_Ok in Hb as [_ Hb].
  apply exam_block_init_Ok. split; [done|]. by apply (exam_mined_mono (S n)).
Qed.

Lemma exam_chain_init_converges (difficulty : Z) (k : nat) :
  Spec.exam_mining_terminates difficulty ->
  Spec.converges (fun fuel => Exam.Blockchain.__init__ fuel difficulty) k
    (fun bc => Exam.Blockchain.chain bc <> [] /\
               Exam.Blockchain.difficulty bc = difficulty).
Proof.
  intros Hterm. unfold Exam.Blockchain.__init__, Exam.Blockchain.create_genesis_block.
  unfold mbind, io_bind.
  apply (converges_bind
           (fun fuel => Exam.Block.__init__ fuel 0 "Genesis Block" "0" difficulty)
           (fun _ genesis => Py.ret (Exam.Blockchain.mk difficulty [genesis] None))
           k (fun _ => True)).
  - by apply exam_block_init_converges.
  - intros genesis k1 _. by apply converges_ret.
Qed.

Lemma exam_add_block_converges (data : string) (bc : Exam.Blockchain.t) (k : nat) :
  Spec.exam_mining_terminates (Exam.Blockchain.difficulty bc) ->
  Exam.Blockchain.chain bc <> [] ->
  Spec.converges (fun fuel => Exam.Blockchain.add_block fuel data bc) k
    (fun bc' => Exam.Blockchain.chain bc' <> [] /\
                Exam.Blockchain.difficulty bc' = Exam.Blockchain.difficulty bc).
Proof.
  intros Hterm Hne. unfold Exam.Blockchain.add_block.
  destruct (last (Exam.Blockchain.chain bc)) as [latest|] eqn:Hlast.
  - unfold mbind, io_bind.
    apply (converges_bind
             (fun fuel => Exam.Block.__init__ fuel
                            (Z.of_nat (length (Exam.Blockchain.chain bc))) data
                            (Exam.Block.hash latest) (Exam.Blockchain.difficulty bc))
             (fun _ new_block =>
                Py.ret (Exam.Blockchain.mk (Exam.Blockchain.difficulty bc)
                          (Exam.Blockchain.chain bc ++ [new_block])
                          (Exam.Blockchain.merkle_root bc)))
             k (fun _ => True)).
    + by apply exam_block_init_converges.
    + intros new_block k1 _. apply converges_ret.
      cbn [Exam.Blockchain.chain Exam.Blockchain.difficulty]. split; [|done].
      by destruct (Exam.Blockchain.chain bc).
  - by apply last_None in Hlast.
Qed.

Lemma exam_build_node_converges (difficulty : Z) (k : nat) :
  Spec.exam_mining_terminates difficulty ->
  Spec.converges (fun fuel => Exam.Network.build_node fuel difficulty) k (fun _ => True).
Proof.
  intros Hterm. unfold Exam.Network.build_node, mbind, io_bind.
  apply (converges_bind
           (fun fuel => Exam.Blockchain.__init__ fuel difficulty)
           (fun fuel bc =>
              Py.bind
                (Py.for_ (Py.range 1 9)
                   (fun j bc => Exam.Blockchain.add_block fuel ("Donnée #" +:+ Py.str j) bc)
                   bc)
                (fun bc => Py.ret (snd (Exam.Blockchain.compute_merkle_root bc))))
           k
           (fun bc => Exam.Blockchain.chain bc <> [] /\
                      Exam.Blockchain.difficulty bc = difficulty)).
  - by apply exam_chain_init_converges.
  - intros bc k1 [Hne Hdiff].
    apply (converges_bind
             (fun fuel =>
                Py.for_ (Py.range 1 9)
                  (fun j bc => Exam.Blockchain.add_block fuel ("Donnée #" +:+ Py.str j) bc)
                  bc)
             (fun _ bc => Py.ret (snd (Exam.Blockchain.compute_merkle_root bc)))
             k1 (fun _ => True)).
    + apply (converges_weaken _ _
               (fun bc => Exam.Blockchain.chain bc <> [] /\
                          Exam.Blockchain.difficulty bc = difficulty)); [done|].
      apply (converges_for
               (fun fuel j bc => Exam.Blockchain.add_block fuel ("Donnée #" +:+ Py.str j) bc)
               (fun _ bc => Exam.Blockchain.chain bc <> [] /\
                            Exam.Blockchain.difficulty bc = difficulty)); [|done].
      intros j _ bc' k2 [Hne' Hdiff'].
      apply (converges_weaken _ _
               (fun bc'' => Exam.Blockchain.chain bc'' <> [] /\
                  Exam.Blockchain.difficulty bc'' = Exam.Blockchain.difficulty bc')).
      * intros bc'' [? ?]. split; [done | congruence].
      * apply exam_add_block_converges; [by rewrite Hdiff' | done].
    + intros bc' k2 _. by apply converges_ret.
Qed.

Lemma range_length (a b : Z) : length (Py.range a b) = Z.to_nat (b - a).
Proof. unfold Py.range. by rewrite length_map, length_seq. Qed.

(** An even count: the assertion fails before anything is built,
    whatever the budget. *)
Lemma exam_network_init_even (fuel : nat) (node_count difficulty : Z) (k : nat) :
  node_count mod 2 = 0 ->
  Py.run (Exam.Network.__init__ fuel node_count difficulty) k
  = Py.Raise Py.AssertionError.
Proof.
  intros Heven. unfold Exam.Network.__init__. rewrite Heven. done.
Qed.

(** An odd count: every replica is built. *)
Lemma exam_network_init_odd (node_count difficulty : Z) (k : nat) :
  node_count mod 2 = 1 ->
  Spec.exam_mining_terminates difficulty ->
  Spec.converges (fun fuel => Exam.Network.__init__ fuel node_count difficulty) k
    (fun net => length (Exam.Network.nodes net) = Z.to_nat node_count /\
                Exam.Network.difficulty net = difficulty).
Proof.
  intros Hodd Hterm. unfold Exam.Network.__init__. rewrite Hodd.
  cbn [Z.eqb Pos.eqb negb]. unfold mbind, io_bind.
  apply (converges_bind
           (fun fuel =>
              Py.for_ (Py.range 0 node_count)
                (fun _ nodes =>
                   Py.bind (Exam.Network.build_node fuel difficulty)
                           (fun bc => Py.ret (nodes ++ [bc]))) [])
           (fun _ nodes => Py.ret (Exam.Network.mk nodes difficulty))
           k (fun nodes => length nodes = Z.to_nat node_count)).
  - apply (converges_weaken _ _
             (fun nodes => (length nodes + length (@nil Z))%nat = Z.to_nat node_count)).
    { intros nodes Hn. simpl in Hn. lia. }
    apply (converges_for
             (fun fuel (_ : Z) nodes =>
                Py.bind (Exam.Network.build_node fuel difficulty)
                        (fun bc => Py.ret (nodes ++ [bc])))
             (fun xs nodes => (length nodes + length xs)%nat = Z.to_nat node_count)).
    + intros x xs' nodes k1 Hinv.
      apply (converges_bind
               (fun fuel => Exam.Network.build_node fuel difficulty)
               (fun _ bc => Py.ret (nodes ++ [bc])) k1 (fun _ => True)).
      * by apply exam_build_node_converges.
      * intros bc k2 _. apply converges_ret.
        rewrite length_app. cbn [length] in *. lia.
    + rewrite range_length. cbn [length]. lia.
  - intros nodes k1 Hlen. by apply converges_ret.
Qed.

(** With no budget at all an odd positive count is still running: the
    replicas are built only after the assertion has passed. *)
Lemma exam_network_init_no_budget (node_count difficulty : Z) (k : nat) :
  node_count mod 2 = 1 -> 0 < node_count ->
  Py.run (Exam.Network.__init__ 0 node_count difficulty) k = Py.Running.
Proof.
  intros Hodd Hpos. unfold Exam.Network.__init__. rewrite Hodd.
  cbn [Z.eqb Pos.eqb negb]. unfold Py.range.
  destruct (Z.to_nat (node_count - 0)) as [|n] eqn:Hn; [lia|].
  reflexivity.
Qed.

End NetworkInitFacts.

(** ** The budget of the mining loops *)

(** A SHA-256 digest is rendered as 64 hexadecimal characters. *)
Section DigestFacts.

Lemma string_length_app (s t : string) :
  String.length (s +:+ t) = (String.length s + String.length t)%nat.
Proof.
  induction s as [|c s IH]; [done|].
  simpl. by rewrite IH.
Qed.

Lemma hex_length (n : nat) (x : Z) : String.length (SHA256.hex n x) = n.
Proof. induction n as [|n IH]; [done|]. cbn [SHA256.hex String.length]. by rewrite IH. Qed.

Lemma concat_hex_length (ws : list Z) :
  String.length (String.concat "" (map (SHA256.hex 8) ws)) = (8 * length ws)%nat.
Proof.
  induction ws as [|w ws IH]; [done|].
  destruct ws as [|w' ws].
  - cbn [map String.concat]. by rewrite hex_length.
  - change (String.length
              (SHA256.hex 8 w +:+ "" +:+ String.concat "" (map (SHA256.hex 8) (w' :: ws)))
            = (8 * length (w :: w' :: ws))%nat).
    rewrite !string_length_app, hex_length, IH. cbn [String.length length]. lia.
Qed.

Lemma round_length (st : list Z * list Z) (k : Z) :
  length (fst (SHA256.round st k)) = 8%nat.
Proof. by destruct st. Qed.

Lemma rounds_length (ks : list Z) (st : list Z * list Z) :
  ks <> [] -> length (fst (fold_left SHA256.round ks st)) = 8%nat.
Proof.
  destruct ks as [|k ks _] using rev_ind; [done|]. intros _.
  rewrite fold_left_app. apply round_length.
Qed.

Lemma compress_length (h block : list Z) :
  length h = 8%nat -> length (SHA256.compress h block) = 8%nat.
Proof.
  intros Hh. unfold SHA256.compress.
  assert (HK : SHA256.K <> []) by (unfold SHA256.K; discriminate).
  pose proof (rounds_length SHA256.K (h, block) HK) as Hv.
  destruct (fold_left SHA256.round SHA256.K (h, block)) as [v w]. cbn [fst] in Hv.
  rewrite length_map, length_combine. lia.
Qed.

Lemma fold_left_length {A} (f : list Z -> A -> list Z) (n : nat) (xs : list A)
    (h : list Z) :
  (forall h x, length h = n -> length (f h x) = n) ->
  length h = n -> length (fold_left f xs h) = n.
Proof.
  intros Hf. revert h. induction xs as [|x xs IH]; intros h Hh; [done|].
  cbn [fold_left]. apply IH. by apply Hf.
Qed.

Lemma digest_length (msg : list Z) : length (SHA256.digest msg) = 8%nat.
Proof.
  unfold SHA256.digest. cbv zeta.
  apply (fold_left_length SHA256.compress 8); [apply compress_length | reflexivity].
Qed.

Lemma hexdigest_length (s : string) : String.length (SHA256.hexdigest s) = 64%nat.
Proof. unfold SHA256.hexdigest. by rewrite concat_hex_length, digest_length. Qed.

End DigestFacts.

(** A prefix is no longer than the string it starts. *)
Section PrefixFacts.

Lemma startswith_length (s prefix : string) :
  Py.startswith s prefix = true -> (String.length prefix <= String.length s)%nat.
Proof.
  unfold Py.startswith. revert prefix.
  induction s as [|c s IH]; intros [|a prefix]; cbn; try done; try lia.
  destruct (ascii_dec a c); [|done]. intros Hp%IH. lia.
Qed.

Lemma mul_zero_length (n : Z) : String.length (Py.mul "0" n) = Z.to_nat n.
Proof.
  unfold Py.mul. induction (Z.to_nat n) as [|m IH]; [done|].
  destruct m as [|m]; [done|].
  change (String.length ("0" +:+ "" +:+ String.concat "" (repeat "0" (S m))) = S (S m)).
  rewrite !string_length_app, IH. done.
Qed.

End PrefixFacts.

(** What a larger budget changes: nothing once a computation has
    returned, and never whether it raises. *)
Section BudgetFacts.

Lemma bind_Running {A B} (m : Py.io A) (f : A -> Py.io B) (k : nat) :
  Py.run m k = Py.Running -> Py.run (Py.bind m f) k = Py.Running.
Proof. intros Hm. unfold Py.bind. cbn [Py.run]. by rewrite Hm. Qed.

Lemma bind_budget {A B} (m : nat -> Py.io A) (f : nat -> A -> Py.io B) :
  (forall fuel fuel' k r, (fuel <= fuel')%nat ->
     Py.run (m fuel) k = Py.Ok r -> Py.run (m fuel') k = Py.Ok r) ->
  (forall a fuel fuel' k r, (fuel <= fuel')%nat ->
     Py.run (f fuel a) k = Py.Ok r -> Py.run (f fuel' a) k = Py.Ok r) ->
  forall fuel fuel' k r, (fuel <= fuel')%nat ->
    Py.run (Py.bind (m fuel) (f fuel)) k = Py.Ok r ->
    Py.run (Py.bind (m fuel') (f fuel')) k = Py.Ok r.
Proof.
  intros Hm Hf fuel fuel' k r Hle. unfold Py.bind. cbn [Py.run].
  destruct (Py.run (m fuel) k) as [[a k1]| |] eqn:Hrun; [|done..].
  rewrite (Hm fuel fuel' k (a, k1) Hle Hrun). by apply Hf.
Qed.

Lemma for_budget {X St} (xs : list X) (body : nat -> X -> St -> Py.io St) :
  (forall x s fuel fuel' k r, (fuel <= fuel')%nat ->
     Py.run (body fuel x s) k = Py.Ok r -> Py.run (body fuel' x s) k = Py.Ok r) ->
  forall s fuel fuel' k r, (fuel <= fuel')%nat ->
    Py.run (Py.for_ xs (body fuel) s) k = Py.Ok r ->
    Py.run (Py.for_ xs (body fuel') s) k = Py.Ok r.
Proof.
  intros Hbody. induction xs as [|x xs IH]; intros s fuel fuel' k r Hle;
    cbn [Py.for_]; [done|].
  apply (bind_budget (fun fuel => body fuel x s)
           (fun fuel s' => Py.for_ xs (body fuel) s')); [|intros s'|done].
  - intros f1 f2 k1 r1. apply Hbody.
  - intros f1 f2 k1 r1. apply IH.
Qed.

Lemma bind_no_raise {A B} (m : Py.io A) (f : A -> Py.io B) (k : nat) (e : Py.exn) :
  Py.run m k <> Py.Raise e ->
  (forall a k1, Py.run m k = Py.Ok (a, k1) -> Py.run (f a) k1 <> Py.Raise e) ->
  Py.run (Py.bind m f) k <> Py.Raise e.
Proof.
  unfold Py.bind. cbn [Py.run].
  destruct (Py.run m k) as [[a k1]| |]; intros Hm Hf; [by apply Hf | | done].
  intros [= ->]. by apply Hm.
Qed.

(** A loop does not raise when its body does not, under an invariant of
    the state that the body keeps. *)
Lemma for_no_raise {X St} (xs : list X) (body : X -> St -> Py.io St)
    (Inv : St -> Prop) (e : Py.exn) :
  (forall x s k, Inv s -> Py.run (body x s) k <> Py.Raise e) ->
  (forall x s k s' k', Inv s -> Py.run (body x s) k = Py.Ok (s', k') -> Inv s') ->
  forall s k, Inv s -> Py.run (Py.for_ xs body s) k <> Py.Raise e.
Proof.
  intros Hsafe Hkeep. induction xs as [|x xs IH]; intros s k Hinv; cbn [Py.for_].
  - done.
  - apply bind_no_raise; [by apply Hsafe|].
    intros s' k' Hrun. apply IH. by eapply Hkeep.
Qed.

(** A loop that appends one element per round. *)
Lemma for_append_length {X B} (xs : list X) (m : Py.io B) (acc acc' : list B)
    (k k' : nat) :
  Py.run (Py.for_ xs (fun _ nodes => Py.bind m (fun bc => Py.ret (nodes ++ [bc]))) acc) k
    = Py.Ok (acc', k') ->
  length acc' = (length acc + length xs)%nat.
Proof.
  revert acc k. induction xs as [|x xs IH]; intros acc k; cbn [Py.for_].
  - unfold Py.ret. cbn [Py.run]. intros [= <- <-]. cbn [length]. lia.
  - unfold Py.bind at 1. cbn [Py.run]. unfold Py.bind at 1. cbn [Py.run].
    destruct (Py.run m k) as [[bc k1]| |]; [|done..].
    unfold Py.ret at 1. cbn [Py.run]. intros Hrest%IH.
    rewrite length_app in Hrest. cbn [length] in *. lia.
Qed.

End BudgetFacts.

Section NetworkBudgetFacts.
Context `{Hasher, Clock}.

(** A prefix longer than every digest is never met. *)
Lemma exam_mine_loop_Running (fuel : nat) (prefix : string) (b : Exam.Block.attrs) :
  (forall s, (String.length (sha256 s) < String.length prefix)%nat) ->
  Exam.Block.mine_loop fuel prefix b = Py.Running.
Proof.
  intros Hshort. revert b. induction fuel as [|fuel IH]; intros b;
    cbn [Exam.Block.mine_loop]; [done|].
  destruct (Py.startswith (Exam.Block.calculate_hash b) prefix) eqn:Hp; [|apply IH].
  apply startswith_length in Hp. unfold Exam.Block.calculate_hash in Hp.
  pose proof (Hshort (Py.str (Exam.Block.index b) +:+ Exam.Block.timestamp b
                      +:+ Exam.Block.data b +:+ Exam.Block.previous_hash b
                      +:+ Py.str (Exam.Block.nonce b))) as Hs.
  lia.
Qed.

Lemma exam_block_init_Running (fuel : nat) (index : Z) (data previous_hash : string)
    (difficulty : Z) (k : nat) :
  (forall s, String.length (sha256 s) = 64%nat) -> 64 < difficulty ->
  Py.run (Exam.Block.__init__ fuel index data previous_hash difficulty) k = Py.Running.
Proof.
  intros Hlen Hd. unfold Exam.Block.__init__, Exam.Block.mine_block. run_io.
  cbn [Exam.Block.difficulty]. rewrite exam_mine_loop_Running; [done|].
  intros s. rewrite mul_zero_length, Hlen. lia.
Qed.

Lemma exam_build_node_Running (fuel : nat) (difficulty : Z) (k : nat) :
  (forall s, String.length (sha256 s) = 64%nat) -> 64 < difficulty ->
  Py.run (Exam.Network.build_node fuel difficulty) k = Py.Running.
Proof.
  intros Hlen Hd. unfold Exam.Network.build_node, mbind, io_bind.
  apply bind_Running.
  unfold Exam.Blockchain.__init__, Exam.Blockchain.create_genesis_block, mbind, io_bind.
  apply bind_Running. by apply exam_block_init_Running.
Qed.

(** At a difficulty above the length of a digest a positive odd count
    never gets its first block, whatever the budget. *)
Lemma exam_network_init_Running (fuel : nat) (node_count difficulty : Z) (k : nat) :
  node_count mod 2 = 1 -> 0 < node_count ->
  (forall s, String.length (sha256 s) = 64%nat) -> 64 < difficulty ->
  Py.run (Exam.Network.__init__ fuel node_count difficulty) k = Py.Running.
Proof.
  intros Hodd Hpos Hlen Hd. unfold Exam.Network.__init__. rewrite Hodd.
  cbn [Z.eqb Pos.eqb negb]. unfold Py.range, mbind, io_bind.
  destruct (Z.to_nat (node_count - 0)) as [|n] eqn:Hn; [lia|].
  cbn [seq map Py.for_]. do 3 apply bind_Running.
  by apply exam_build_node_Running.
Qed.

(** Once construction has returned, more budget returns the same. *)
Lemma exam_block_init_budget (index : Z) (data previous_hash : string)
    (difficulty : Z) (fuel fuel' : nat) (k : nat) (r : Exam.Block.t * nat) :
  (fuel <= fuel')%nat ->
  Py.run (Exam.Block.__init__ fuel index data previous_hash difficulty) k = Py.Ok r ->
  Py.run (Exam.Block.__init__ fuel' index data previous_hash difficulty) k = Py.Ok r.
Proof.
  destruct r as [b k']. intros Hle [-> Hm]%exam_block_init_Ok.
  apply exam_block_init_Ok. split; [done|]. by eapply exam_mined_mono.
Qed.

Lemma exam_chain_init_budget (difficulty : Z) (fuel fuel' : nat) (k : nat)
    (r : Exam.Blockchain.t * nat) :
  (fuel <= fuel')%nat ->
  Py.run (Exam.Blockchain.__init__ fuel difficulty) k = Py.Ok r ->
  Py.run (Exam.Blockchain.__init__ fuel' difficulty) k = Py.Ok r.
Proof.
  destruct r as [bc k']. intros Hle (-> & genesis & -> & Hm)%exam_chain_init_Ok.
  apply exam_chain_init_Ok. split; [done|]. exists genesis.
  split; [done|]. by eapply exam_mined_mono.
Qed.

Lemma exam_add_block_budget (data : string) (self : Exam.Blockchain.t)
    (fuel fuel' : nat) (k : nat) (r : Exam.Blockchain.t * nat) :
  (fuel <= fuel')%nat ->
  Py.run (Exam.Blockchain.add_block fuel data self) k = Py.Ok r ->
  Py.run (Exam.Blockchain.add_block fuel' data self) k = Py.Ok r.
Proof.
  intros Hle. unfold Exam.Blockchain.add_block.
  destruct (last (Exam.Blockchain.chain self)) as [latest|]; [|done].
  unfold mbind, io_bind.
  apply (bind_budget
           (fun fuel => Exam.Block.__init__ fuel
                          (Z.of_nat (length (Exam.Blockchain.chain self))) data
                          (Exam.Block.hash latest) (Exam.Blockchain.difficulty self))
           (fun _ new_block =>
              Py.ret (Exam.Blockchain.mk (Exam.Blockchain.difficulty self)
                        (Exam.Blockchain.chain self ++ [new_block])
                        (Exam.Blockchain.merkle_root self)))); [| |done].
  - intros f1 f2 k1 r1. apply exam_block_init_budget.
  - done.
Qed.

Lemma exam_build_node_budget (difficulty : Z) (fuel fuel' : nat) (k : nat)
    (r : Exam.Blockchain.t * nat) :
  (fuel <= fuel')%nat ->
  Py.run (Exam.Network.build_node fuel difficulty) k = Py.Ok r ->
  Py.run (Exam.Network.build_node fuel' difficulty) k = Py.Ok r.
Proof.
  intros Hle. unfold Exam.Network.build_node, mbind, io_bind.
  apply (bind_budget
           (fun fuel => Exam.Blockchain.__init__ fuel difficulty)
           (fun fuel bc =>
              Py.bind
                (Py.for_ (Py.range 1 9)
                   (fun j bc => Exam.Blockchain.add_block fuel ("Donnée #" +:+ Py.str j) bc)
                   bc)
                (fun bc => Py.ret (snd (Exam.Blockchain.compute_merkle_root bc)))));
    [| |done].
  - intros f1 f2 k1 r1. apply exam_chain_init_budget.
  - intros bc.
    apply (bind_budget
             (fun fuel =>
                Py.for_ (Py.range 1 9)
                  (fun j bc => Exam.Blockchain.add_block fuel ("Donnée #" +:+ Py.str j) bc)
                  bc)
             (fun _ bc => Py.ret (snd (Exam.Blockchain.compute_merkle_root bc)))); [|done].
    apply (for_budget (Py.range 1 9)
             (fun fuel j bc => Exam.Blockchain.add_block fuel ("Donnée #" +:+ Py.str j) bc)).
    intros j s f1 f2 k1 r1. apply exam_add_block_budget.
Qed.

Lemma exam_network_init_budget (node_count difficulty : Z) (fuel fuel' : nat) (k : nat)
    (r : Exam.Network.t * nat) :
  (fuel <= fuel')%nat ->
  Py.run (Exam.Network.__init__ fuel node_count difficulty) k = Py.Ok r ->
  Py.run (Exam.Network.__init__ fuel' node_count difficulty) k = Py.Ok r.
Proof.
  intros Hle. unfold Exam.Network.__init__.
  destruct (negb (node_count mod 2 =? 1)); [done|].
  unfold mbind, io_bind.
  apply (bind_budget
           (fun fuel =>
              Py.for_ (Py.range 0 node_count)
                (fun _ nodes =>
                   Py.bind (Exam.Network.build_node fuel difficulty)
                           (fun bc => Py.ret (nodes ++ [bc]))) [])
           (fun _ nodes => Py.ret (Exam.Network.mk nodes difficulty))); [| |done].
  - apply (for_budget (Py.range 0 node_count)
             (fun fuel (_ : Z) nodes =>
                Py.bind (Exam.Network.build_node fuel difficulty)
                        (fun bc => Py.ret (nodes ++ [bc])))).
    intros x nodes.
    apply (bind_budget (fun fuel => Exam.Network.build_node fuel difficulty)
             (fun _ bc => Py.ret (nodes ++ [bc]))); [|done].
    intros f1 f2 k1 r1. apply exam_build_node_budget.
  - done.
Qed.

Lemma exam_network_init_length (fuel : nat) (node_count difficulty : Z) (k : nat)
    (net : Exam.Network.t) (k' : nat) :
  Py.run (Exam.Network.__init__ fuel node_count difficulty) k = Py.Ok (net, k') ->
  length (Exam.Network.nodes net) = Z.to_nat node_count /\
  Exam.Network.difficulty net = difficulty.
Proof.
  unfold Exam.Network.__init__.
  destruct (negb (node_count mod 2 =? 1)); [done|].
  unfold mbind, io_bind. unfold Py.bind at 1. cbn [Py.run].
  destruct (Py.run (Py.for_ _ _ _) k) as [[nodes k1]| |] eqn:Hloop; [|done..].
  unfold Py.ret. cbn [Py.run]. intros [= <- <-].
  apply for_append_length in Hloop. rewrite range_length in Hloop.
  cbn [Exam.Network.nodes Exam.Network.difficulty length] in *. split; [lia | done].
Qed.

(** Past the assertion nothing raises: a block is mined or mining goes
    on, and [add_block] finds a last block on every chain it is given. *)
Lemma exam_block_init_no_raise (fuel : nat) (index : Z) (data previous_hash : string)
    (difficulty : Z) (k : nat) (e : Py.exn) :
  Py.run (Exam.Block.__init__ fuel index data previous_hash difficulty) k <> Py.Raise e.
Proof.
  unfold Exam.Block.__init__, Exam.Block.mine_block. run_io.
  destruct (Exam.Block.mine_loop _ _ _) as [[h b]| |] eqn:Hmine; [done| |done].
  by apply exam_mine_loop_no_raise in Hmine.
Qed.

Lemma exam_chain_init_no_raise (fuel : nat) (difficulty : Z) (k : nat) (e : Py.exn) :
  Py.run (Exam.Blockchain.__init__ fuel difficulty) k <> Py.Raise e.
Proof.
  unfold Exam.Blockchain.__init__, Exam.Blockchain.create_genesis_block, mbind, io_bind.
  apply bind_no_raise; [apply exam_block_init_no_raise | done].
Qed.

Lemma exam_add_block_no_raise (fuel : nat) (data : string) (self : Exam.Blockchain.t)
    (k : nat) (e : Py.exn) :
  Exam.Blockchain.chain self <> [] ->
  Py.run (Exam.Blockchain.add_block fuel data self) k <> Py.Raise e.
Proof.
  intros Hne. unfold Exam.Blockchain.add_block.
  destruct (last (Exam.Blockchain.chain self)) as [latest|] eqn:Hlast.
  - unfold mbind, io_bind. apply bind_no_raise; [apply exam_block_init_no_raise | done].
  - by apply last_None in Hlast.
Qed.

Lemma exam_add_block_nonempty (fuel : nat) (data : string) (self : Exam.Blockchain.t)
    (k : nat) (bc' : Exam.Blockchain.t) (k' : nat) :
  Py.run (Exam.Blockchain.add_block fuel data self) k = Py.Ok (bc', k') ->
  Exam.Blockchain.chain bc' <> [].
Proof.
  unfold Exam.Blockchain.add_block.
  destruct (last (Exam.Blockchain.chain self)) as [latest|]; [|done].
  run_io. destruct (Py.run (Exam.Block.__init__ _ _ _ _ _) k) as [[b k1]| |]; [|done..].
  intros [= <- <-]. cbn [Exam.Blockchain.chain].
  by destruct (Exam.Blockchain.chain self).
Qed.

Lemma exam_build_node_no_raise (fuel : nat) (difficulty : Z) (k : nat) (e : Py.exn) :
  Py.run (Exam.Network.build_node fuel difficulty) k <> Py.Raise e.
Proof.
  unfold Exam.Network.build_node, mbind, io_bind.
  apply bind_no_raise; [apply exam_chain_init_no_raise|].
  intros bc k1 (-> & genesis & -> & _)%exam_chain_init_Ok.
  apply bind_no_raise; [|done].
  apply (for_no_raise _ _ (fun bc => Exam.Blockchain.chain bc <> [])); [| |done].
  - intros j bc k2 Hne. by apply exam_add_block_no_raise.
  - intros j bc k2 bc' k3 _ Hadd. by eapply exam_add_block_nonempty.
Qed.

Lemma exam_network_init_no_raise (fuel : nat) (node_count difficulty : Z) (k : nat)
    (e : Py.exn) :
  node_count mod 2 = 1 ->
  Py.run (Exam.Network.__init__ fuel node_count difficulty) k <> Py.Raise e.
Proof.
  intros Hodd. unfold Exam.Network.__init__. rewrite Hodd.
  cbn [Z.eqb Pos.eqb negb]. unfold mbind, io_bind.
  apply bind_no_raise; [|done].
  apply (for_no_raise _ _ (fun _ => True)); [| |done].
  - intros _ nodes k1 _. apply bind_no_raise; [apply exam_build_node_no_raise | done].
  - done.
Qed.

End NetworkBudgetFacts.

(** ** Claims on the Merkle root and on block construction *)

(** C5. In both files the root of two digests is the digest of their
    concatenation in order, and a level of three digests has the root of
    the level with its last digest repeated. *)
Theorem merkle_root_pair_and_odd_padding `{Hasher} (a b c : string) :
  Exam.MerkleTree.calculate_merkle_root [a; b] = Some (sha256 (a +:+ b)) /\
  Exam.MerkleTree.calculate_merkle_root [a; b; c]
    = Exam.MerkleTree.calculate_merkle_root [a; b; c; c] /\
  fst (Merkle9chain.MerkleTree.calculate_merkle_root [a; b]) = Some (sha256 (a +:+ b)) /\
  fst (Merkle9chain.MerkleTree.calculate_merkle_root [a; b; c])
    = fst (Merkle9chain.MerkleTree.calculate_merkle_root [a; b; c; c]).
Proof.
  rewrite !m9_merkle_root_value.
  assert (Hpair : Exam.MerkleTree.calculate_merkle_root [a; b] = Some (sha256 (a +:+ b)))
    by reflexivity.
  assert (Hodd : Exam.MerkleTree.calculate_merkle_root [a; b; c]
                 = Exam.MerkleTree.calculate_merkle_root [a; b; c; c])
    by reflexivity.
  auto.
Qed.

(** C8, at the failing input.  [merkle9chain.py]'s aggregator called on a
    list of three strings returns the root and leaves the caller's list
    with a fourth element. *)
Theorem m9_merkle_root_appends_to_argument :
  @Merkle9chain.MerkleTree.calculate_merkle_root Concrete.hasher ["a"; "b"; "c"]
  = (Some "5c700ad7ee9dc104f1a6e92da5a3a76f73d62b0d1c86a205eace21ed914dcdbf",
     ["a"; "b"; "c"; "c"]).
Proof. vm_compute. reflexivity. Qed.

(** C6. In both files, construction of a block returns [b] exactly when
    [b] carries the arguments and the instant read, a nonce that is the
    number of digests tried and missed, counting up from 0, and as [hash]
    the digest of those five attributes, which starts with [difficulty]
    zeros. *)
Theorem block_construction_invariant `{Hasher, Clock} (fuel : nat) (index : Z)
    (data previous_hash : string) (difficulty : Z) (k : nat) :
  (forall b k',
     Py.run (Exam.Block.__init__ fuel index data previous_hash difficulty) k
       = Py.Ok (b, k') <->
     k' = S k /\ Spec.exam_mined fuel index (reading k) data previous_hash difficulty b) /\
  (forall b k',
     Py.run (Merkle9chain.Block.__init__ fuel index data previous_hash difficulty) k
       = Py.Ok (b, k') <->
     k' = S k /\ Spec.m9_mined fuel index (reading k) data previous_hash difficulty b).
Proof.
  split; intros b k'; [apply exam_block_init_Ok | apply m9_block_init_Ok].
Qed.

(** The genesis block at difficulty 1, first reading of the clock: three
    digests miss, the fourth starts with a zero. *)
Lemma block_construction_witness :
  Spec.exam_mined (H := Concrete.hasher) 64 0 "1700000000.0" "Genesis Block" "0" 1
    Concrete.exam_genesis /\
  Spec.m9_mined (H := Concrete.hasher) 64 0 "1700000000.0" "Genesis Block" "0" 1
    Concrete.m9_genesis.
Proof.
  pose proof (@block_construction_invariant Concrete.hasher Concrete.clock
                64 0 "Genesis Block" "0" 1 0%nat) as [He Hm].
  split.
  - apply (He Concrete.exam_genesis 1%nat). vm_compute. reflexivity.
  - apply (Hm Concrete.m9_genesis 1%nat). vm_compute. reflexivity.
Defined.

(** ** Claims on validation *)

(** The concrete chains are what the code builds. *)
Lemma concrete_exam_chain3 :
  Py.run Concrete.exam_build3 0%nat = Py.Ok (Concrete.exam_chain3, 3%nat).
Proof. vm_compute. reflexivity. Qed.

(** It validates: appending and refreshing the cache keeps it valid. *)
Lemma concrete_exam_chain3_valid :
  @Exam.Blockchain.is_chain_valid Concrete.hasher Concrete.exam_chain3 = (true, []).
Proof. vm_compute. reflexivity. Qed.

Lemma concrete_exam_chain3_tampered :
  @Exam.Network.corrupt_nodes Concrete.hasher Concrete.exam_net1 [0] [1]
  = (Exam.Network.mk [Concrete.exam_chain3_tampered] 1, Py.Ok tt).
Proof. vm_compute. reflexivity. Qed.

(** C1, at the failing input.  [merkle9chain.py]: a chain of the genesis
    block alone, its root cached, then the genesis block falsified: the
    root recomputed differs from the cached one, the function prints so,
    and returns [True]. *)
Theorem m9_is_chain_valid_true_on_merkle_mismatch :
  Py.run (@Merkle9chain.Blockchain.__init__ Concrete.hasher Concrete.clock 64 1) 0%nat
    = Py.Ok (Concrete.m9_fresh, 1%nat) /\
  @Merkle9chain.Blockchain.falsify_block Concrete.hasher
    (snd (@Merkle9chain.Blockchain.compute_merkle_root Concrete.hasher Concrete.m9_fresh))
    [0]
    = (Concrete.m9_tampered, Py.Ok tt) /\
  ~ @Spec.m9_merkle_consistent Concrete.hasher Concrete.m9_tampered /\
  @Merkle9chain.Blockchain.is_chain_valid Concrete.hasher Concrete.m9_tampered
    = (true, [" Merkle Root invalide"; " Blockchain et Merkle Root valides."]).
Proof.
  split; [|split; [|split]].
  - vm_compute. reflexivity.
  - vm_compute. reflexivity.
  - unfold Spec.m9_merkle_consistent. rewrite m9_merkle_root_value. vm_compute.
    discriminate.
  - vm_compute. reflexivity.
Qed.

(** C2, as stated, fails on [exam.py]: with block 1 falsified, the prefix
    check fails at position 1 and the link check at position 2, and only
    the first is reported. *)
Lemma exam_validation_stops_at_first_finding :
  @Spec.exam_finding Concrete.hasher Concrete.exam_chain3_tampered 1 DifficultyUnmet /\
  @Spec.exam_finding Concrete.hasher Concrete.exam_chain3_tampered 2 LinkMismatch /\
  @Exam.Blockchain.is_chain_valid Concrete.hasher Concrete.exam_chain3_tampered
    = (false, ["Bloc #1 difficulté PoW non respectée !"]) /\
  ~ (forall i p,
       @Spec.exam_finding Concrete.hasher Concrete.exam_chain3_tampered i p ->
       @Spec.exam_reported Concrete.hasher Concrete.exam_chain3_tampered i p).
Proof.
  assert (Hout : @Exam.Blockchain.is_chain_valid Concrete.hasher
                   Concrete.exam_chain3_tampered
                 = (false, ["Bloc #1 difficulté PoW non respectée !"]))
    by (vm_compute; reflexivity).
  assert (Hlink : @Spec.exam_finding Concrete.hasher Concrete.exam_chain3_tampered
                    2 LinkMismatch).
  { split; [lia|]. exists Concrete.exam_block2, Concrete.exam_block1_falsified.
    split; [reflexivity|]. split; [reflexivity|]. discriminate. }
  split; [|split; [exact Hlink|split; [exact Hout|]]].
  - split; [lia|]. exists Concrete.exam_block1_falsified, Concrete.exam_genesis.
    split; [reflexivity|]. split; [reflexivity|]. vm_compute. reflexivity.
  - intros Hall. destruct (Hall _ _ Hlink) as (current & Hc & Hin).
    injection Hc as <-. rewrite Hout in Hin. cbn [snd] in Hin.
    apply list_elem_of_singleton in Hin. vm_compute in Hin. discriminate.
Qed.

(** C2, amended.  [merkle9chain.py] visits every position from 1 on and
    records every check that fails there: its list holds exactly the
    findings of the chain, each once.  Every finding is an entry of the
    list, every entry of the list is a finding (a position with the
    reason of a check that fails there), and no entry is repeated.
    [exam.py] returns at the first check that fails: with no finding it
    prints no line about a block, otherwise it prints the line of the
    first finding, in the order of positions and of the checks, and
    nothing else. *)
Theorem validation_findings_reported `{Hasher} :
  (forall (self : Merkle9chain.Blockchain.t) (i : nat) (p : problem),
     (Z.of_nat i, Merkle9chain.Blockchain.reason p)
       ∈ Merkle9chain.Blockchain.invalid_blocks self <->
     Spec.m9_finding self i p) /\
  (forall (self : Merkle9chain.Blockchain.t) (entry : Z * string),
     entry ∈ Merkle9chain.Blockchain.invalid_blocks self ->
     exists i p,
       entry = (Z.of_nat i, Merkle9chain.Blockchain.reason p) /\
       Spec.m9_finding self i p) /\
  (forall self : Merkle9chain.Blockchain.t,
     NoDup (Merkle9chain.Blockchain.invalid_blocks self)) /\
  (forall self : Exam.Blockchain.t,
     ((forall i p, ~ Spec.exam_finding self i p) /\
      (Exam.Blockchain.is_chain_valid self = (true, []) \/
       Exam.Blockchain.is_chain_valid self = (false, ["Racine Merkle invalide !"]))) \/
     (exists i p current,
        Spec.exam_finding self i p /\
        Exam.Blockchain.chain self !! i = Some current /\
        Exam.Blockchain.is_chain_valid self
          = (false, [Exam.Blockchain.line current p]) /\
        forall i' p', Spec.exam_finding self i' p' ->
          (i < i')%nat \/ (i = i' /\ (Spec.rank p <= Spec.rank p')%nat))).
Proof.
  split; [apply m9_invalid_blocks_elem|]. split; [apply m9_invalid_blocks_entry|].
  split; [apply m9_invalid_blocks_NoDup|].
  intros self. unfold Exam.Blockchain.is_chain_valid, Spec.exam_finding.
  set (prefix := Py.mul "0" (Exam.Blockchain.difficulty self)).
  set (chain := Exam.Blockchain.chain self).
  assert (Hpos : forall i p, (1 <= i)%nat -> Spec.exam_fails_at chain prefix i p ->
            (1 <= i < 1 + (length chain - 1))%nat).
  { intros i p Hi (c & q & Hc%lookup_lt_Some & _). lia. }
  destruct (Exam.Blockchain.first_failure chain prefix (seq 1 (length chain - 1)))
    as [msg|] eqn:Hff.
  - right. apply exam_first_failure_Some in Hff
      as (i & p & current & Hi & Hbad & Hc & -> & Hmin).
    exists i, p, current. repeat split; [lia | done..|].
    intros i' p' [Hi' Hbad']. apply Hmin; [|done]. by apply (Hpos i' p').
  - left. split.
    + intros i p [Hi Hbad].
      apply (proj1 (exam_first_failure_None _ _ _) Hff i p); [|done].
      apply elem_of_seq. by apply (Hpos i p).
    + case_bool_decide; auto.
Qed.

(** The chain that [Blockchain(1)] returns, in either file: the genesis
    block alone and no cached root yet. *)
Lemma concrete_fresh_chains :
  Py.run (@Exam.Blockchain.__init__ Concrete.hasher Concrete.clock 64 1) 0%nat
    = Py.Ok (Concrete.exam_fresh, 1%nat) /\
  Py.run (@Merkle9chain.Blockchain.__init__ Concrete.hasher Concrete.clock 64 1) 0%nat
    = Py.Ok (Concrete.m9_fresh, 1%nat).
Proof. split; vm_compute; reflexivity. Qed.

(** C7, as stated, fails in both files: the Merkle root that a chain
    holds right after construction is [None], not the hash of its genesis
    block, and [exam.py]'s validation returns [False] on it. *)
Lemma fresh_chain_root_is_not_cached :
  Py.run (@Exam.Blockchain.__init__ Concrete.hasher Concrete.clock 64 1) 0%nat
    = Py.Ok (Concrete.exam_fresh, 1%nat) /\
  Exam.Blockchain.chain Concrete.exam_fresh = [Concrete.exam_genesis] /\
  Exam.Blockchain.merkle_root Concrete.exam_fresh = None /\
  Exam.Blockchain.merkle_root Concrete.exam_fresh
    <> Some (Exam.Block.hash Concrete.exam_genesis) /\
  @Exam.Blockchain.is_chain_valid Concrete.hasher Concrete.exam_fresh
    = (false, ["Racine Merkle invalide !"]) /\
  Py.run (@Merkle9chain.Blockchain.__init__ Concrete.hasher Concrete.clock 64 1) 0%nat
    = Py.Ok (Concrete.m9_fresh, 1%nat) /\
  Merkle9chain.Blockchain.chain Concrete.m9_fresh = [Concrete.m9_genesis] /\
  Merkle9chain.Blockchain.merkle_root Concrete.m9_fresh = None /\
  Merkle9chain.Blockchain.merkle_root Concrete.m9_fresh
    <> Some (Merkle9chain.Block.hash Concrete.m9_genesis).
Proof.
  destruct concrete_fresh_chains as [He Hm].
  split; [exact He|]. split; [reflexivity|]. split; [reflexivity|].
  split; [discriminate|]. split; [vm_compute; reflexivity|].
  split; [exact Hm|]. split; [reflexivity|]. split; [reflexivity | discriminate].
Qed.

(** C7, amended.  In both files a freshly constructed chain is the
    genesis block alone; it has no finding at any position, and the
    Merkle root of its hash sequence, which [compute_merkle_root] returns
    and caches, is the hash of the genesis block.  The cached root itself
    starts as [None]: until [compute_merkle_root] is called [exam.py]'s
    validation fails on the root comparison, after the call it
    succeeds. *)
Theorem fresh_chain_findings_and_root `{Hasher, Clock} (fuel : nat) (difficulty : Z)
    (k : nat) :
  (forall bc k',
     Py.run (Exam.Blockchain.__init__ fuel difficulty) k = Py.Ok (bc, k') ->
     exists genesis,
       Exam.Blockchain.chain bc = [genesis] /\
       (forall i p, ~ Spec.exam_finding bc i p) /\
       Exam.Blockchain.merkle_root bc = None /\
       Exam.MerkleTree.calculate_merkle_root (map Exam.Block.hash (Exam.Blockchain.chain bc))
         = Some (Exam.Block.hash genesis) /\
       Exam.Blockchain.compute_merkle_root bc
         = (Some (Exam.Block.hash genesis),
            Exam.Blockchain.mk difficulty [genesis] (Some (Exam.Block.hash genesis))) /\
       Exam.Blockchain.is_chain_valid bc = (false, ["Racine Merkle invalide !"]) /\
       Exam.Blockchain.is_chain_valid (snd (Exam.Blockchain.compute_merkle_root bc))
         = (true, [])) /\
  (forall bc k',
     Py.run (Merkle9chain.Blockchain.__init__ fuel difficulty) k = Py.Ok (bc, k') ->
     exists genesis,
       Merkle9chain.Blockchain.chain bc = [genesis] /\
       (forall i p, ~ Spec.m9_finding bc i p) /\
       Merkle9chain.Blockchain.invalid_blocks bc = [] /\
       Merkle9chain.Blockchain.merkle_root bc = None /\
       fst (Merkle9chain.MerkleTree.calculate_merkle_root
              (map Merkle9chain.Block.hash (Merkle9chain.Blockchain.chain bc)))
         = Some (Merkle9chain.Block.hash genesis) /\
       Merkle9chain.Blockchain.compute_merkle_root bc
         = (Some (Merkle9chain.Block.hash genesis),
            Merkle9chain.Blockchain.mk difficulty [genesis]
              (Some (Merkle9chain.Block.hash genesis)))).
Proof.
  split; intros bc k'.
  - intros (-> & genesis & -> & _)%exam_chain_init_Ok. exists genesis.
    assert (Hno : forall i p,
      ~ Spec.exam_finding (Exam.Blockchain.mk difficulty [genesis] None) i p).
    { intros i p [Hi (c & q & Hc%lookup_lt_Some & _)]. simpl in Hc. lia. }
    split; [done|]. split; [done|]. split; [done|]. split; [done|]. split; [done|].
    unfold Exam.Blockchain.is_chain_valid, Exam.Blockchain.compute_merkle_root.
    cbn [Exam.Blockchain.chain Exam.Blockchain.merkle_root Exam.Blockchain.difficulty
         snd map length Nat.sub seq Exam.Blockchain.first_failure].
    rewrite exam_merkle_root_single.
    split; case_bool_decide; done.
  - intros (-> & genesis & -> & _)%m9_chain_init_Ok. exists genesis.
    split; [done|]. split; [|done].
    intros i p [Hi (c & q & Hc%lookup_lt_Some & _)]. simpl in Hc. lia.
Qed.

(** The chain of [Blockchain(1)] at the first reading of the clock. *)
Lemma fresh_chain_witness :
  (exists genesis,
     Exam.Blockchain.chain Concrete.exam_fresh = [genesis] /\
     @Exam.Blockchain.is_chain_valid Concrete.hasher Concrete.exam_fresh
       = (false, ["Racine Merkle invalide !"]) /\
     @Exam.Blockchain.compute_merkle_root Concrete.hasher Concrete.exam_fresh
       = (Some (Exam.Block.hash genesis),
          Exam.Blockchain.mk 1 [genesis] (Some (Exam.Block.hash genesis)))) /\
  (exists genesis,
     Merkle9chain.Blockchain.chain Concrete.m9_fresh = [genesis] /\
     @Merkle9chain.Blockchain.invalid_blocks Concrete.hasher Concrete.m9_fresh = []).
Proof.
  pose proof (@fresh_chain_findings_and_root Concrete.hasher Concrete.clock
                64 1 0%nat) as [He Hm].
  split.
  - destruct (He Concrete.exam_fresh 1%nat) as (genesis & Hc & _ & _ & _ & Hroot & Hv & _).
    + vm_compute. reflexivity.
    + exists genesis. split; [exact Hc|]. split; [exact Hv | exact Hroot].
  - destruct (Hm Concrete.m9_fresh 1%nat) as (genesis & Hc & _ & Hl & _).
    + vm_compute. reflexivity.
    + exists genesis. split; [exact Hc | exact Hl].
Defined.

(** ** Claims on the network *)

(** C3. A corruption whose replica indices are all in range returns; it
    leaves the network with the same replicas in number and the same
    difficulty; a replica that is not targeted is unchanged; a targeted
    replica keeps its difficulty and length, its cached root is the root
    of its current hashes, its targeted blocks have the marker as data and
    as hash the digest of their new content, with index, timestamp, nonce,
    previous hash and difficulty unchanged, and its other blocks are
    unchanged. *)
Theorem corrupt_nodes_effect `{Hasher} (self : Exam.Network.t)
    (indices blocks_to_corrupt : list Z) :
  (forall idx, idx ∈ indices ->
     0 <= idx < Z.of_nat (length (Exam.Network.nodes self))) ->
  exists self',
    Exam.Network.corrupt_nodes self indices blocks_to_corrupt = (self', Py.Ok tt) /\
    Spec.exam_network_corrupted indices blocks_to_corrupt self self'.
Proof.
  intros Hrange.
  destruct (exam_corrupt_nodes_in_range self indices blocks_to_corrupt Hrange)
    as [Hok Hnodes].
  destruct (exam_corrupt_nodes_frame self indices blocks_to_corrupt) as [Hlen Hdiff].
  destruct (Exam.Network.corrupt_nodes self indices blocks_to_corrupt) as [self' r].
  cbn [fst snd] in *. subst r. exists self'. split; [done|].
  split; [done|]. split; [done|].
  intros i bc Hi. rewrite Hnodes, Hi. cbn [fmap option_fmap option_map]. split.
  - intros Hout. by rewrite decide_False.
  - intros Hin. rewrite decide_True by done.
    eexists. split; [done|]. apply exam_corrupt_node_spec.
Qed.

(** [corrupt_nodes([0], [1])] on the network of one replica. *)
Lemma corrupt_nodes_effect_witness :
  exists self',
    @Exam.Network.corrupt_nodes Concrete.hasher Concrete.exam_net1 [0] [1]
      = (self', Py.Ok tt) /\
    @Spec.exam_network_corrupted Concrete.hasher [0] [1] Concrete.exam_net1 self'.
Proof.
  apply (@corrupt_nodes_effect Concrete.hasher Concrete.exam_net1 [0] [1]).
  intros idx Hidx%list_elem_of_singleton. subst idx. simpl. lia.
Defined.

(** C10. When a replica index of the batch is at or beyond the number of
    replicas, the call raises [IndexError] there: the replicas targeted
    before it are corrupted and stay so, nothing after it is processed.
    Block positions outside a chain are skipped without an error. *)
Theorem corrupt_nodes_replica_index_out_of_range `{Hasher} (self : Exam.Network.t)
    (before : list Z) (idx : Z) (after blocks_to_corrupt : list Z) :
  (forall i, i ∈ before -> 0 <= i < Z.of_nat (length (Exam.Network.nodes self))) ->
  Z.of_nat (length (Exam.Network.nodes self)) <= idx ->
  (exists self',
     Exam.Network.corrupt_nodes self before blocks_to_corrupt = (self', Py.Ok tt) /\
     Spec.exam_network_corrupted before blocks_to_corrupt self self' /\
     Exam.Network.corrupt_nodes self (before ++ idx :: after) blocks_to_corrupt
       = (self', Py.Raise Py.IndexError)) /\
  (forall bc : Exam.Blockchain.t,
     Exam.Network.corrupt_node blocks_to_corrupt bc
     = Exam.Network.corrupt_node
         (filter (fun bidx => 0 <= bidx < Z.of_nat (length (Exam.Blockchain.chain bc)))
                 blocks_to_corrupt) bc).
Proof.
  intros Hrange Hidx. split.
  - destruct (exam_corrupt_nodes_in_range self before blocks_to_corrupt Hrange)
      as [Hok Hnodes].
    destruct (exam_corrupt_nodes_frame self before blocks_to_corrupt) as [Hlen Hdiff].
    rewrite exam_corrupt_nodes_app.
    destruct (Exam.Network.corrupt_nodes self before blocks_to_corrupt)
      as [self' r] eqn:Hrun.
    cbn [fst snd] in *. subst r. exists self'. split; [done|]. split.
    + split; [done|]. split; [done|].
      intros i bc Hi. rewrite Hnodes, Hi. cbn [fmap option_fmap option_map]. split.
      * intros Hout. by rewrite decide_False.
      * intros Hin. rewrite decide_True by done.
        eexists. split; [done|]. apply exam_corrupt_node_spec.
    + cbn [Exam.Network.corrupt_nodes].
      rewrite index_too_large; [done | lia].
  - intros bc. unfold Exam.Network.corrupt_node. cbn [Exam.Blockchain.chain].
    by rewrite <- exam_corrupt_blocks_skip.
Qed.

(** [corrupt_nodes([0, 1, 0], [1, 7])] on the network of one replica:
    replica 0 is corrupted, index 1 raises, block position 7 is skipped. *)
Lemma corrupt_nodes_out_of_range_witness :
  @Exam.Network.corrupt_nodes Concrete.hasher Concrete.exam_net1 [0; 1; 0] [1; 7]
  = (Exam.Network.mk [Concrete.exam_chain3_tampered] 1, Py.Raise Py.IndexError).
Proof.
  destruct (@corrupt_nodes_replica_index_out_of_range Concrete.hasher
              Concrete.exam_net1 [0] 1 [0] [1; 7])
    as [(self' & Hbefore & _ & Hraise) _].
  - intros i Hi%list_elem_of_singleton. subst i. simpl. lia.
  - simpl. lia.
  - change ([0] ++ 1 :: [0]) with [0; 1; 0] in Hraise. rewrite Hraise.
    f_equal. vm_compute in Hbefore. by injection Hbefore as <-.
Defined.

(** C4. With an odd number of replicas the vote is true exactly when the
    replicas that validate are more than half of all, in the integer
    division and in the rationals alike; it is false exactly when they
    are fewer than half; they are never exactly half. *)
Theorem majority_vote_odd `{Hasher} (self : Exam.Network.t) :
  Z.of_nat (length (Exam.Network.nodes self)) mod 2 = 1 ->
  let n := Z.of_nat (length (Exam.Network.nodes self)) in
  let valid :=
    Z.of_nat (length (filter (fun bc => fst (Exam.Blockchain.is_chain_valid bc) = true)
                             (Exam.Network.nodes self))) in
  0 <= valid <= n /\
  (Exam.Network.majority_vote self = true <-> valid > n / 2) /\
  (Exam.Network.majority_vote self = true <-> 2 * valid > n) /\
  (Exam.Network.majority_vote self = false <-> 2 * valid < n) /\
  2 * valid <> n.
Proof.
  intros Hodd n valid.
  assert (Hle : 0 <= valid <= n).
  { unfold valid, n. pose proof (length_filter
      (fun bc => fst (Exam.Blockchain.is_chain_valid bc) = true)
      (Exam.Network.nodes self)). lia. }
  unfold Exam.Network.majority_vote, Exam.Network.valides. fold n valid.
  assert (Hn : n = 2 * (n / 2) + 1).
  { pose proof (Z.div_mod n 2 ltac:(lia)). unfold n in *. lia. }
  destruct (Z.gtb_spec valid (n / 2)) as [Hgt|Hngt].
  - repeat split; try done; lia.
  - repeat split; try done; lia.
Qed.

(** Three replicas, two of them corrupted at block 1: one validates. *)
Lemma majority_vote_witness :
  @Exam.Network.majority_vote Concrete.hasher
    (fst (@Exam.Network.corrupt_nodes Concrete.hasher Concrete.exam_net3 [0; 1] [1]))
  = false.
Proof.
  apply (@majority_vote_odd Concrete.hasher).
  - vm_compute. reflexivity.
  - vm_compute. reflexivity.
Defined.

(** C9, as stated, fails: an odd count does not make construction
    succeed.  [Network(1, 65)] asks for digests that start with 65
    zeros, a digest has 64 characters, and the mining loop of the first
    block goes on whatever the budget: construction never returns. *)
Lemma network_construction_odd_count_never_returns :
  1 mod 2 = 1 /\
  (forall fuel,
     Py.run (@Exam.Network.__init__ Concrete.hasher Concrete.clock fuel 1 65) 0%nat
     = Py.Running) /\
  ~ (exists fuel net k',
       Py.run (@Exam.Network.__init__ Concrete.hasher Concrete.clock fuel 1 65) 0%nat
       = Py.Ok (net, k')).
Proof.
  assert (Hrun : forall fuel,
            Py.run (@Exam.Network.__init__ Concrete.hasher Concrete.clock fuel 1 65) 0%nat
            = Py.Running).
  { intros fuel.
    apply (@exam_network_init_Running Concrete.hasher Concrete.clock fuel 1 65 0%nat);
      [reflexivity | lia | | lia].
    intros s. exact (hexdigest_length s). }
  split; [reflexivity|]. split; [exact Hrun|].
  intros (fuel & net & k' & Hok). rewrite Hrun in Hok. discriminate.
Qed.

(** C9, amended.  An even count makes construction raise
    [AssertionError] at once, whatever the budget, so before any replica
    is built and with no network returned.  An odd count passes the
    assertion and construction raises nothing.  Whether it returns is up
    to the mining loops, which are unbounded: with no budget a positive
    count is left mining its first block; when mining at this difficulty
    always finds a nonce, construction returns a network of [node_count]
    replicas from some budget on; once it has returned at some budget it
    returns the same network of [node_count] replicas at every larger
    one; and when digests have 64 characters and the difficulty is above
    64, a positive count never returns. *)
Theorem network_construction `{Hasher, Clock} (node_count difficulty : Z) (k : nat) :
  (node_count mod 2 = 0 ->
   forall fuel,
     Py.run (Exam.Network.__init__ fuel node_count difficulty) k
     = Py.Raise Py.AssertionError) /\
  (node_count mod 2 = 1 ->
   (0 < node_count ->
    Py.run (Exam.Network.__init__ 0 node_count difficulty) k = Py.Running) /\
   (Spec.exam_mining_terminates difficulty ->
    exists fuel0 net k',
      (length (Exam.Network.nodes net) = Z.to_nat node_count /\
       Exam.Network.difficulty net = difficulty) /\
      forall fuel, (fuel0 <= fuel)%nat ->
        Py.run (Exam.Network.__init__ fuel node_count difficulty) k = Py.Ok (net, k')) /\
   (forall fuel e,
      Py.run (Exam.Network.__init__ fuel node_count difficulty) k <> Py.Raise e) /\
   (forall fuel0 net k',
      Py.run (Exam.Network.__init__ fuel0 node_count difficulty) k = Py.Ok (net, k') ->
      (length (Exam.Network.nodes net) = Z.to_nat node_count /\
       Exam.Network.difficulty net = difficulty) /\
      forall fuel, (fuel0 <= fuel)%nat ->
        Py.run (Exam.Network.__init__ fuel node_count difficulty) k = Py.Ok (net, k')) /\
   (0 < node_count ->
    (forall s, String.length (sha256 s) = 64%nat) -> 64 < difficulty ->
    forall fuel,
      Py.run (Exam.Network.__init__ fuel node_count difficulty) k = Py.Running)).
Proof.
  split.
  - intros Heven fuel. by apply exam_network_init_even.
  - intros Hodd. split; [|split; [|split; [|split]]].
    + intros Hpos. exact (exam_network_init_no_budget node_count difficulty k Hodd Hpos).
    + intros Hterm. exact (exam_network_init_odd node_count difficulty k Hodd Hterm).
    + intros fuel e. by apply exam_network_init_no_raise.
    + intros fuel0 net k' Hrun. split; [by eapply exam_network_init_length|].
      intros fuel Hle. by apply (exam_network_init_budget _ _ fuel0 fuel k (net, k')).
    + intros Hpos Hlen Hd fuel. by apply exam_network_init_Running.
Qed.

(** Four replicas are refused.  Three are built at difficulty 0, where
    the first digest of every block is accepted.  One is built at
    difficulty 1 with 64 rounds for each block, and so with any larger
    budget.  None is built at difficulty 65. *)
Lemma network_construction_witness :
  Py.run (@Exam.Network.__init__ Concrete.hasher Concrete.clock 5 4 0) 0%nat
    = Py.Raise Py.AssertionError /\
  (exists fuel0 net k',
     (length (Exam.Network.nodes net) = 3%nat /\ Exam.Network.difficulty net = 0) /\
     forall fuel, (fuel0 <= fuel)%nat ->
       Py.run (@Exam.Network.__init__ Concrete.hasher Concrete.clock fuel 3 0) 0%nat
       = Py.Ok (net, k')) /\
  (forall fuel, (64 <= fuel)%nat ->
     Py.run (@Exam.Network.__init__ Concrete.hasher Concrete.clock fuel 1 1) 0%nat
     = Py.Ok (Concrete2.exam_network_1_1, 9%nat)) /\
  (forall fuel,
     Py.run (@Exam.Network.__init__ Concrete.hasher Concrete.clock fuel 1 65) 0%nat
     = Py.Running).
Proof.
  split; [|split; [|split]].
  - apply (@network_construction Concrete.hasher Concrete.clock 4 0 0%nat).
    reflexivity.
  - apply (@network_construction Concrete.hasher Concrete.clock 3 0 0%nat).
    + reflexivity.
    + intros index now data previous_hash. exists 0%nat. apply startswith_empty.
  - destruct (@network_construction Concrete.hasher Concrete.clock 1 1 0%nat)
      as [_ Hodd].
    destruct (Hodd eq_refl) as (_ & _ & _ & Hsame & _).
    destruct (Hsame 64%nat Concrete2.exam_network_1_1 9%nat) as [_ Hfrom].
    + vm_compute. reflexivity.
    + exact Hfrom.
  - destruct (@network_construction Concrete.hasher Concrete.clock 1 65 0%nat)
      as [_ Hodd].
    destruct (Hodd eq_refl) as (_ & _ & _ & _ & Hnever).
    apply Hnever; [lia | | lia].
    intros s. exact (hexdigest_length s).
Defined.

(** * Further properties *)

(** ** The Merkle root, beyond two and three digests *)
Section MoreMerkleFacts.
Context `{Hasher}.

(** More rounds than needed change nothing. *)
Lemma exam_reduce_more_fuel (fuel fuel' : nat) (l r : list string) :
  Exam.MerkleTree.reduce fuel l = Some r -> (fuel <= fuel')%nat ->
  Exam.MerkleTree.reduce fuel' l = Some r.
Proof.
  revert fuel' l. induction fuel as [|fuel IH]; intros fuel' l Hr Hle.
  - destruct fuel'; cbn [Exam.MerkleTree.reduce] in *;
      by destruct (Z.of_nat (length l) >? 1).
  - destruct fuel' as [|fuel']; [lia|].
    cbn [Exam.MerkleTree.reduce] in *.
    destruct (Z.of_nat (length l) >? 1); [|done].
    apply IH; [done | lia].
Qed.

Lemma exam_pad_even (l : list string) :
  Z.of_nat (length l) mod 2 = 0 -> Exam.MerkleTree.pad l = l.
Proof. intros He. unfold Exam.MerkleTree.pad. by rewrite He. Qed.

Lemma exam_pad_odd (l : list string) :
  Z.of_nat (length l) mod 2 = 1 ->
  exists x, last l = Some x /\ Exam.MerkleTree.pad l = l ++ [x].
Proof.
  intros Ho. unfold Exam.MerkleTree.pad. rewrite Ho. cbn [Z.eqb negb].
  destruct (last l) as [x|] eqn:Hl; [eauto|].
  apply last_None in Hl. by subst l.
Qed.

Lemma exam_pad_pad (l : list string) :
  Exam.MerkleTree.pad (Exam.MerkleTree.pad l) = Exam.MerkleTree.pad l.
Proof.
  apply exam_pad_even. rewrite exam_pad_length.
  pose proof (Nat.mod_upper_bound (length l) 2 ltac:(lia)).
  pose proof (Nat.div_mod_eq (length l) 2).
  replace (Z.of_nat (length l + length l mod 2))
    with (2 * Z.of_nat (length l / 2 + length l mod 2)) by lia.
  by rewrite Z.mul_comm, Z.mod_mul.
Qed.

(** The root of a level of two or more is the root of its parent level. *)
Lemma exam_merkle_root_step (hashes : list string) :
  (1 < length hashes)%nat ->
  Exam.MerkleTree.calculate_merkle_root hashes
  = Exam.MerkleTree.calculate_merkle_root
      (Exam.MerkleTree.next_level (Exam.MerkleTree.pad hashes)).
Proof.
  intros Hlen. pose proof (exam_round_shrinks hashes Hlen) as Hs.
  set (parent := Exam.MerkleTree.next_level (Exam.MerkleTree.pad hashes)) in *.
  unfold Exam.MerkleTree.calculate_merkle_root.
  destruct hashes as [|h hs]; [simpl in Hlen; lia|].
  destruct parent as [|p ps] eqn:Hp; [simpl in Hs; lia|]. rewrite <- Hp in *.
  destruct (exam_reduce_total (length parent) parent) as [root Hroot];
    [by rewrite Hp | lia |].
  rewrite Hroot.
  change (length (h :: hs)) with (S (length hs)). rewrite exam_reduce_unfold.
  destruct (Z.gtb_spec (Z.of_nat (length (h :: hs))) 1) as [_|Hle]; [|lia].
  fold parent.
  rewrite (exam_reduce_more_fuel (length parent) (length hs) parent [root]);
    [done | done | simpl in Hs; lia].
Qed.

End MoreMerkleFacts.

(** X1. In both files the aggregator returns [None] on the empty
    sequence and on no other: every non-empty sequence has a root. *)
Theorem merkle_root_none_iff_empty `{Hasher} (hashes : list string) :
  (Exam.MerkleTree.calculate_merkle_root hashes = None <-> hashes = []) /\
  (fst (Merkle9chain.MerkleTree.calculate_merkle_root hashes) = None <-> hashes = []).
Proof.
  rewrite m9_merkle_root_value.
  assert (Hiff : Exam.MerkleTree.calculate_merkle_root hashes = None <-> hashes = []).
  { split; [|by intros ->].
    intros Hnone. destruct hashes as [|h hs]; [done|].
    destruct (exam_merkle_root_total (h :: hs)) as [root Hroot]; [done | congruence]. }
  done.
Qed.



(** X3. What [merkle9chain.py]'s aggregator does to the list it is given:
    nothing when the length is at most one or even, otherwise it appends
    the last element, once.  A second call on the same list object leaves
    it as the first call left it and returns the same root. *)
Theorem m9_merkle_root_argument_effect `{Hasher} (hashes : list string) :
  let after := snd (Merkle9chain.MerkleTree.calculate_merkle_root hashes) in
  ((length hashes <= 1)%nat \/ Z.of_nat (length hashes) mod 2 = 0 -> after = hashes) /\
  ((1 < length hashes)%nat -> Z.of_nat (length hashes) mod 2 = 1 ->
   exists x, last hashes = Some x /\ after = hashes ++ [x]) /\
  Merkle9chain.MerkleTree.calculate_merkle_root after
  = (fst (Merkle9chain.MerkleTree.calculate_merkle_root hashes), after).
Proof.
  intros after. unfold after. rewrite m9_merkle_root_argument.
  destruct (Z.gtb_spec (Z.of_nat (length hashes)) 1) as [Hgt|Hle].
  - split; [|split].
    + intros [Hle|Heven]; [lia | by apply exam_pad_even].
    + intros _ Hodd. by apply exam_pad_odd.
    + apply injective_projections; cbn [fst snd].
      * rewrite !m9_merkle_root_value.
        rewrite (exam_merkle_root_step hashes) by lia.
        rewrite (exam_merkle_root_step (Exam.MerkleTree.pad hashes))
          by (rewrite exam_pad_length; lia).
        by rewrite exam_pad_pad.
      * rewrite m9_merkle_root_argument, exam_pad_pad.
        by destruct (Z.of_nat (length (Exam.MerkleTree.pad hashes)) >? 1).
  - split; [|split].
    + done.
    + intros Hlt. lia.
    + apply injective_projections; cbn [fst snd]; [done|].
      rewrite m9_merkle_root_argument.
      destruct (Z.gtb_spec (Z.of_nat (length hashes)) 1); [lia | done].
Qed.

(** ** Computations that return *)
Section IoFacts.

Lemma ret_Ok {A} (a b : A) (k k' : nat) :
  Py.run (Py.ret a) k = Py.Ok (b, k') <-> b = a /\ k' = k.
Proof. unfold Py.ret. cbn [Py.run]. split; [by intros [= <- <-] | by intros [-> ->]]. Qed.

Lemma bind_Ok {A B} (m : Py.io A) (f : A -> Py.io B) (k : nat) (b : B) (k2 : nat) :
  Py.run (Py.bind m f) k = Py.Ok (b, k2) <->
  exists a k1, Py.run m k = Py.Ok (a, k1) /\ Py.run (f a) k1 = Py.Ok (b, k2).
Proof.
  unfold Py.bind. cbn [Py.run].
  destruct (Py.run m k) as [[a k1]| |]; split;
    try done; try (by intros (? & ? & [=] & _)); eauto.
  by intros (a' & k1' & [= <- <-] & Hf).
Qed.

(** An invariant of the body of a loop holds when the loop returns. *)
Lemma for_Ok {X St} (xs : list X) (body : X -> St -> Py.io St)
    (Inv : nat -> St -> nat -> Prop) (s : St) (k : nat) (n : nat) (s' : St) (k' : nat) :
  (forall x s k s' k' n, Inv n s k -> Py.run (body x s) k = Py.Ok (s', k') ->
     Inv (S n) s' k') ->
  Inv n s k ->
  Py.run (Py.for_ xs body s) k = Py.Ok (s', k') ->
  Inv (n + length xs)%nat s' k'.
Proof.
  intros Hbody. revert s k n. induction xs as [|x xs IH]; intros s k n Hinv;
    cbn [Py.for_ length].
  - intros [-> ->]%ret_Ok. by rewrite Nat.add_0_r.
  - intros (s1 & k1 & Hx & Hrest)%bind_Ok.
    replace (n + S (length xs))%nat with (S n + length xs)%nat by lia.
    eapply IH; [|exact Hrest]. by eapply Hbody.
Qed.

End IoFacts.

(** ** Growing a chain *)
Section ChainGrowthFacts.
Context `{Hasher, Clock}.

(** [exam.py]: what [add_block] returns. *)
Lemma exam_add_block_Ok (fuel : nat) (data : string) (self : Exam.Blockchain.t)
    (k : nat) (bc' : Exam.Blockchain.t) (k' : nat) :
  Py.run (Exam.Blockchain.add_block fuel data self) k = Py.Ok (bc', k') <->
  k' = S k /\
  exists latest new_block,
    last (Exam.Blockchain.chain self) = Some latest /\
    bc' = Exam.Blockchain.mk (Exam.Blockchain.difficulty self)
            (Exam.Blockchain.chain self ++ [new_block])
            (Exam.Blockchain.merkle_root self) /\
    Spec.exam_mined fuel (Z.of_nat (length (Exam.Blockchain.chain self))) (reading k)
      data (Exam.Block.hash latest) (Exam.Blockchain.difficulty self) new_block.
Proof.
  unfold Exam.Blockchain.add_block.
  destruct (last (Exam.Blockchain.chain self)) as [latest|] eqn:Hlast.
  - unfold mbind, io_bind. rewrite bind_Ok. split.
    + intros (new_block & k1 & [-> Hnew]%exam_block_init_Ok & [-> ->]%ret_Ok).
      split; [done|]. by exists latest, new_block.
    + intros (-> & latest' & new_block & [= <-] & -> & Hnew).
      exists new_block, (S k). split; [by apply exam_block_init_Ok | by apply ret_Ok].
  - unfold Py.raise. cbn [Py.run]. split; [done|].
    by intros (_ & ? & ? & [=] & _).
Qed.

Lemma m9_add_block_Ok (fuel : nat) (data : string) (self : Merkle9chain.Blockchain.t)
    (k : nat) (bc' : Merkle9chain.Blockchain.t) (k' : nat) :
  Py.run (Merkle9chain.Blockchain.add_block fuel data self) k = Py.Ok (bc', k') <->
  k' = S k /\
  exists latest new_block,
    last (Merkle9chain.Blockchain.chain self) = Some latest /\
    bc' = Merkle9chain.Blockchain.mk (Merkle9chain.Blockchain.difficulty self)
            (Merkle9chain.Blockchain.chain self ++ [new_block])
            (Merkle9chain.Blockchain.merkle_root self) /\
    Spec.m9_mined fuel (Z.of_nat (length (Merkle9chain.Blockchain.chain self)))
      (reading k) data (Merkle9chain.Block.hash latest)
      (Merkle9chain.Blockchain.difficulty self) new_block.
Proof.
  unfold Merkle9chain.Blockchain.add_block, Merkle9chain.Blockchain.get_latest_block.
  destruct (last (Merkle9chain.Blockchain.chain self)) as [latest|] eqn:Hlast.
  - unfold mbind, io_bind. rewrite bind_Ok. split.
    + intros (l & k0 & Hl & Hrest). unfold Py.lift in Hl. cbn [Py.run] in Hl.
      injection Hl as <- <-. apply bind_Ok in Hrest
        as (new_block & k1 & [-> Hnew]%m9_block_init_Ok & [-> ->]%ret_Ok).
      split; [done|]. by exists latest, new_block.
    + intros (-> & latest' & new_block & [= <-] & -> & Hnew).
      exists latest, k. split; [done|]. apply bind_Ok.
      exists new_block, (S k). split; [by apply m9_block_init_Ok | by apply ret_Ok].
  - unfold mbind, io_bind, Py.bind, Py.lift. cbn [Py.run]. split; [done|].
    by intros (_ & ? & ? & [=] & _).
Qed.

(** A mined block appended to a chain adds no finding. *)
Lemma exam_sound_snoc (fuel : nat) (now data : string) (difficulty : Z)
    (chain : list Exam.Block.t) (root root' : option string)
    (latest new_block : Exam.Block.t) :
  last chain = Some latest ->
  Spec.exam_mined fuel (Z.of_nat (length chain)) now data (Exam.Block.hash latest)
    difficulty new_block ->
  More.exam_sound (Exam.Blockchain.mk difficulty chain root) ->
  More.exam_sound (Exam.Blockchain.mk difficulty (chain ++ [new_block]) root').
Proof.
  intros Hlast (n & _ & Hself & Hhash & Hprefix & _) Hsound i p
    [Hi (current & prev & Hc & Hp & Hbad)].
  cbn [Exam.Blockchain.chain Exam.Blockchain.difficulty] in *.
  rewrite last_lookup in Hlast.
  destruct (decide (i < length chain)%nat) as [Hlt|Hge].
  - rewrite lookup_app_l in Hc, Hp by lia.
    apply (Hsound i p). split; [done|]. by exists current, prev.
  - assert (i = length chain) as ->.
    { apply lookup_lt_Some in Hc. rewrite length_app in Hc. simpl in Hc. lia. }
    rewrite list_lookup_middle in Hc by done. injection Hc as <-.
    rewrite lookup_app_l in Hp by lia.
    replace (length chain - 1)%nat with (Nat.pred (length chain)) in Hp by lia.
    assert (prev = latest) as -> by congruence.
    destruct p; [done | | congruence].
    apply Hbad. by rewrite Hself.
Qed.

Lemma m9_sound_snoc (fuel : nat) (now data : string) (difficulty : Z)
    (chain : list Merkle9chain.Block.t) (root root' : option string)
    (latest new_block : Merkle9chain.Block.t) :
  last chain = Some latest ->
  Spec.m9_mined fuel (Z.of_nat (length chain)) now data
    (Merkle9chain.Block.hash latest) difficulty new_block ->
  More.m9_sound (Merkle9chain.Blockchain.mk difficulty chain root) ->
  More.m9_sound (Merkle9chain.Blockchain.mk difficulty (chain ++ [new_block]) root').
Proof.
  intros Hlast (n & _ & Hself & Hhash & Hprefix & _) Hsound i p
    [Hi (current & prev & Hc & Hp & Hbad)].
  cbn [Merkle9chain.Blockchain.chain Merkle9chain.Blockchain.difficulty] in *.
  rewrite last_lookup in Hlast.
  destruct (decide (i < length chain)%nat) as [Hlt|Hge].
  - rewrite lookup_app_l in Hc, Hp by lia.
    apply (Hsound i p). split; [done|]. by exists current, prev.
  - assert (i = length chain) as ->.
    { apply lookup_lt_Some in Hc. rewrite length_app in Hc. simpl in Hc. lia. }
    rewrite list_lookup_middle in Hc by done. injection Hc as <-.
    rewrite lookup_app_l in Hp by lia.
    replace (length chain - 1)%nat with (Nat.pred (length chain)) in Hp by lia.
    assert (prev = latest) as -> by congruence.
    destruct p; [done | | congruence].
    apply Hbad. by rewrite Hself.
Qed.

(** [exam.py]: a validation that returns [True] has printed nothing. *)
Lemma exam_is_chain_valid_true_silent (self : Exam.Blockchain.t) :
  fst (Exam.Blockchain.is_chain_valid self) = true ->
  Exam.Blockchain.is_chain_valid self = (true, []).
Proof.
  unfold Exam.Blockchain.is_chain_valid.
  destruct (Exam.Blockchain.first_failure _ _ _); [done|].
  by case_bool_decide.
Qed.

Lemma exam_sound_compute (self : Exam.Blockchain.t) :
  More.exam_sound self ->
  Exam.Blockchain.is_chain_valid (snd (Exam.Blockchain.compute_merkle_root self))
  = (true, []).
Proof.
  intros Hsound. apply exam_is_chain_valid_true_silent, exam_is_chain_valid_true.
  split; [|done]. intros i p Hf. by apply (Hsound i p).
Qed.

End ChainGrowthFacts.

(** X4. In both files [add_block] returns exactly when the chain has a
    last block: the result is the chain with one block appended, mined at
    the chain's difficulty, with the former length as index and the last
    block's hash as previous hash; the difficulty and the cached root are
    as before, and the clock was read once.  On an empty chain it raises
    [IndexError]. *)
Theorem add_block_effect `{Hasher, Clock} (fuel : nat) (data : string) (k : nat) :
  (forall (self bc' : Exam.Blockchain.t) (k' : nat),
     Py.run (Exam.Blockchain.add_block fuel data self) k = Py.Ok (bc', k') <->
     k' = S k /\
     exists latest new_block,
       last (Exam.Blockchain.chain self) = Some latest /\
       bc' = Exam.Blockchain.mk (Exam.Blockchain.difficulty self)
               (Exam.Blockchain.chain self ++ [new_block])
               (Exam.Blockchain.merkle_root self) /\
       Spec.exam_mined fuel (Z.of_nat (length (Exam.Blockchain.chain self))) (reading k)
         data (Exam.Block.hash latest) (Exam.Blockchain.difficulty self) new_block) /\
  (forall (self bc' : Merkle9chain.Blockchain.t) (k' : nat),
     Py.run (Merkle9chain.Blockchain.add_block fuel data self) k = Py.Ok (bc', k') <->
     k' = S k /\
     exists latest new_block,
       last (Merkle9chain.Blockchain.chain self) = Some latest /\
       bc' = Merkle9chain.Blockchain.mk (Merkle9chain.Blockchain.difficulty self)
               (Merkle9chain.Blockchain.chain self ++ [new_block])
               (Merkle9chain.Blockchain.merkle_root self) /\
       Spec.m9_mined fuel (Z.of_nat (length (Merkle9chain.Blockchain.chain self)))
         (reading k) data (Merkle9chain.Block.hash latest)
         (Merkle9chain.Blockchain.difficulty self) new_block) /\
  (forall difficulty root,
     Py.run (Exam.Blockchain.add_block fuel data
               (Exam.Blockchain.mk difficulty [] root)) k
     = Py.Raise Py.IndexError) /\
  (forall difficulty root,
     Py.run (Merkle9chain.Blockchain.add_block fuel data
               (Merkle9chain.Blockchain.mk difficulty [] root)) k
     = Py.Raise Py.IndexError).
Proof.
  split; [|split; [|split]].
  - intros self bc' k'. apply exam_add_block_Ok.
  - intros self bc' k'. apply m9_add_block_Ok.
  - reflexivity.
  - reflexivity.
Qed.

(** The second block of the concrete chains. *)
Lemma add_block_effect_witness :
  Py.run (@Exam.Blockchain.add_block Concrete.hasher Concrete.clock 64 "Donnée #1"
            Concrete.exam_fresh) 1%nat
    = Py.Ok (Concrete2.exam_chain2, 2%nat) /\
  Py.run (@Merkle9chain.Blockchain.add_block Concrete.hasher Concrete.clock 64
            "Donnée #1" Concrete.m9_fresh) 1%nat
    = Py.Ok (Concrete2.m9_chain2, 2%nat).
Proof.
  pose proof (@add_block_effect Concrete.hasher Concrete.clock 64 "Donnée #1" 1%nat)
    as (He & Hm & _).
  split.
  - apply He. split; [reflexivity|].
    exists Concrete.exam_genesis, Concrete.exam_block1.
    split; [reflexivity|]. split; [reflexivity|].
    apply (@exam_block_init_Ok Concrete.hasher Concrete.clock 64 1 "Donnée #1"
             (Exam.Block.hash Concrete.exam_genesis) 1 1%nat Concrete.exam_block1 2%nat).
    vm_compute. reflexivity.
  - apply Hm. split; [reflexivity|].
    exists Concrete.m9_genesis, Concrete2.m9_block1.
    split; [reflexivity|]. split; [reflexivity|].
    apply (@m9_block_init_Ok Concrete.hasher Concrete.clock 64 1 "Donnée #1"
             (Merkle9chain.Block.hash Concrete.m9_genesis) 1 1%nat
             Concrete2.m9_block1 2%nat).
    vm_compute. reflexivity.
Defined.

(** X5. Appending keeps a chain free of findings, in both files: when no
    check fails on a chain and [add_block] returns, no check fails on the
    longer chain.  In [exam.py] validation then returns [True] once the
    root is recomputed; in [merkle9chain.py] it returns [True] at once. *)
Theorem add_block_keeps_sound `{Hasher, Clock} (fuel : nat) (data : string) (k : nat) :
  (forall (self bc' : Exam.Blockchain.t) (k' : nat),
     More.exam_sound self ->
     Py.run (Exam.Blockchain.add_block fuel data self) k = Py.Ok (bc', k') ->
     More.exam_sound bc' /\
     Exam.Blockchain.is_chain_valid (snd (Exam.Blockchain.compute_merkle_root bc'))
       = (true, [])) /\
  (forall (self bc' : Merkle9chain.Blockchain.t) (k' : nat),
     More.m9_sound self ->
     Py.run (Merkle9chain.Blockchain.add_block fuel data self) k = Py.Ok (bc', k') ->
     More.m9_sound bc' /\
     fst (Merkle9chain.Blockchain.is_chain_valid bc') = true).
Proof.
  split.
  - intros [difficulty chain root] bc' k' Hsound
      (-> & latest & new_block & Hlast & -> & Hmined)%exam_add_block_Ok.
    cbn [Exam.Blockchain.chain Exam.Blockchain.difficulty Exam.Blockchain.merkle_root]
      in *.
    assert (Hsound' : More.exam_sound
                        (Exam.Blockchain.mk difficulty (chain ++ [new_block]) root))
      by (by eapply exam_sound_snoc).
    split; [done | by apply exam_sound_compute].
  - intros [difficulty chain root] bc' k' Hsound
      (-> & latest & new_block & Hlast & -> & Hmined)%m9_add_block_Ok.
    cbn [Merkle9chain.Blockchain.chain Merkle9chain.Blockchain.difficulty
         Merkle9chain.Blockchain.merkle_root] in *.
    assert (Hsound' : More.m9_sound
                        (Merkle9chain.Blockchain.mk difficulty (chain ++ [new_block]) root))
      by (by eapply m9_sound_snoc).
    split; [done | by apply m9_is_chain_valid_true].
Qed.

Lemma add_block_keeps_sound_witness :
  @Exam.Blockchain.is_chain_valid Concrete.hasher
    (snd (@Exam.Blockchain.compute_merkle_root Concrete.hasher Concrete2.exam_chain2))
    = (true, []) /\
  fst (@Merkle9chain.Blockchain.is_chain_valid Concrete.hasher Concrete2.m9_chain2)
    = true.
Proof.
  pose proof (@add_block_keeps_sound Concrete.hasher Concrete.clock 64 "Donnée #1" 1%nat)
    as [He Hm].
  split.
  - apply (He Concrete.exam_fresh Concrete2.exam_chain2 2%nat).
    + intros i p [Hi (c & q & Hc%lookup_lt_Some & _)]. simpl in Hc. lia.
    + vm_compute. reflexivity.
  - apply (Hm Concrete.m9_fresh Concrete2.m9_chain2 2%nat).
    + intros i p [Hi (c & q & Hc%lookup_lt_Some & _)]. simpl in Hc. lia.
    + vm_compute. reflexivity.
Defined.

(** X6. [exam.py]'s [compute_merkle_root] touches the cache alone, returns
    what it caches, and a second call changes nothing; it returns [None]
    on a chain of no block only.  After it validation returns [True]
    exactly when no check fails at any position. *)
Theorem compute_merkle_root_effect `{Hasher} (self : Exam.Blockchain.t) :
  let root := fst (Exam.Blockchain.compute_merkle_root self) in
  let self' := snd (Exam.Blockchain.compute_merkle_root self) in
  Exam.Blockchain.chain self' = Exam.Blockchain.chain self /\
  Exam.Blockchain.difficulty self' = Exam.Blockchain.difficulty self /\
  Exam.Blockchain.merkle_root self' = root /\
  Exam.Blockchain.compute_merkle_root self' = (root, self') /\
  (root = None <-> Exam.Blockchain.chain self = []) /\
  (fst (Exam.Blockchain.is_chain_valid self') = true <-> More.exam_sound self).
Proof.
  intros root self'. subst root self'.
  unfold Exam.Blockchain.compute_merkle_root. cbn [fst snd Exam.Blockchain.chain
    Exam.Blockchain.difficulty Exam.Blockchain.merkle_root].
  split; [done|]. split; [done|]. split; [done|]. split; [done|]. split.
  - split.
    + intros Hnone. destruct (Exam.Blockchain.chain self) as [|b l] eqn:Hc; [done|].
      destruct (exam_merkle_root_total (map Exam.Block.hash (b :: l))) as [r Hr];
        [done | congruence].
    + by intros ->.
  - rewrite exam_is_chain_valid_true. unfold More.exam_sound, Spec.exam_finding,
      Spec.exam_merkle_consistent.
    cbn [Exam.Blockchain.chain Exam.Blockchain.difficulty Exam.Blockchain.merkle_root].
    split; [by intros [? _] | done].
Qed.

(** ** Mining at no difficulty *)

(** X7. With a difficulty of zero or less the prefix is empty: in both
    files construction accepts the first digest and returns the block with
    nonce 0, as soon as the loop may run one round. *)
Theorem block_init_nonpositive_difficulty `{Hasher, Clock} (fuel : nat) (index : Z)
    (data previous_hash : string) (difficulty : Z) (k : nat) :
  difficulty <= 0 ->
  Py.run (Exam.Block.__init__ (S fuel) index data previous_hash difficulty) k
    = Py.Ok (Exam.Block.mk
               (Exam.Block.mk_attrs index (reading k) data previous_hash 0 difficulty)
               (Exam.Block.calculate_hash
                  (Exam.Block.mk_attrs index (reading k) data previous_hash 0 difficulty)),
             S k) /\
  Py.run (Merkle9chain.Block.__init__ (S fuel) index data previous_hash difficulty) k
    = Py.Ok (Merkle9chain.Block.mk
               (Merkle9chain.Block.mk_attrs index (reading k) data previous_hash 0)
               (Merkle9chain.Block.calculate_hash
                  (Merkle9chain.Block.mk_attrs index (reading k) data previous_hash 0)),
             S k).
Proof.
  intros Hd. split.
  - unfold Exam.Block.__init__, Exam.Block.mine_block. run_io.
    cbn [Exam.Block.difficulty Exam.Block.mine_loop].
    by rewrite mul_nonpos, startswith_empty.
  - unfold Merkle9chain.Block.__init__, Merkle9chain.Block.mine_block. run_io.
    cbn [Merkle9chain.Block.mine_loop].
    by rewrite mul_nonpos, startswith_empty.
Qed.

Lemma block_init_nonpositive_difficulty_witness :
  Exam.Block.nonce
    (match Py.run (@Exam.Block.__init__ Concrete.hasher Concrete.clock 1 7 "x" "0" (-2))
             0%nat with
     | Py.Ok (b, _) => b
     | _ => Concrete.exam_genesis
     end) = 0.
Proof.
  destruct (@block_init_nonpositive_difficulty Concrete.hasher Concrete.clock
              0 7 "x" "0" (-2) 0%nat) as [He _]; [lia|].
  rewrite He. reflexivity.
Defined.

(** ** A network as constructed *)
Section NetworkBuiltFacts.
Context `{Hasher, Clock}.

Lemma exam_chain_init_sound (fuel : nat) (difficulty : Z) (k : nat)
    (bc : Exam.Blockchain.t) (k' : nat) :
  Py.run (Exam.Blockchain.__init__ fuel difficulty) k = Py.Ok (bc, k') ->
  More.exam_sound bc /\ length (Exam.Blockchain.chain bc) = 1%nat /\
  Exam.Blockchain.difficulty bc = difficulty /\ k' = S k.
Proof.
  intros (-> & genesis & -> & _)%exam_chain_init_Ok.
  split; [|done]. intros i p [Hi (c & q & Hc%lookup_lt_Some & _)]. simpl in Hc. lia.
Qed.

(** One replica: nine blocks, no finding, root cached, nine readings. *)
Lemma exam_build_node_Ok (fuel : nat) (difficulty : Z) (k : nat)
    (bc : Exam.Blockchain.t) (k' : nat) :
  Py.run (Exam.Network.build_node fuel difficulty) k = Py.Ok (bc, k') ->
  length (Exam.Blockchain.chain bc) = 9%nat /\
  Exam.Blockchain.difficulty bc = difficulty /\
  Exam.Blockchain.is_chain_valid bc = (true, []) /\
  k' = (k + 9)%nat.
Proof.
  unfold Exam.Network.build_node, mbind, io_bind.
  intros (bc0 & k0 & (Hs0 & Hl0 & Hd0 & ->)%exam_chain_init_sound
            & (bc1 & k1 & Hloop & [-> ->]%ret_Ok)%bind_Ok)%bind_Ok.
  apply (for_Ok _ _
           (fun n bc kk => More.exam_sound bc /\
                           length (Exam.Blockchain.chain bc) = S n /\
                           Exam.Blockchain.difficulty bc = difficulty /\
                           kk = (S k + n)%nat) bc0 (S k) 0%nat) in Hloop.
  - destruct Hloop as (Hs1 & Hl1 & Hd1 & ->).
    unfold Exam.Blockchain.compute_merkle_root at 1 2.
    cbn [snd Exam.Blockchain.chain Exam.Blockchain.difficulty].
    split; [by rewrite Hl1|]. split; [done|]. split; [by apply exam_sound_compute|].
    rewrite range_length. simpl. lia.
  - intros j [d chain root] kk s' kk' n (Hs & Hl & Hd & ->)
      (-> & latest & new_block & Hlast & -> & Hmined)%exam_add_block_Ok.
    cbn [Exam.Blockchain.chain Exam.Blockchain.difficulty Exam.Blockchain.merkle_root]
      in *.
    split; [by eapply exam_sound_snoc|]. split; [|split; [done | lia]].
    rewrite length_app. simpl. lia.
  - repeat split; [done | done | done | lia].
Qed.

Lemma filter_all {A} (P : A -> Prop) `{forall x, Decision (P x)} (l : list A) :
  (forall x, x ∈ l -> P x) -> filter P l = l.
Proof.
  induction l as [|x l IH]; intros Hall; [done|].
  rewrite filter_cons, decide_True by (apply Hall; left).
  f_equal. apply IH. intros y Hy. apply Hall. by right.
Qed.

Lemma filter_none {A} (P : A -> Prop) `{forall x, Decision (P x)} (l : list A) :
  (forall x, x ∈ l -> ~ P x) -> filter P l = [].
Proof.
  induction l as [|x l IH]; intros Hall; [done|].
  rewrite filter_cons, decide_False by (apply Hall; left).
  apply IH. intros y Hy. apply Hall. by right.
Qed.

Lemma exam_network_init_Ok (fuel : nat) (node_count difficulty : Z) (k : nat)
    (net : Exam.Network.t) (k' : nat) :
  Py.run (Exam.Network.__init__ fuel node_count difficulty) k = Py.Ok (net, k') ->
  node_count mod 2 = 1 /\
  length (Exam.Network.nodes net) = Z.to_nat node_count /\
  Exam.Network.difficulty net = difficulty /\
  k' = (k + 9 * Z.to_nat node_count)%nat /\
  forall bc, bc ∈ Exam.Network.nodes net ->
    length (Exam.Blockchain.chain bc) = 9%nat /\
    Exam.Blockchain.difficulty bc = difficulty /\
    Exam.Blockchain.is_chain_valid bc = (true, []).
Proof.
  unfold Exam.Network.__init__.
  destruct (Z.eqb_spec (node_count mod 2) 1) as [Hodd|Heven]; cbn [negb]; [|done].
  unfold mbind, io_bind.
  intros (nodes & k1 & Hloop & [-> ->]%ret_Ok)%bind_Ok.
  apply (for_Ok _ _
           (fun n nodes kk =>
              length nodes = n /\ kk = (k + 9 * n)%nat /\
              forall bc, bc ∈ nodes ->
                length (Exam.Blockchain.chain bc) = 9%nat /\
                Exam.Blockchain.difficulty bc = difficulty /\
                Exam.Blockchain.is_chain_valid bc = (true, [])) [] k 0%nat) in Hloop.
  - destruct Hloop as (Hlen & -> & Hall). rewrite range_length in *.
    replace (node_count - 0) with node_count in * by lia. simpl in Hlen.
    cbn [Exam.Network.nodes Exam.Network.difficulty]. repeat split; try done.
    all: by apply Hall.
  - intros _ nodes0 kk s' kk' n (Hlen & -> & Hall)
      (bc & k2 & (Hl & Hd & Hv & ->)%exam_build_node_Ok & [-> ->]%ret_Ok)%bind_Ok.
    split; [rewrite length_app; simpl; lia|]. split; [lia|].
    intros bc' [Hin|Hin]%elem_of_app; [by apply Hall|].
    apply list_elem_of_singleton in Hin. by subst bc'.
  - split; [done|]. split; [lia|]. intros bc Hin. by apply elem_of_nil in Hin.
Qed.

End NetworkBuiltFacts.

(** X8. When [Network(node_count, difficulty)] returns, the count is odd,
    the network has [node_count] replicas, each a chain of nine blocks at
    that difficulty on which validation returns [True] and prints nothing;
    so [validate_all] is all [True], and the vote is [True] when there is
    a replica at all.  The clock was read nine times per replica. *)
Theorem network_init_all_valid `{Hasher, Clock} (fuel : nat) (node_count difficulty : Z)
    (k : nat) (net : Exam.Network.t) (k' : nat) :
  Py.run (Exam.Network.__init__ fuel node_count difficulty) k = Py.Ok (net, k') ->
  node_count mod 2 = 1 /\
  length (Exam.Network.nodes net) = Z.to_nat node_count /\
  Exam.Network.difficulty net = difficulty /\
  k' = (k + 9 * Z.to_nat node_count)%nat /\
  (forall bc, bc ∈ Exam.Network.nodes net ->
     length (Exam.Blockchain.chain bc) = 9%nat /\
     Exam.Blockchain.difficulty bc = difficulty /\
     Exam.Blockchain.is_chain_valid bc = (true, [])) /\
  Exam.Network.validate_all net = repeat true (Z.to_nat node_count) /\
  (0 < node_count -> Exam.Network.majority_vote net = true).
Proof.
  intros (Hodd & Hlen & Hdiff & Hk & Hall)%exam_network_init_Ok.
  split; [done|]. split; [done|]. split; [done|]. split; [done|]. split; [done|].
  split.
  - unfold Exam.Network.validate_all. rewrite <- Hlen.
    clear Hlen. induction (Exam.Network.nodes net) as [|bc l IH]; [done|].
    cbn [map length repeat]. f_equal.
    + destruct (Hall bc) as (_ & _ & ->); [left | done].
    + apply IH. intros bc' Hin. apply Hall. by right.
  - intros Hpos. unfold Exam.Network.majority_vote, Exam.Network.valides.
    rewrite filter_all.
    + rewrite Hlen.
      destruct (Z.gtb_spec (Z.of_nat (Z.to_nat node_count))
                           (Z.of_nat (Z.to_nat node_count) / 2)) as [|Hle]; [done|].
      pose proof (Z.div_mod (Z.of_nat (Z.to_nat node_count)) 2 ltac:(lia)).
      pose proof (Z.mod_pos_bound (Z.of_nat (Z.to_nat node_count)) 2 ltac:(lia)). lia.
    + intros bc Hin. by destruct (Hall bc Hin) as (_ & _ & ->).
Qed.

(** [Network(1, 1)]: one replica of nine blocks, mined with a leading
    zero, after nine readings of the clock. *)
Lemma network_init_all_valid_witness :
  @Exam.Network.validate_all Concrete.hasher Concrete2.exam_network_1_1 = [true] /\
  @Exam.Network.majority_vote Concrete.hasher Concrete2.exam_network_1_1 = true.
Proof.
  destruct (@network_init_all_valid Concrete.hasher Concrete.clock 64 1 1 0%nat
              Concrete2.exam_network_1_1 9%nat)
    as (_ & _ & _ & _ & _ & Hall & Hvote).
  - vm_compute. reflexivity.
  - split; [exact Hall | apply Hvote; lia].
Defined.

(** X9. The vote for any number of replicas, odd or even: it is [True]
    exactly when the [True] entries of [validate_all] are more than half
    of the replicas, so a tie gives [False], and so does a network of no
    replica. *)
Theorem majority_vote_counts `{Hasher} (self : Exam.Network.t) :
  let n := Z.of_nat (length (Exam.Network.nodes self)) in
  let valid :=
    Z.of_nat (length (filter (fun v => v = true) (Exam.Network.validate_all self))) in
  length (Exam.Network.validate_all self) = length (Exam.Network.nodes self) /\
  (Exam.Network.majority_vote self = true <-> 2 * valid > n) /\
  (2 * valid = n -> Exam.Network.majority_vote self = false) /\
  (Exam.Network.nodes self = [] -> Exam.Network.majority_vote self = false).
Proof.
  intros n valid.
  assert (Hvalid : Exam.Network.valides self = valid).
  { unfold Exam.Network.valides, valid, Exam.Network.validate_all. f_equal.
    induction (Exam.Network.nodes self) as [|bc l IH]; [done|].
    cbn [map]. rewrite !filter_cons.
    destruct (decide (fst (Exam.Blockchain.is_chain_valid bc) = true));
      cbn [length]; by rewrite IH. }
  assert (Hle : 0 <= valid <= n).
  { unfold valid, n. pose proof (length_filter (fun v => v = true)
      (Exam.Network.validate_all self)) as Hf.
    unfold Exam.Network.validate_all in *. rewrite length_map in Hf. lia. }
  unfold Exam.Network.majority_vote. rewrite Hvalid. fold n.
  pose proof (Z.div_mod n 2 ltac:(lia)).
  pose proof (Z.mod_pos_bound n 2 ltac:(lia)).
  split; [unfold Exam.Network.validate_all; apply length_map|].
  destruct (Z.gtb_spec valid (n / 2)) as [Hgt|Hngt].
  - split; [split; [lia | done]|]. split; [lia|].
    intros Hnil. unfold n in *. rewrite Hnil in *. simpl in *. lia.
  - split; [split; [done | lia]|]. done.
Qed.

(** ** What validation sees after a corruption *)
Section TamperFacts.
Context `{Hasher}.

Lemma exam_corrupt_node_chain (blocks : list Z) (bc : Exam.Blockchain.t) :
  Exam.Blockchain.chain (Exam.Network.corrupt_node blocks bc)
    = Exam.Network.corrupt_blocks (Exam.Blockchain.chain bc) blocks /\
  Exam.Blockchain.difficulty (Exam.Network.corrupt_node blocks bc)
    = Exam.Blockchain.difficulty bc.
Proof. done. Qed.

(** The findings of a corrupted replica, read on the original chain. *)
Lemma exam_corrupt_node_finding (blocks : list Z) (bc : Exam.Blockchain.t)
    (i : nat) (p : problem) :
  Spec.exam_finding (Exam.Network.corrupt_node blocks bc) i p <->
  (1 <= i)%nat /\
  exists current prev,
    Exam.Blockchain.chain bc !! i = Some current /\
    Exam.Blockchain.chain bc !! (i - 1)%nat = Some prev /\
    let current' :=
      (if decide (Z.of_nat i ∈ blocks) then Exam.Network.falsify else id) current in
    let prev' :=
      (if decide (Z.of_nat (i - 1)%nat ∈ blocks) then Exam.Network.falsify else id) prev in
    match p with
    | HashMismatch => Exam.Block.hash current' <> Exam.Block.calculate_hash current'
    | LinkMismatch => Exam.Block.previous_hash current' <> Exam.Block.hash prev'
    | DifficultyUnmet =>
        Py.startswith (Exam.Block.hash current')
          (Py.mul "0" (Exam.Blockchain.difficulty bc)) = false
    end.
Proof.
  unfold Spec.exam_finding, Spec.exam_fails_at.
  destruct (exam_corrupt_node_chain blocks bc) as [-> ->].
  rewrite !exam_corrupt_blocks_lookup. split.
  - intros (Hi & c' & q' & Hc & Hq & Hbad). split; [done|].
    destruct (Exam.Blockchain.chain bc !! i) as [current|]; [|done].
    destruct (Exam.Blockchain.chain bc !! (i - 1)%nat) as [prev|]; [|done].
    cbn [fmap option_fmap option_map] in Hc, Hq.
    injection Hc as <-. injection Hq as <-. by exists current, prev.
  - intros (Hi & current & prev & -> & -> & Hbad). split; [done|].
    eexists _, _. split; [reflexivity|]. split; [reflexivity|]. exact Hbad.
Qed.

Lemma exam_falsify_hash (b : Exam.Block.t) :
  Exam.Block.hash (Exam.Network.falsify b)
    = Exam.Block.calculate_hash (Exam.Network.falsify b) /\
  Exam.Block.previous_hash (Exam.Network.falsify b) = Exam.Block.previous_hash b.
Proof. by destruct b as [[]]. Qed.

(** A corrupted replica is consistent with its cache, so its validation
    is decided by the findings alone. *)
Lemma exam_corrupt_node_valid (blocks : list Z) (bc : Exam.Blockchain.t) :
  fst (Exam.Blockchain.is_chain_valid (Exam.Network.corrupt_node blocks bc)) = true <->
  More.exam_sound (Exam.Network.corrupt_node blocks bc).
Proof.
  rewrite exam_is_chain_valid_true. split; [by intros [? _]|].
  intros Hs. split; [done|]. by destruct (exam_corrupt_node_spec blocks bc) as (_ & _ & ? & _).
Qed.

End TamperFacts.

(** X10. The digest check never catches a corruption: at a targeted
    position the stored hash of the corrupted replica is the digest of the
    block, so no hash mismatch is found there, and at the other positions
    a hash mismatch is found exactly when there was one before. *)
Theorem corrupt_node_passes_hash_check `{Hasher} (blocks : list Z)
    (bc : Exam.Blockchain.t) (i : nat) :
  (Z.of_nat i ∈ blocks ->
   ~ Spec.exam_finding (Exam.Network.corrupt_node blocks bc) i HashMismatch) /\
  (Z.of_nat i ∉ blocks ->
   (Spec.exam_finding (Exam.Network.corrupt_node blocks bc) i HashMismatch <->
    Spec.exam_finding bc i HashMismatch)).
Proof.
  rewrite exam_corrupt_node_finding. split.
  - intros Hin (_ & current & prev & _ & _ & Hbad). cbn zeta in Hbad.
    rewrite decide_True in Hbad by done.
    by destruct (exam_falsify_hash current) as [? _].
  - intros Hout. unfold Spec.exam_finding, Spec.exam_fails_at.
    split; intros (Hi & current & prev & Hc & Hq & Hbad); (split; [done|]);
      exists current, prev; (split; [done|]); (split; [done|]);
      cbn zeta in *; by rewrite decide_False in * by done.
Qed.

Lemma corrupt_node_passes_hash_check_witness :
  ~ @Spec.exam_finding Concrete.hasher
      (@Exam.Network.corrupt_node Concrete.hasher [1] Concrete.exam_chain3)
      1 HashMismatch.
Proof.
  apply (@corrupt_node_passes_hash_check Concrete.hasher [1] Concrete.exam_chain3 1).
  by left.
Defined.

(** X11. A corruption is caught at the block after a targeted one: when
    the block at position [j] is targeted, its digest changes with the
    data, and the block at [j + 1] was linked to it, the corrupted replica
    has a link finding at [j + 1] and its validation returns [False]. *)
Theorem corrupt_node_breaks_next_link `{Hasher} (blocks : list Z)
    (bc : Exam.Blockchain.t) (j : nat) (b next : Exam.Block.t) :
  Z.of_nat j ∈ blocks ->
  Exam.Blockchain.chain bc !! j = Some b ->
  Exam.Blockchain.chain bc !! S j = Some next ->
  Exam.Block.previous_hash next = Exam.Block.hash b ->
  Exam.Block.hash (Exam.Network.falsify b) <> Exam.Block.hash b ->
  Spec.exam_finding (Exam.Network.corrupt_node blocks bc) (S j) LinkMismatch /\
  fst (Exam.Blockchain.is_chain_valid (Exam.Network.corrupt_node blocks bc)) = false.
Proof.
  intros Hin Hb Hnext Hlink Hchanged.
  assert (Hfinding : Spec.exam_finding (Exam.Network.corrupt_node blocks bc)
                       (S j) LinkMismatch).
  { apply exam_corrupt_node_finding. split; [lia|].
    exists next, b. replace (S j - 1)%nat with j by lia.
    split; [done|]. split; [done|]. cbn zeta.
    rewrite (decide_True (P := Z.of_nat j ∈ blocks)) by done.
    assert (Hprev : forall g : Exam.Block.t -> Exam.Block.t,
              g = Exam.Network.falsify \/ g = id ->
              Exam.Block.previous_hash (g next) = Exam.Block.previous_hash next).
    { intros g [->| ->]; [by destruct (exam_falsify_hash next) | done]. }
    rewrite Hprev by (destruct (decide _); auto). congruence. }
  split; [done|].
  destruct (fst (Exam.Blockchain.is_chain_valid _)) eqn:Hv; [|done].
  apply exam_corrupt_node_valid in Hv. by apply Hv in Hfinding.
Qed.

(** Block 1 of the chain of three falsified: block 2 no longer links. *)
Lemma corrupt_node_breaks_next_link_witness :
  fst (@Exam.Blockchain.is_chain_valid Concrete.hasher
         (@Exam.Network.corrupt_node Concrete.hasher [1] Concrete.exam_chain3)) = false.
Proof.
  apply (@corrupt_node_breaks_next_link Concrete.hasher [1] Concrete.exam_chain3 1
           Concrete.exam_block1 Concrete.exam_block2).
  - by left.
  - reflexivity.
  - reflexivity.
  - reflexivity.
  - vm_compute. discriminate.
Defined.

(** X12. A corruption of the last block alone is caught by the prefix
    check or not at all: on a chain with no finding whose last position
    [j] is the one targeted, validation of the corrupted replica returns
    [True] exactly when [j] is 0, a chain of the genesis block only, or
    the new digest happens to start with the prefix. *)
Theorem corrupt_last_block_detection `{Hasher} (bc : Exam.Blockchain.t) (j : nat)
    (b : Exam.Block.t) :
  More.exam_sound bc ->
  length (Exam.Blockchain.chain bc) = S j ->
  Exam.Blockchain.chain bc !! j = Some b ->
  (fst (Exam.Blockchain.is_chain_valid
          (Exam.Network.corrupt_node [Z.of_nat j] bc)) = true <->
   j = 0%nat \/
   Py.startswith (Exam.Block.hash (Exam.Network.falsify b))
     (Py.mul "0" (Exam.Blockchain.difficulty bc)) = true).
Proof.
  intros Hsound Hlen Hb. rewrite exam_corrupt_node_valid.
  assert (Hmem : forall i : nat, Z.of_nat i ∈ [Z.of_nat j] <-> i = j).
  { intros i. rewrite list_elem_of_singleton. lia. }
  split.
  - intros Hs. destruct j as [|j]; [by left|]. right.
    destruct (Py.startswith _ _) eqn:Hp; [done|]. exfalso.
    destruct (lookup_lt_is_Some_2 (Exam.Blockchain.chain bc) j) as [prev Hprev]; [lia|].
    apply (Hs (S j) DifficultyUnmet). apply exam_corrupt_node_finding.
    split; [lia|]. exists b, prev. replace (S j - 1)%nat with j by lia.
    split; [done|]. split; [done|]. cbn zeta.
    by rewrite (decide_True (P := Z.of_nat (S j) ∈ [Z.of_nat (S j)])) by (by apply Hmem).
  - intros Hok i p Hf. apply exam_corrupt_node_finding in Hf
      as (Hi & current & prev & Hc & Hq & Hbad). cbn zeta in Hbad.
    assert (Hprev_out : Z.of_nat (i - 1)%nat ∉ [Z.of_nat j]).
    { rewrite Hmem. apply lookup_lt_Some in Hc. lia. }
    rewrite (decide_False (P := Z.of_nat (i - 1)%nat ∈ _)) in Hbad by done.
    destruct (decide (Z.of_nat i ∈ [Z.of_nat j])) as [Hin|Hout].
    + apply Hmem in Hin. subst i. assert (current = b) as -> by congruence.
      destruct Hok as [->|Hok]; [lia|].
      destruct (exam_falsify_hash b) as [Hh Hph].
      destruct p; [done | | congruence].
      rewrite Hph in Hbad. apply (Hsound j LinkMismatch).
      split; [done|]. by exists b, prev.
    + apply (Hsound i p). split; [done|]. by exists current, prev.
Qed.

(** The genesis block of a fresh chain falsified: validation of the
    corrupted replica returns [True]. *)
Lemma corrupt_last_block_detection_witness :
  fst (@Exam.Blockchain.is_chain_valid Concrete.hasher
         (@Exam.Network.corrupt_node Concrete.hasher [0] Concrete.exam_fresh)) = true.
Proof.
  apply (@corrupt_last_block_detection Concrete.hasher Concrete.exam_fresh 0
           Concrete.exam_genesis).
  - intros i p [Hi (c & q & Hc%lookup_lt_Some & _)]. simpl in Hc. lia.
  - reflexivity.
  - reflexivity.
  - by left.
Defined.

(** ** Batches of corruptions *)
Section BatchFacts.
Context `{Hasher}.

Lemma elem_of_range (a b x : Z) : x ∈ Py.range a b <-> a <= x < b.
Proof.
  unfold Py.range. rewrite list_elem_of_In, in_map_iff. split.
  - intros (i & <- & Hi%in_seq). lia.
  - intros Hx. exists (Z.to_nat (x - a)). split; [lia|]. apply in_seq. lia.
Qed.

Lemma exam_network_eq (n1 n2 : Exam.Network.t) :
  Exam.Network.nodes n1 = Exam.Network.nodes n2 ->
  Exam.Network.difficulty n1 = Exam.Network.difficulty n2 -> n1 = n2.
Proof. destruct n1, n2. simpl. by intros -> ->. Qed.

(** The inner loop depends on which positions are named, not on their
    order or repetitions. *)
Lemma exam_corrupt_node_ext (b1 b2 : list Z) (bc : Exam.Blockchain.t) :
  (forall x, x ∈ b1 <-> x ∈ b2) ->
  Exam.Network.corrupt_node b1 bc = Exam.Network.corrupt_node b2 bc.
Proof.
  intros Hsame. unfold Exam.Network.corrupt_node.
  replace (Exam.Network.corrupt_blocks (Exam.Blockchain.chain bc) b1)
    with (Exam.Network.corrupt_blocks (Exam.Blockchain.chain bc) b2); [done|].
  apply list_eq. intros j. rewrite !exam_corrupt_blocks_lookup.
  destruct (decide (Z.of_nat j ∈ b2)) as [Hin|Hout].
  - by rewrite decide_True by (by apply Hsame).
  - by rewrite decide_False by (by rewrite Hsame).
Qed.

(** The postcondition of a corruption in range, from the code. *)
Lemma exam_corrupt_nodes_corrupted (self : Exam.Network.t) (indices blocks : list Z) :
  (forall idx, idx ∈ indices ->
     0 <= idx < Z.of_nat (length (Exam.Network.nodes self))) ->
  exists self',
    Exam.Network.corrupt_nodes self indices blocks = (self', Py.Ok tt) /\
    Spec.exam_network_corrupted indices blocks self self'.
Proof.
  intros Hrange.
  destruct (exam_corrupt_nodes_in_range self indices blocks Hrange) as [Hok Hnodes].
  destruct (exam_corrupt_nodes_frame self indices blocks) as [Hlen Hdiff].
  destruct (Exam.Network.corrupt_nodes self indices blocks) as [self' r].
  cbn [fst snd] in *. subst r. exists self'. split; [done|].
  split; [done|]. split; [done|].
  intros i bc Hi. rewrite Hnodes, Hi. cbn [fmap option_fmap option_map]. split.
  - intros Hout. by rewrite decide_False.
  - intros Hin. rewrite decide_True by done.
    eexists. split; [done|]. apply exam_corrupt_node_spec.
Qed.

(** [run_attack_51]'s loop of one-replica calls is one call on the list. *)
Lemma exam_attack_loop (self : Exam.Network.t) (to_corrupt : list Z) :
  Exam.Network.run_attack_51_loop self to_corrupt
  = Exam.Network.corrupt_nodes self to_corrupt (Py.range 1 9).
Proof.
  revert self. induction to_corrupt as [|idx rest IH]; intros self; [done|].
  cbn [Exam.Network.run_attack_51_loop Exam.Network.corrupt_nodes].
  destruct (Py.index (Exam.Network.nodes self) idx); [apply IH | done..].
Qed.

End BatchFacts.

(** X13. With every replica index in range, a corruption depends on
    which replicas and which block positions are named, not on their order
    or on repetitions; and repeating the call changes nothing more. *)
Theorem corrupt_nodes_order_and_repeats `{Hasher} (self : Exam.Network.t)
    (indices1 indices2 blocks1 blocks2 : list Z) :
  (forall idx, idx ∈ indices1 ->
     0 <= idx < Z.of_nat (length (Exam.Network.nodes self))) ->
  (forall x, x ∈ indices1 <-> x ∈ indices2) ->
  (forall x, x ∈ blocks1 <-> x ∈ blocks2) ->
  Exam.Network.corrupt_nodes self indices1 blocks1
    = Exam.Network.corrupt_nodes self indices2 blocks2 /\
  Exam.Network.corrupt_nodes
    (fst (Exam.Network.corrupt_nodes self indices1 blocks1)) indices1 blocks1
    = Exam.Network.corrupt_nodes self indices1 blocks1.
Proof.
  intros Hrange Hidx Hblocks.
  assert (Hrange2 : forall idx, idx ∈ indices2 ->
            0 <= idx < Z.of_nat (length (Exam.Network.nodes self))).
  { intros idx Hin. apply Hrange. by apply Hidx. }
  destruct (exam_corrupt_nodes_in_range self indices1 blocks1 Hrange) as [Hok1 Hn1].
  destruct (exam_corrupt_nodes_in_range self indices2 blocks2 Hrange2) as [Hok2 Hn2].
  destruct (exam_corrupt_nodes_frame self indices1 blocks1) as [Hlen1 Hdiff1].
  destruct (exam_corrupt_nodes_frame self indices2 blocks2) as [Hlen2 Hdiff2].
  split.
  - apply injective_projections; [|congruence].
    apply exam_network_eq; [|congruence].
    apply list_eq. intros i. rewrite Hn1, Hn2.
    destruct (Exam.Network.nodes self !! i) as [bc|]; [|done].
    cbn [fmap option_fmap option_map].
    destruct (decide (Z.of_nat i ∈ indices2)) as [Hin|Hout].
    + rewrite decide_True by (by apply Hidx). f_equal.
      by apply exam_corrupt_node_ext.
    + by rewrite decide_False by (by rewrite Hidx).
  - set (self1 := fst (Exam.Network.corrupt_nodes self indices1 blocks1)) in *.
    assert (Hrange1 : forall idx, idx ∈ indices1 ->
              0 <= idx < Z.of_nat (length (Exam.Network.nodes self1))).
    { intros idx Hin. rewrite Hlen1. by apply Hrange. }
    destruct (exam_corrupt_nodes_in_range self1 indices1 blocks1 Hrange1) as [Hok Hn].
    destruct (exam_corrupt_nodes_frame self1 indices1 blocks1) as [Hlen Hdiff].
    apply injective_projections; [|congruence].
    apply exam_network_eq; [|exact Hdiff].
    apply list_eq. intros i. rewrite Hn. fold self1. rewrite Hn1.
    destruct (Exam.Network.nodes self !! i) as [bc|]; [|done].
    cbn [fmap option_fmap option_map].
    destruct (decide (Z.of_nat i ∈ indices1)); [|done].
    by rewrite exam_corrupt_node_idem.
Qed.

Lemma corrupt_nodes_order_and_repeats_witness :
  @Exam.Network.corrupt_nodes Concrete.hasher Concrete.exam_net3 [2; 0; 2] [7; 1; 1]
  = @Exam.Network.corrupt_nodes Concrete.hasher Concrete.exam_net3 [0; 2] [1; 7].
Proof.
  apply (@corrupt_nodes_order_and_repeats Concrete.hasher Concrete.exam_net3
           [2; 0; 2] [0; 2] [7; 1; 1] [1; 7]).
  - intros idx Hin. simpl. rewrite !elem_of_cons in Hin.
    destruct Hin as [->|[->|[->|Hin]]]; [lia..|]. by apply elem_of_nil in Hin.
  - intros x. rewrite !elem_of_cons, !elem_of_nil. tauto.
  - intros x. rewrite !elem_of_cons, !elem_of_nil. tauto.
Defined.

(** X14. A negative replica index counts from the end, as list indexing
    does: an index in [-n, 0) targets replica [n + index]; below [-n] the
    call raises [IndexError] and the network is as it was.  A negative
    block position is skipped by the guard. *)
Theorem corrupt_nodes_negative_index `{Hasher} (self : Exam.Network.t) (idx : Z)
    (blocks : list Z) :
  let n := Z.of_nat (length (Exam.Network.nodes self)) in
  (- n <= idx < 0 ->
   Exam.Network.corrupt_nodes self [idx] blocks
     = Exam.Network.corrupt_nodes self [n + idx] blocks /\
   snd (Exam.Network.corrupt_nodes self [idx] blocks) = Py.Ok tt) /\
  (idx < - n ->
   Exam.Network.corrupt_nodes self [idx] blocks = (self, Py.Raise Py.IndexError)) /\
  (forall (chain : list Exam.Block.t) (bidx : Z),
     bidx < 0 -> Exam.Network.corrupt_blocks chain (bidx :: blocks)
                 = Exam.Network.corrupt_blocks chain blocks).
Proof.
  intros n. split; [|split].
  - intros Hneg. cbn [Exam.Network.corrupt_nodes].
    rewrite (index_in_range _ (n + idx)) by (fold n; lia).
    unfold Py.index. fold n.
    destruct (Z.leb_spec 0 idx), (Z.ltb_spec idx n), (Z.leb_spec (- n) idx),
      (Z.ltb_spec idx 0); cbn [andb]; try lia; done.
  - intros Hlow. cbn [Exam.Network.corrupt_nodes]. unfold Py.index. fold n.
    destruct (Z.leb_spec 0 idx), (Z.ltb_spec idx n), (Z.leb_spec (- n) idx),
      (Z.ltb_spec idx 0); cbn [andb]; try lia; done.
  - intros chain bidx Hneg. cbn [Exam.Network.corrupt_blocks].
    destruct (Z.leb_spec 0 bidx); [lia | done].
Qed.

(** Index -1 on three replicas is replica 2. *)
Lemma corrupt_nodes_negative_index_witness :
  @Exam.Network.corrupt_nodes Concrete.hasher Concrete.exam_net3 [-1] [1]
  = @Exam.Network.corrupt_nodes Concrete.hasher Concrete.exam_net3 [2] [1].
Proof.
  apply (@corrupt_nodes_negative_index Concrete.hasher Concrete.exam_net3 (-1) [1]).
  simpl. lia.
Defined.

(** X15. [run_attack_51] is one corruption of the replicas 0 to
    [n // 2] at the block positions 1 to 8.  On a network of no replica it
    raises [IndexError]; otherwise it returns, the replicas up to [n // 2]
    are corrupted and the others are untouched. *)
Theorem run_attack_51_is_one_batch `{Hasher} (self : Exam.Network.t) :
  let half := Z.of_nat (length (Exam.Network.nodes self)) / 2 in
  Exam.Network.run_attack_51 self
    = Exam.Network.corrupt_nodes self (Py.range 0 (half + 1)) (Py.range 1 9) /\
  (Exam.Network.nodes self = [] ->
   Exam.Network.run_attack_51 self = (self, Py.Raise Py.IndexError)) /\
  (Exam.Network.nodes self <> [] ->
   exists self',
     Exam.Network.run_attack_51 self = (self', Py.Ok tt) /\
     Spec.exam_network_corrupted (Py.range 0 (half + 1)) (Py.range 1 9) self self').
Proof.
  intros half. unfold Exam.Network.run_attack_51. fold half.
  rewrite exam_attack_loop. split; [done|]. split.
  - intros Hnil. subst half. destruct self as [nodes d].
    cbn [Exam.Network.nodes] in *. subst nodes. reflexivity.
  - intros Hne. apply exam_corrupt_nodes_corrupted.
    intros idx Hin%elem_of_range.
    assert (0 < Z.of_nat (length (Exam.Network.nodes self))).
    { destruct (Exam.Network.nodes self); [done | simpl; lia]. }
    pose proof (Z.div_mod (Z.of_nat (length (Exam.Network.nodes self))) 2 ltac:(lia)).
    pose proof (Z.mod_pos_bound (Z.of_nat (length (Exam.Network.nodes self))) 2
                  ltac:(lia)).
    unfold half in *. lia.
Qed.

Lemma run_attack_51_is_one_batch_witness :
  exists self',
    @Exam.Network.run_attack_51 Concrete.hasher Concrete.exam_net3 = (self', Py.Ok tt) /\
    @Spec.exam_network_corrupted Concrete.hasher (Py.range 0 2) (Py.range 1 9)
      Concrete.exam_net3 self'.
Proof.
  apply (@run_attack_51_is_one_batch Concrete.hasher Concrete.exam_net3).
  discriminate.
Defined.

(** X16. The attack flips the vote when it is detected: on a network
    with a replica, if validation returns [False] on each of the replicas
    0 to [n // 2] once corrupted at the positions 1 to 8, the vote after
    [run_attack_51] is [False]. *)
Theorem run_attack_51_flips_vote `{Hasher} (self : Exam.Network.t) :
  Exam.Network.nodes self <> [] ->
  (forall (i : nat) bc,
     Z.of_nat i <= Z.of_nat (length (Exam.Network.nodes self)) / 2 ->
     Exam.Network.nodes self !! i = Some bc ->
     fst (Exam.Blockchain.is_chain_valid
            (Exam.Network.corrupt_node (Py.range 1 9) bc)) = false) ->
  Exam.Network.majority_vote (fst (Exam.Network.run_attack_51 self)) = false.
Proof.
  intros Hne Hdetected.
  set (n := length (Exam.Network.nodes self)).
  set (half := Z.of_nat n / 2).
  assert (Hn : (0 < n)%nat).
  { unfold n. destruct (Exam.Network.nodes self); [done | simpl; lia]. }
  pose proof (Z.div_mod (Z.of_nat n) 2 ltac:(lia)) as Hdm.
  pose proof (Z.mod_pos_bound (Z.of_nat n) 2 ltac:(lia)) as Hmb. fold half in Hdm.
  unfold Exam.Network.run_attack_51. fold n half. rewrite exam_attack_loop.
  assert (Hrange : forall idx, idx ∈ Py.range 0 (half + 1) ->
            0 <= idx < Z.of_nat (length (Exam.Network.nodes self))).
  { intros idx Hin%elem_of_range. fold n. lia. }
  destruct (exam_corrupt_nodes_in_range self _ (Py.range 1 9) Hrange) as [_ Hnodes].
  destruct (exam_corrupt_nodes_frame self (Py.range 0 (half + 1)) (Py.range 1 9))
    as [Hlen _].
  set (self' := fst (Exam.Network.corrupt_nodes self _ _)) in *.
  set (m := Z.to_nat (half + 1)).
  unfold Exam.Network.majority_vote, Exam.Network.valides.
  rewrite <- (take_drop m (Exam.Network.nodes self')) at 1.
  rewrite filter_app, length_app, (filter_none _ (take m _)).
  - pose proof (length_filter
        (fun bc => fst (Exam.Blockchain.is_chain_valid bc) = true)
        (drop m (Exam.Network.nodes self'))) as Hf.
    rewrite length_drop, Hlen in Hf. fold n in Hf. rewrite Hlen. fold n half.
    cbn [length]. 
    destruct (Z.gtb_spec
                (Z.of_nat (0 + length (filter
                   (fun bc => fst (Exam.Blockchain.is_chain_valid bc) = true)
                   (drop m (Exam.Network.nodes self'))))) half) as [Hgt|]; [|done].
    exfalso. unfold m in *. lia.
  - intros bc (i & Hi & Hlt)%elem_of_take. rewrite Hnodes in Hi.
    destruct (Exam.Network.nodes self !! i) as [bc0|] eqn:Hbc0; [|done].
    cbn [fmap option_fmap option_map] in Hi.
    rewrite decide_True in Hi by (apply elem_of_range; unfold m in Hlt; lia).
    injection Hi as <-. rewrite (Hdetected i bc0); [done | | done].
    fold n half. unfold m in Hlt. lia.
Qed.

(** Three replicas of the chain of three: replicas 0 and 1 are corrupted
    at the positions 1 and 2 and fail, the vote is [False]. *)
Lemma run_attack_51_flips_vote_witness :
  @Exam.Network.majority_vote Concrete.hasher
    (fst (@Exam.Network.run_attack_51 Concrete.hasher Concrete.exam_net3)) = false.
Proof.
  apply (@run_attack_51_flips_vote Concrete.hasher Concrete.exam_net3).
  - discriminate.
  - intros i bc _ Hbc.
    assert (Hin : bc ∈ Exam.Network.nodes Concrete.exam_net3)
      by (apply list_elem_of_lookup; eauto).
    assert (bc = Concrete.exam_chain3) as ->.
    { cbn [Concrete.exam_net3 Exam.Network.nodes] in Hin.
      rewrite !elem_of_cons in Hin.
      destruct Hin as [->|[->|[->|Hin]]]; [done..|]. by apply elem_of_nil in Hin. }
    vm_compute. reflexivity.
Defined.

(** ** [merkle9chain.py]: [falsify_block] *)
Section FalsifyBlockFacts.
Context `{Hasher}.

Lemma index_too_small {A} (l : list A) (i : Z) :
  i < - Z.of_nat (length l) -> Py.index l i = Py.Raise Py.IndexError.
Proof.
  intros Hi. unfold Py.index.
  destruct (Z.leb_spec 0 i), (Z.ltb_spec i (Z.of_nat (length l))),
    (Z.leb_spec (- Z.of_nat (length l)) i), (Z.ltb_spec i 0); simpl; try lia; done.
Qed.

Lemma index_from_end {A} (l : list A) (i : Z) :
  - Z.of_nat (length l) <= i < 0 ->
  Py.index l i = Py.index l (Z.of_nat (length l) + i).
Proof.
  intros Hi. rewrite (index_in_range l (Z.of_nat (length l) + i)) by lia.
  unfold Py.index.
  destruct (Z.leb_spec 0 i), (Z.ltb_spec i (Z.of_nat (length l))),
    (Z.leb_spec (- Z.of_nat (length l)) i), (Z.ltb_spec i 0); simpl; try lia; done.
Qed.

Lemma m9_falsify_block_length (bc : Merkle9chain.Blockchain.t) (indices : list Z) :
  length (Merkle9chain.Blockchain.chain
            (fst (Merkle9chain.Blockchain.falsify_block bc indices)))
  = length (Merkle9chain.Blockchain.chain bc).
Proof.
  revert bc. induction indices as [|idx rest IH]; intros bc;
    cbn [Merkle9chain.Blockchain.falsify_block]; [done|].
  destruct (Py.index (Merkle9chain.Blockchain.chain bc) idx); [|done..].
  rewrite IH. cbn [Merkle9chain.Blockchain.chain]. apply length_alter.
Qed.

Lemma m9_falsify_block_app (bc : Merkle9chain.Blockchain.t) (pre rest : list Z) :
  Merkle9chain.Blockchain.falsify_block bc (pre ++ rest)
  = match Merkle9chain.Blockchain.falsify_block bc pre with
    | (bc', Py.Ok _) => Merkle9chain.Blockchain.falsify_block bc' rest
    | stop => stop
    end.
Proof.
  revert bc. induction pre as [|idx pre IH]; intros bc;
    cbn [app Merkle9chain.Blockchain.falsify_block]; [done|].
  destruct (Py.index (Merkle9chain.Blockchain.chain bc) idx); [apply IH | done..].
Qed.

Lemma m9_falsify_previous_hash (g : Merkle9chain.Block.t -> Merkle9chain.Block.t)
    (b : Merkle9chain.Block.t) :
  g = Merkle9chain.Blockchain.falsify \/ g = id ->
  Merkle9chain.Block.previous_hash (g b) = Merkle9chain.Block.previous_hash b.
Proof. intros [->| ->]; [by destruct b as [[]] | done]. Qed.

(** The findings after a falsification in range, read on the original
    chain. *)
Lemma m9_falsify_block_finding (bc : Merkle9chain.Blockchain.t) (indices : list Z)
    (i : nat) (p : problem) :
  (forall idx, idx ∈ indices ->
     0 <= idx < Z.of_nat (length (Merkle9chain.Blockchain.chain bc))) ->
  Spec.m9_finding (fst (Merkle9chain.Blockchain.falsify_block bc indices)) i p <->
  (1 <= i)%nat /\
  exists current previous,
    Merkle9chain.Blockchain.chain bc !! i = Some current /\
    Merkle9chain.Blockchain.chain bc !! (i - 1)%nat = Some previous /\
    let current' :=
      (if decide (Z.of_nat i ∈ indices)
       then Merkle9chain.Blockchain.falsify else id) current in
    let previous' :=
      (if decide (Z.of_nat (i - 1)%nat ∈ indices)
       then Merkle9chain.Blockchain.falsify else id) previous in
    match p with
    | HashMismatch =>
        Merkle9chain.Block.hash current' <> Merkle9chain.Block.calculate_hash current'
    | LinkMismatch =>
        Merkle9chain.Block.previous_hash current' <> Merkle9chain.Block.hash previous'
    | DifficultyUnmet =>
        Py.startswith (Merkle9chain.Block.hash current')
          (Py.mul "0" (Merkle9chain.Blockchain.difficulty bc)) = false
    end.
Proof.
  intros Hrange.
  destruct (m9_falsify_block_in_range bc indices Hrange) as (_ & _ & Hdiff & Hchain).
  unfold Spec.m9_finding, Spec.m9_fails_at. rewrite Hdiff, !Hchain. split.
  - intros (Hi & c' & q' & Hc & Hq & Hbad). split; [done|].
    destruct (Merkle9chain.Blockchain.chain bc !! i) as [current|]; [|done].
    destruct (Merkle9chain.Blockchain.chain bc !! (i - 1)%nat) as [previous|]; [|done].
    cbn [fmap option_fmap option_map] in Hc, Hq.
    injection Hc as <-. injection Hq as <-. by exists current, previous.
  - intros (Hi & current & previous & -> & -> & Hbad). split; [done|].
    eexists _, _. split; [reflexivity|]. split; [reflexivity|]. exact Hbad.
Qed.

End FalsifyBlockFacts.

(** X17. [falsify_block] with every index in range returns; the targeted
    blocks have the marker as data and as hash the digest of their new
    content, with index, timestamp, nonce and previous hash unchanged; the
    other blocks, the difficulty and the cached root are as before: the
    cache is not refreshed. *)
Theorem falsify_block_effect `{Hasher} (bc : Merkle9chain.Blockchain.t)
    (indices : list Z) :
  (forall idx, idx ∈ indices ->
     0 <= idx < Z.of_nat (length (Merkle9chain.Blockchain.chain bc))) ->
  exists bc',
    Merkle9chain.Blockchain.falsify_block bc indices = (bc', Py.Ok tt) /\
    Merkle9chain.Blockchain.merkle_root bc' = Merkle9chain.Blockchain.merkle_root bc /\
    Merkle9chain.Blockchain.difficulty bc' = Merkle9chain.Blockchain.difficulty bc /\
    length (Merkle9chain.Blockchain.chain bc')
      = length (Merkle9chain.Blockchain.chain bc) /\
    forall (j : nat) (b : Merkle9chain.Block.t),
      Merkle9chain.Blockchain.chain bc !! j = Some b ->
      (Z.of_nat j ∉ indices -> Merkle9chain.Blockchain.chain bc' !! j = Some b) /\
      (Z.of_nat j ∈ indices ->
       exists b' : Merkle9chain.Block.t,
         Merkle9chain.Blockchain.chain bc' !! j = Some b' /\
         Merkle9chain.Block.data b' = "FALSIFIED DATA" /\
         Merkle9chain.Block.hash b' = Merkle9chain.Block.calculate_hash b' /\
         Merkle9chain.Block.index b' = Merkle9chain.Block.index b /\
         Merkle9chain.Block.timestamp b' = Merkle9chain.Block.timestamp b /\
         Merkle9chain.Block.nonce b' = Merkle9chain.Block.nonce b /\
         Merkle9chain.Block.previous_hash b' = Merkle9chain.Block.previous_hash b).
Proof.
  intros Hrange.
  destruct (m9_falsify_block_in_range bc indices Hrange) as (Hok & Hroot & Hdiff & Hchain).
  pose proof (m9_falsify_block_length bc indices) as Hlen.
  destruct (Merkle9chain.Blockchain.falsify_block bc indices) as [bc' r].
  cbn [fst snd] in *. subst r. exists bc'.
  split; [done|]. split; [done|]. split; [done|]. split; [done|].
  intros j b Hj. rewrite Hchain, Hj. cbn [fmap option_fmap option_map]. split.
  - intros Hout. by rewrite decide_False.
  - intros Hin. rewrite decide_True by done.
    eexists. split; [reflexivity|]. apply m9_falsify_spec.
Qed.

(** [falsify_block(bc, [1])] on the chain of three: returns, and the
    cached root is the one computed before. *)
Lemma falsify_block_effect_witness :
  exists bc',
    @Merkle9chain.Blockchain.falsify_block Concrete.hasher Concrete2.m9_chain3 [1]
      = (bc', Py.Ok tt) /\
    Merkle9chain.Blockchain.merkle_root bc'
      = Merkle9chain.Blockchain.merkle_root Concrete2.m9_chain3.
Proof.
  destruct (@falsify_block_effect Concrete.hasher Concrete2.m9_chain3 [1])
    as (bc' & Hrun & Hroot & _).
  - intros idx Hin%list_elem_of_singleton. subst idx. simpl. lia.
  - exists bc'. split; [exact Hrun | exact Hroot].
Defined.

(** X18. [falsify_block] does not guard its indices: an index at or
    beyond the length of the chain, or below its negation, raises
    [IndexError], the blocks falsified before it staying falsified and
    nothing after it being processed; an index in [-len, 0) counts from
    the end. *)
Theorem falsify_block_index_out_of_range `{Hasher} (bc : Merkle9chain.Blockchain.t)
    (before : list Z) (idx : Z) (after : list Z) :
  let len := Z.of_nat (length (Merkle9chain.Blockchain.chain bc)) in
  (forall i, i ∈ before -> 0 <= i < len) ->
  (len <= idx \/ idx < - len ->
   snd (Merkle9chain.Blockchain.falsify_block bc before) = Py.Ok tt /\
   Merkle9chain.Blockchain.falsify_block bc (before ++ idx :: after)
     = (fst (Merkle9chain.Blockchain.falsify_block bc before), Py.Raise Py.IndexError)) /\
  (- len <= idx < 0 ->
   Merkle9chain.Blockchain.falsify_block bc (idx :: after)
     = Merkle9chain.Blockchain.falsify_block bc (len + idx :: after)).
Proof.
  intros len Hrange. split.
  - intros Hout.
    destruct (m9_falsify_block_in_range bc before Hrange) as (Hok & _).
    pose proof (m9_falsify_block_length bc before) as Hlen.
    split; [done|]. rewrite m9_falsify_block_app.
    destruct (Merkle9chain.Blockchain.falsify_block bc before) as [bc' r].
    cbn [fst snd] in *. subst r. cbn [Merkle9chain.Blockchain.falsify_block].
    destruct Hout as [Hhigh|Hlow].
    + rewrite index_too_large; [done | rewrite Hlen; fold len; lia].
    + rewrite index_too_small; [done | rewrite Hlen; fold len; lia].
  - intros Hneg. cbn [Merkle9chain.Blockchain.falsify_block].
    by rewrite (index_from_end _ idx) by (fold len; lia).
Qed.

(** [falsify_block(bc, [1, 3, 2])] on the chain of three raises at 3, with
    block 1 falsified and block 2 not; index -1 is block 2. *)
Lemma falsify_block_index_out_of_range_witness :
  @Merkle9chain.Blockchain.falsify_block Concrete.hasher Concrete2.m9_chain3 [1; 3; 2]
    = (fst (@Merkle9chain.Blockchain.falsify_block Concrete.hasher Concrete2.m9_chain3
              [1]),
       Py.Raise Py.IndexError) /\
  @Merkle9chain.Blockchain.falsify_block Concrete.hasher Concrete2.m9_chain3 [-1]
    = @Merkle9chain.Blockchain.falsify_block Concrete.hasher Concrete2.m9_chain3 [2].
Proof.
  split.
  - apply (@falsify_block_index_out_of_range Concrete.hasher Concrete2.m9_chain3
             [1] 3 [2]).
    + intros i Hin%list_elem_of_singleton. subst i. simpl. lia.
    + left. simpl. lia.
  - apply (@falsify_block_index_out_of_range Concrete.hasher Concrete2.m9_chain3
             [] (-1) []).
    + intros i Hin. by apply elem_of_nil in Hin.
    + simpl. lia.
Defined.

(** X19. A falsification is recorded at the block after a targeted one:
    with the indices in range, when the block at position [j] is targeted,
    its digest changes with the data, and the block at [j + 1] was linked
    to it, the finding list of the falsified chain holds
    [(j + 1, "previous_hash incorrect")] and validation returns [False];
    and it never holds a hash finding at a targeted position. *)
Theorem falsify_block_detected_at_next_block `{Hasher}
    (bc : Merkle9chain.Blockchain.t) (indices : list Z) (j : nat)
    (b next : Merkle9chain.Block.t) :
  (forall idx, idx ∈ indices ->
     0 <= idx < Z.of_nat (length (Merkle9chain.Blockchain.chain bc))) ->
  Z.of_nat j ∈ indices ->
  Merkle9chain.Blockchain.chain bc !! j = Some b ->
  Merkle9chain.Blockchain.chain bc !! S j = Some next ->
  Merkle9chain.Block.previous_hash next = Merkle9chain.Block.hash b ->
  Merkle9chain.Block.hash (Merkle9chain.Blockchain.falsify b)
    <> Merkle9chain.Block.hash b ->
  let bc' := fst (Merkle9chain.Blockchain.falsify_block bc indices) in
  (Z.of_nat (S j), "previous_hash incorrect")
    ∈ Merkle9chain.Blockchain.invalid_blocks bc' /\
  ~ ((Z.of_nat j, "Hash falsifié") ∈ Merkle9chain.Blockchain.invalid_blocks bc') /\
  fst (Merkle9chain.Blockchain.is_chain_valid bc') = false.
Proof.
  intros Hrange Hin Hb Hnext Hlink Hchanged bc'.
  assert (Hfinding : Spec.m9_finding bc' (S j) LinkMismatch).
  { apply m9_falsify_block_finding; [done|]. split; [lia|].
    exists next, b. replace (S j - 1)%nat with j by lia.
    split; [done|]. split; [done|]. cbn zeta.
    rewrite (decide_True (P := Z.of_nat j ∈ indices)) by done.
    rewrite m9_falsify_previous_hash by (destruct (decide _); auto). congruence. }
  split; [|split].
  - by apply (m9_invalid_blocks_elem bc' (S j) LinkMismatch).
  - intros Hhash. apply (m9_invalid_blocks_elem bc' j HashMismatch) in Hhash.
    apply m9_falsify_block_finding in Hhash
      as (_ & current & previous & Hc & _ & Hbad); [|done].
    cbn zeta in Hbad. rewrite decide_True in Hbad by done.
    by destruct (m9_falsify_spec current) as (_ & ? & _).
  - destruct (fst (Merkle9chain.Blockchain.is_chain_valid bc')) eqn:Hv; [|done].
    by destruct (proj1 (m9_is_chain_valid_true bc') Hv (S j) LinkMismatch).
Qed.

Lemma falsify_block_detected_at_next_block_witness :
  fst (@Merkle9chain.Blockchain.is_chain_valid Concrete.hasher
         (fst (@Merkle9chain.Blockchain.falsify_block Concrete.hasher
                 Concrete2.m9_chain3 [1]))) = false.
Proof.
  apply (@falsify_block_detected_at_next_block Concrete.hasher Concrete2.m9_chain3
           [1] 1 Concrete2.m9_block1 Concrete2.m9_block2).
  - intros idx Hin%list_elem_of_singleton. subst idx. simpl. lia.
  - by left.
  - reflexivity.
  - reflexivity.
  - reflexivity.
  - vm_compute. discriminate.
Defined.

(** ** Printing *)
Section DisplayFacts.
Context `{Hasher}.

Lemma display_Printed_length (self : Exam.Blockchain.t) (lines : list string) :
  Display.display self = Display.Printed lines ->
  length lines = S (length (Exam.Blockchain.chain self)).
Proof.
  unfold Display.display. destruct (Exam.Blockchain.merkle_root self); [|done].
  intros [= <-]. cbn [length]. by rewrite length_map.
Qed.

(** Replicas that all have a cached root and nine blocks are displayed
    in eleven lines each. *)
Lemma display_from_complete (i : nat) (nodes : list Exam.Blockchain.t) :
  (forall bc, bc ∈ nodes ->
     length (Exam.Blockchain.chain bc) = 9%nat /\
     is_Some (Exam.Blockchain.merkle_root bc)) ->
  exists lines,
    Display.display_from i nodes = Display.Printed lines /\
    length lines = (11 * length nodes)%nat.
Proof.
  revert i. induction nodes as [|bc rest IH]; intros i Hall;
    cbn [Display.display_from]; [by exists []|].
  destruct (Hall bc) as [Hlen [root Hroot]]; [left|].
  destruct (IH (S i)) as (more & -> & Hmore).
  { intros bc' Hin. apply Hall. by right. }
  unfold Display.display. rewrite Hroot.
  eexists. split; [reflexivity|].
  cbn [length app]. rewrite length_app, length_map, Hlen, Hmore. lia.
Qed.

End DisplayFacts.

(** X20. [exam.py]'s [display] raises [TypeError] before printing
    anything exactly when the root was never cached, as on a chain just
    constructed; with a cached root it prints one line and one more per
    block.  After [compute_merkle_root] it prints, unless the chain has no
    block. *)
Theorem display_needs_cached_root `{Hasher, Clock} (self : Exam.Blockchain.t) :
  (Display.display self = Display.TypeError [] <->
   Exam.Blockchain.merkle_root self = None) /\
  (Exam.Blockchain.merkle_root self <> None ->
   exists lines, Display.display self = Display.Printed lines /\
                 length lines = S (length (Exam.Blockchain.chain self))) /\
  (forall fuel difficulty k bc k',
     Py.run (Exam.Blockchain.__init__ fuel difficulty) k = Py.Ok (bc, k') ->
     Display.display bc = Display.TypeError []) /\
  (Exam.Blockchain.chain self <> [] ->
   exists lines,
     Display.display (snd (Exam.Blockchain.compute_merkle_root self))
     = Display.Printed lines).
Proof.
  split; [|split; [|split]].
  - unfold Display.display. by destruct (Exam.Blockchain.merkle_root self).
  - intros Hsome. destruct (Display.display self) as [lines|lines] eqn:Hd.
    + exists lines. split; [done|]. by apply display_Printed_length.
    + unfold Display.display in Hd. by destruct (Exam.Blockchain.merkle_root self).
  - by intros fuel difficulty k bc k' (-> & genesis & -> & _)%exam_chain_init_Ok.
  - intros Hne. unfold Display.display, Exam.Blockchain.compute_merkle_root.
    cbn [snd Exam.Blockchain.merkle_root Exam.Blockchain.chain].
    destruct (exam_merkle_root_total
                (map Exam.Block.hash (Exam.Blockchain.chain self))) as [root ->]; [|eauto].
    by destruct (Exam.Blockchain.chain self).
Qed.

(** The chain of three, root cached: four lines. *)
Lemma display_needs_cached_root_witness :
  exists lines,
    Display.display Concrete.exam_chain3 = Display.Printed lines /\
    length lines = 4%nat.
Proof.
  apply (@display_needs_cached_root Concrete.hasher Concrete.clock Concrete.exam_chain3).
  discriminate.
Defined.

(** X21. On a network as [Network(node_count, difficulty)] returns it,
    [display_all] prints without raising, eleven calls of [print] per
    replica: the replica's header, the chain's header and nine blocks. *)
Theorem display_all_after_construction `{Hasher, Clock} (fuel : nat)
    (node_count difficulty : Z) (k : nat) (net : Exam.Network.t) (k' : nat) :
  Py.run (Exam.Network.__init__ fuel node_count difficulty) k = Py.Ok (net, k') ->
  exists lines,
    Display.display_all net = Display.Printed lines /\
    length lines = (11 * Z.to_nat node_count)%nat.
Proof.
  intros (_ & Hlen & _ & _ & Hall)%exam_network_init_Ok.
  unfold Display.display_all. rewrite <- Hlen. apply display_from_complete.
  intros bc Hin. destruct (Hall bc Hin) as (Hl & _ & Hv). split; [done|].
  assert (Hc : Spec.exam_merkle_consistent bc).
  { apply (exam_is_chain_valid_true bc). by rewrite Hv. }
  unfold Spec.exam_merkle_consistent in Hc. rewrite <- Hc.
  apply exam_merkle_root_total. destruct (Exam.Blockchain.chain bc); [done | done].
Qed.

Lemma display_all_after_construction_witness :
  exists lines,
    Display.display_all Concrete2.exam_network_1_1 = Display.Printed lines /\
    length lines = 11%nat.
Proof.
  apply (@display_all_after_construction Concrete.hasher Concrete.clock 64 1 1 0%nat
           Concrete2.exam_network_1_1 9%nat).
  vm_compute. reflexivity.
Defined.

(** X22. [run_verification] ends on the verdict, which follows the
    findings alone: the last line says "Intègre" exactly when no check
    fails at any position.  On a chain with no finding whose cached root
    is not the root of its hashes, it prints that the root is invalid,
    that chain and root are valid, and the verdict "Intègre". *)
Theorem run_verification_verdict `{Hasher} (name : string)
    (chain : Merkle9chain.Blockchain.t) :
  (last (Display.run_verification name chain) = Some "État :  Intègre" <->
   More.m9_sound chain) /\
  (last (Display.run_verification name chain) = Some "État :  Compromise" <->
   ~ More.m9_sound chain) /\
  (More.m9_sound chain -> ~ Spec.m9_merkle_consistent chain ->
   Display.run_verification name chain
   = [Display.newline +:+ "🔍 Vérification de la " +:+ name;
      " Merkle Root invalide";
      " Blockchain et Merkle Root valides.";
      "État :  Intègre"]).
Proof.
  pose proof (m9_is_chain_valid_true chain) as Hvalid.
  unfold Display.run_verification.
  destruct (Merkle9chain.Blockchain.is_chain_valid chain) as [valid lines] eqn:Hrun.
  cbn [fst] in Hvalid.
  assert (Hlast : forall x : string,
            last ((Display.newline +:+ "🔍 Vérification de la " +:+ name)
                    :: lines ++ [x]) = Some x).
  { intros x. by rewrite app_comm_cons, last_snoc. }
  rewrite !Hlast. unfold More.m9_sound.
  split; [|split].
  - destruct valid; [|split; [done|]].
    + split; [intros _; by apply Hvalid | done].
    + intros Hs. by apply Hvalid in Hs.
  - destruct valid; split; try done.
    + intros Hns. exfalso. apply Hns. by apply Hvalid.
    + intros _ Hs. by apply Hvalid in Hs.
  - intros Hsound Hstale. apply Hvalid in Hsound. subst valid.
    unfold Merkle9chain.Blockchain.is_chain_valid in Hrun.
    unfold Spec.m9_merkle_consistent in Hstale.
    rewrite bool_decide_eq_true_2 in Hrun by done.
    destruct (Merkle9chain.Blockchain.invalid_blocks chain); [|done].
    by injection Hrun as <-.
Qed.

(** The tampered genesis-only chain: root reported invalid, verdict
    "Intègre". *)
Lemma run_verification_verdict_witness :
  @Display.run_verification Concrete.hasher "chaîne 8" Concrete.m9_tampered
  = [Display.newline +:+ "🔍 Vérification de la " +:+ "chaîne 8";
     " Merkle Root invalide";
     " Blockchain et Merkle Root valides.";
     "État :  Intègre"].
Proof.
  apply (@run_verification_verdict Concrete.hasher "chaîne 8" Concrete.m9_tampered).
  - intros i p [Hi (c & q & Hc%lookup_lt_Some & _)]. simpl in Hc. lia.
  - unfold Spec.m9_merkle_consistent. rewrite m9_merkle_root_value. vm_compute.
    discriminate.
Defined.
